(** * ETAS goodness-of-fit plots: a shallow embedding of [etas/plots.py]

    The development follows the source file top to bottom:

    - [NumPy]    : the numeric values and the array routines of numpy and
                   pandas that the source calls ([np.logspace],
                   [np.histogram], [np.arange], [np.nansum], ...);
    - [Plots]    : [temporal_decay_plot], [productivity_plot],
                   [spatial_kernel] and [spatial_decay_plot];
    - [ETASFitVisualisation] : the constructor of the class, over a store
                   of dictionaries, because it writes into the dictionaries
                   it is handed.

    Numbers.  A Python float is modelled by [npfloat]: a real number, one of
    the two infinities, or NaN.  Arithmetic on finite values is exact (the
    rounding of binary64 and overflow are not modelled) and zero carries no
    sign; the special values follow IEEE 754, which is what numpy
    implements.  Everything stated below about sums being equal to one or
    fields being unchanged is therefore a statement about exact arithmetic.

    Plotting.  The calls into matplotlib are the only effect of the three
    plot routines.  A routine is modelled by the value of everything it
    hands to matplotlib (the curves, the scattered points, the reference
    lines and the file name); an exception raised by numpy before the
    drawing starts is a [Raise]. *)

From Stdlib Require Import Reals Lra Lia List ZArith Bool.
From Stdlib Require Floats.
From stdpp Require Import gmap strings.
Import ListNotations.

(** ** Exceptions *)

Inductive exn : Type :=
| ValueError
| KeyError (key : string)
| TypeError.

Inductive result (A : Type) : Type :=
| Ok (a : A)
| Raise (e : exn).
Arguments Ok {A} a.
Arguments Raise {A} e.

#[global] Instance result_ret : MRet result := fun _ a => Ok a.
#[global] Instance result_bind : MBind result := fun _ _ f m =>
  match m with
  | Ok a => f a
  | Raise e => Raise e
  end.

(** ** Floating-point values and numpy's array routines *)

Module NumPy.
Local Open Scope R_scope.

Inductive npfloat : Type :=
| Fin (r : R)
| PInf
| NInf
| NaN.

Definition isnan (x : npfloat) : bool :=
  match x with NaN => true | _ => false end.

Definition isfinite (x : npfloat) : bool :=
  match x with Fin _ => true | _ => false end.

(** [r * inf]: the infinity with the sign of [r], NaN when [r] is zero. *)
Definition inf_of_sign (r : R) : npfloat :=
  if Rlt_dec 0 r then PInf else if Rlt_dec r 0 then NInf else NaN.

Definition nneg (x : npfloat) : npfloat :=
  match x with
  | Fin r => Fin (- r)
  | PInf => NInf
  | NInf => PInf
  | NaN => NaN
  end.

Definition nadd (x y : npfloat) : npfloat :=
  match x, y with
  | NaN, _ | _, NaN => NaN
  | Fin a, Fin b => Fin (a + b)
  | PInf, NInf | NInf, PInf => NaN
  | PInf, _ | _, PInf => PInf
  | NInf, _ | _, NInf => NInf
  end.

Definition nsub (x y : npfloat) : npfloat := nadd x (nneg y).

Definition nmul (x y : npfloat) : npfloat :=
  match x, y with
  | NaN, _ | _, NaN => NaN
  | Fin a, Fin b => Fin (a * b)
  | Fin a, PInf | PInf, Fin a => inf_of_sign a
  | Fin a, NInf | NInf, Fin a => inf_of_sign (- a)
  | PInf, PInf | NInf, NInf => PInf
  | PInf, NInf | NInf, PInf => NInf
  end.

(** Division: a finite value over zero is an infinity (NaN for 0/0), a
    finite value over an infinity is zero. *)
Definition ndiv (x y : npfloat) : npfloat :=
  match x, y with
  | NaN, _ | _, NaN => NaN
  | Fin a, Fin b => if Req_dec_T b 0 then inf_of_sign a else Fin (a / b)
  | Fin _, _ => Fin 0
  | PInf, Fin b => if Rlt_dec b 0 then NInf else PInf
  | NInf, Fin b => if Rlt_dec b 0 then PInf else NInf
  | _, _ => NaN
  end.

(** Comparisons are false as soon as one side is NaN. *)
Definition nlt (x y : npfloat) : bool :=
  match x, y with
  | NaN, _ | _, NaN => false
  | Fin a, Fin b => if Rlt_dec a b then true else false
  | NInf, NInf => false
  | NInf, _ => true
  | PInf, _ => false
  | Fin _, PInf => true
  | Fin _, NInf => false
  end.

Definition ngt (x y : npfloat) : bool := nlt y x.

Definition neq (x y : npfloat) : bool :=
  match x, y with
  | Fin a, Fin b => if Req_dec_T a b then true else false
  | PInf, PInf | NInf, NInf => true
  | _, _ => false
  end.

(** The order numpy sorts by (and [searchsorted] searches by): the order of
    the numbers, with every NaN after everything else. *)
Definition sort_lt (x y : npfloat) : bool :=
  match x, y with
  | NaN, _ => false
  | _, NaN => true
  | _, _ => nlt x y
  end.

Definition sort_le (x y : npfloat) : bool := negb (sort_lt y x).

(** [np.exp], on the exact value: a float [exp] rounds, and underflows to
    zero for very negative arguments, so the statements below take its
    result to be non-negative, never positive. *)
Definition nexp (x : npfloat) : npfloat :=
  match x with
  | Fin r => Fin (exp r)
  | PInf => PInf
  | NInf => Fin 0
  | NaN => NaN
  end.

(** [np.log]: the natural logarithm. *)
Definition nlog (x : npfloat) : npfloat :=
  match x with
  | Fin r => if Rlt_dec 0 r then Fin (ln r)
             else if Rlt_dec r 0 then NaN else NInf
  | PInf => PInf
  | NInf | NaN => NaN
  end.

(** [np.log10], on the exact value: with floats [log10(10**x)] is [x] up to
    rounding only, and the statements about what the constructor stores keep
    the composition as it is written. *)
Definition nlog10 (x : npfloat) : npfloat :=
  match x with
  | Fin r => if Rlt_dec 0 r then Fin (ln r / ln 10)
             else if Rlt_dec r 0 then NaN else NInf
  | PInf => PInf
  | NInf | NaN => NaN
  end.

Definition nsqrt (x : npfloat) : npfloat :=
  match x with
  | Fin r => if Rlt_dec r 0 then NaN else Fin (sqrt r)
  | PInf => PInf
  | NInf | NaN => NaN
  end.

Definition Rfloor (r : R) : Z := (up r - 1)%Z.
Definition Rceil (r : R) : Z := (- Rfloor (- r))%Z.
Definition is_integer (r : R) : bool :=
  if Req_dec_T r (IZR (Rfloor r)) then true else false.

(** [x ** y] and [np.power(x, y)] on floats, with the special cases of the
    C library's [pow]. *)
Definition npow (x y : npfloat) : npfloat :=
  if neq y (Fin 0) then Fin 1
  else if neq x (Fin 1) then Fin 1
  else
    match x, y with
    | NaN, _ | _, NaN => NaN
    | Fin a, Fin b =>
        if Rlt_dec 0 a then Fin (Rpower a b)
        else if Rlt_dec a 0 then
          if is_integer b then
            if Z.even (Rfloor b) then Fin (Rpower (- a) b)
            else Fin (- Rpower (- a) b)
          else NaN
        else if Rlt_dec b 0 then PInf else Fin 0
    | Fin a, PInf =>
        if Rlt_dec (Rabs a) 1 then Fin 0
        else if Rlt_dec 1 (Rabs a) then PInf else Fin 1
    | Fin a, NInf =>
        if Rlt_dec (Rabs a) 1 then PInf
        else if Rlt_dec 1 (Rabs a) then Fin 0 else Fin 1
    | PInf, Fin b => if Rlt_dec b 0 then Fin 0 else PInf
    | PInf, PInf => PInf
    | PInf, NInf => Fin 0
    | NInf, Fin b =>
        if Rlt_dec b 0 then Fin 0
        else if is_integer b && negb (Z.even (Rfloor b)) then NInf else PInf
    | NInf, PInf => PInf
    | NInf, NInf => Fin 0
    end.

(** [np.rint]: the nearest integer, a tie going to the even one. *)
Definition Rrint (r : R) : Z :=
  let n := Rfloor r in
  let f := r - IZR n in
  if Rlt_dec f (1 / 2) then n
  else if Rlt_dec (1 / 2) f then (n + 1)%Z
  else if Z.even n then n else (n + 1)%Z.

Definition nrint (x : npfloat) : npfloat :=
  match x with
  | Fin r => Fin (IZR (Rrint r))
  | _ => x
  end.

(** [np.round(x, decimals)]: scale by the power of ten, round to the
    nearest integer, scale back. *)
Definition round (x : npfloat) (decimals : nat) : npfloat :=
  ndiv (nrint (nmul x (Fin (10 ^ decimals)))) (Fin (10 ^ decimals)).

(** *** Arrays

    A one-dimensional array of floats, and a pandas column, is a list.  The
    elementwise operations are only ever applied to arrays of one length
    in the source (a slice and its shifted copy, or two columns of one
    table). *)

Definition vadd : list npfloat -> list npfloat -> list npfloat := zip_with nadd.
Definition vsub : list npfloat -> list npfloat -> list npfloat := zip_with nsub.
Definition vmul : list npfloat -> list npfloat -> list npfloat := zip_with nmul.
Definition vdiv : list npfloat -> list npfloat -> list npfloat := zip_with ndiv.
Definition vsqrt : list npfloat -> list npfloat := map nsqrt.

(** [a / s] for a scalar [s]. *)
Definition vdivs (a : list npfloat) (s : npfloat) : list npfloat :=
  map (fun x => ndiv x s) a.

(** The slices [a[1:]], [a[:-1]] and [a[-1:]]. *)
Definition from1 (a : list npfloat) : list npfloat := tl a.
Definition upto_last (a : list npfloat) : list npfloat := removelast a.
Definition last_slice (a : list npfloat) : list npfloat :=
  skipn (length a - 1) a.

(** [np.diff(a)] is [a[1:] - a[:-1]]. *)
Definition diff (a : list npfloat) : list npfloat :=
  vsub (from1 a) (upto_last a).

(** Python's [sum] and [np.sum]: the running total, from zero. *)
Definition nsum (a : list npfloat) : npfloat := fold_left nadd a (Fin 0).

(** [np.nansum]: every NaN is replaced by zero, then [np.sum]. *)
Definition nan_to_zero (x : npfloat) : npfloat :=
  if isnan x then Fin 0 else x.
Definition nansum (a : list npfloat) : npfloat := nsum (map nan_to_zero a).

(** [np.max] and [np.min] of a pandas column dispatch to the column's own
    reduction, which skips NaN and is NaN for a column with nothing else. *)
Definition series_max (s : list npfloat) : npfloat :=
  fold_left (fun acc x =>
    if isnan x then acc
    else if isnan acc then x
    else if nlt acc x then x else acc) s NaN.

Definition series_min (s : list npfloat) : npfloat :=
  fold_left (fun acc x =>
    if isnan x then acc
    else if isnan acc then x
    else if nlt x acc then x else acc) s NaN.

(** [np.linspace(start, stop, num)], end point included: [num - 1] steps of
    equal size from [start], the last sample then overwritten by [stop]. *)
Definition linspace (start stop : npfloat) (num : nat) : list npfloat :=
  match num with
  | O => []
  | S O => [start]
  | S div =>
      let step := ndiv (nsub stop start) (Fin (INR div)) in
      map (fun i => nadd (nmul (Fin (INR i)) step) start) (seq 0 div)
      ++ [stop]
  end.

(** [np.logspace(start, stop)]: [num] defaults to 50 and [base] to 10. *)
Definition logspace_num : nat := 50.
Definition logspace (start stop : npfloat) : list npfloat :=
  map (fun y => npow (Fin 10) y) (linspace start stop logspace_num).

(** [np.arange(start, stop, step)]: [ceil((stop - start) / step)] samples
    [start + i * step]; no sample when that length is not positive, and a
    [ValueError] when it is not a number.  The quotient here is the exact
    one; numpy rounds it to a float before it takes the ceiling, which
    moves the length by one where the quotient is within rounding of a whole
    number. *)
Definition arange (start stop step : npfloat) : result (list npfloat) :=
  match ndiv (nsub stop start) step with
  | Fin q =>
      Ok (map (fun i => nadd start (nmul (Fin (INR i)) step))
              (seq 0 (Z.to_nat (Rceil q))))
  | _ => Raise ValueError
  end.

(** [np.histogram(a, bins=edges, weights=w)] for an array of edges.  numpy
    sorts the samples, accumulates the weights in that order and reads the
    running total at the position of every edge: the total weight of the
    samples before the edge, the last edge counting the samples equal to it
    as well.  The counts are the differences of consecutive totals.  Edges
    that decrease somewhere are refused, and so are weights of another
    length than the samples. *)
Definition weight_where (a w : list npfloat) (p : npfloat -> bool) : npfloat :=
  nsum (map snd (List.filter (fun s => p (fst s)) (zip a w))).

Definition cum_n (a w bins : list npfloat) : list npfloat :=
  map (fun e => weight_where a w (fun x => sort_lt x e)) (upto_last bins)
  ++ map (fun e => weight_where a w (fun x => sort_le x e)) (last_slice bins).

Definition histogram (a bins w : list npfloat) : result (list npfloat) :=
  if negb (length a =? length w)%nat then Raise ValueError
  else if existsb (fun b => b) (zip_with ngt (upto_last bins) (from1 bins))
       then Raise ValueError
  else Ok (diff (cum_n a w bins)).

(** Without weights every sample counts for one. *)
Definition histogram_unweighted (a bins : list npfloat)
  : result (list npfloat) :=
  histogram a bins (map (fun _ => Fin 1) a).

(** The finite part of a value: what [np.nansum] adds up when its total is
    finite. *)
Definition fin_part (x : npfloat) : R :=
  match x with Fin r => r | _ => 0 end.

Definition Rsum (l : list R) : R := fold_right Rplus 0 l.

(** The [i]-th of 50 logarithmically spaced values from [10^a] to [10^b]:
    the exponents are equally spaced. *)
Definition log_edge (a b : R) (i : nat) : R :=
  Rpower 10 (a + INR i * ((b - a) / 49)).

End NumPy.

(** ** The plot routines *)

Module Plots.
Import NumPy.
Local Open Scope R_scope.

(** A row of the event-pair table [Pmat] and a row of the catalog, with the
    columns the source reads. *)
Record PairRow : Type := {
  time_distance : npfloat;
  spatial_distance_squared : npfloat;
  source_magnitude : npfloat;
  Pij : npfloat;
  zeta_plus_1 : npfloat
}.

Record CatalogRow : Type := { magnitude : npfloat }.

(** [df[name]]: one column of a table. *)
Definition col {Row : Type} (name : Row -> npfloat) (df : list Row)
  : list npfloat := map name df.

(** A parameter dictionary, and the dictionary of comparison sets in the
    order of its keys. *)
Abbreviation params_dict := (gmap string npfloat).

Definition getitem (d : params_dict) (key : string) : result npfloat :=
  match d !! key with
  | Some v => Ok v
  | None => Raise (KeyError key)
  end.

(** What a routine hands to matplotlib. *)
Record Curve : Type := {
  curve_label : option string;
  curve_x : list npfloat;
  curve_y : list npfloat
}.

Record TextNote : Type := {
  note_x : npfloat;
  note_y : npfloat;
  note_caption : string;
  note_value : npfloat
}.

Inductive FileName : Type :=
| Plain (name : string)
| WithMagnitude (name : string) (mag : npfloat).

Record Figure : Type := {
  curves : list Curve;
  scatter_x : list npfloat;
  scatter_y : list npfloat;
  vlines : list npfloat;
  notes : list TextNote;
  saved_as : FileName
}.

(** The weight of every event pair: [Pmat["Pij"] * Pmat["zeta_plus_1"]]. *)
Definition pair_weights (Pmat : list PairRow) : list npfloat :=
  vmul (col Pij Pmat) (col zeta_plus_1 Pmat).

(** *** [temporal_decay_plot] *)

(** The time kernel, written in line in the source (lines 45 and 81):
    [np.exp(-t/tau) / (t+c)**(1+omega)]. *)
Definition temporal_kernel (t tau c omega : npfloat) : npfloat :=
  ndiv (nexp (ndiv (nneg t) tau)) (npow (nadd t c) (nadd (Fin 1) omega)).

Definition time_bins : list npfloat := logspace (Fin (-4)) (Fin 4).
Definition time_bins_sizes : list npfloat :=
  vsub (from1 time_bins) (upto_last time_bins).
Definition tmid : list npfloat :=
  vdivs (vadd (upto_last time_bins) (from1 time_bins)) (Fin 2).

Definition time_decay (tau c omega : npfloat) : list npfloat :=
  map (fun t => temporal_kernel t tau c omega) tmid.

Definition time_decay_scaled (tau c omega : npfloat) : list npfloat :=
  vdivs (time_decay tau c omega) (nsum (time_decay tau c omega)).

(** Lines 47-51. *)
Definition temporal_counts (Pmat : list PairRow) : result (list npfloat) :=
  histogram (col time_distance Pmat) time_bins (pair_weights Pmat).

(** Lines 55-56. *)
Definition temporal_counts_scaled (counts : list npfloat) : list npfloat :=
  let counts_scaled := vdiv counts time_bins_sizes in
  vdivs counts_scaled (nsum counts_scaled).

(** Lines 76-84: one more curve for every comparison set. *)
Definition temporal_comparison_curve (entry : string * params_dict)
  : result Curve :=
  tau ← getitem entry.2 "tau";
  c ← getitem entry.2 "c";
  omega ← getitem entry.2 "omega";
  mret {| curve_label := Some entry.1;
          curve_x := tmid;
          curve_y := time_decay_scaled tau c omega |}.

Definition temporal_decay_plot (Pmat : list PairRow) (tau c omega : npfloat)
    (label : option string) (comparison_params : list (string * params_dict))
    (file_name : string) : result Figure :=
  counts ← temporal_counts Pmat;
  others ← mapM temporal_comparison_curve comparison_params;
  mret {| curves := {| curve_label := label;
                       curve_x := tmid;
                       curve_y := time_decay_scaled tau c omega |} :: others;
          scatter_x := tmid;
          scatter_y := temporal_counts_scaled counts;
          vlines := [tau; c];
          notes := [ {| note_x := nadd tau (Fin 1000);
                        note_y := Fin (/ 10000);
                        note_caption := "log10(tau)=";
                        note_value := round (nlog10 tau) 2 |};
                     {| note_x := nadd c (Fin (/ 1000));
                        note_y := Fin (/ 100000);
                        note_caption := "log10(c)=";
                        note_value := round (nlog10 c) 2 |} ];
          saved_as := Plain file_name |}.

(** *** [productivity_plot] *)

(** Lines 128-130: the magnitude bins. *)
Definition magnitude_bins (catalog : list CatalogRow) (delta_m : npfloat)
  : result (list npfloat) :=
  let min_mag := series_min (col magnitude catalog) in
  let max_mag := series_max (col magnitude catalog) in
  arange (nsub min_mag (ndiv delta_m (Fin 2)))
         (nadd max_mag (ndiv delta_m (Fin 2)))
         delta_m.

(** Line 131. *)
Definition bin_magnitudes (bins : list npfloat) : list npfloat :=
  vdivs (vadd (from1 bins) (upto_last bins)) (Fin 2).

(** Lines 136-144: the weighted counts of the event pairs per bin, over
    the number of catalog events per bin. *)
Definition productivity_counts (Pmat : list PairRow) (bins : list npfloat)
  : result (list npfloat) :=
  histogram (col source_magnitude Pmat) bins (pair_weights Pmat).

Definition productivity_counts_scaled (Pmat : list PairRow)
    (catalog : list CatalogRow) (bins : list npfloat)
  : result (list npfloat) :=
  counts ← productivity_counts Pmat bins;
  how_many ← histogram_unweighted (col magnitude catalog) bins;
  mret (vdiv counts how_many).

Section Productivity.

(** The two functions imported from [etas.inversion], which is not part
    of this file: they are taken as they come. *)
Variable parameter_dict2array : params_dict -> result (list npfloat).
Variable expected_aftershocks :
  list npfloat -> list npfloat * npfloat -> bool -> bool ->
  result (list npfloat).

(** Lines 133-134 and 151-153. *)
Definition n_expected (magnitudes : list npfloat) (params : params_dict)
    (mc : npfloat) : result (list npfloat) :=
  arr ← parameter_dict2array params;
  expected_aftershocks magnitudes (from1 arr, mc) true true.

Definition productivity_comparison_curve (magnitudes : list npfloat)
    (mc : npfloat) (entry : string * params_dict) : result Curve :=
  n ← n_expected magnitudes entry.2 mc;
  mret {| curve_label := Some entry.1;
          curve_x := magnitudes;
          curve_y := n |}.

Definition productivity_plot (Pmat : list PairRow)
    (catalog : list CatalogRow) (params : params_dict)
    (mc delta_m : npfloat) (label : option string)
    (comparison_params : list (string * params_dict))
    (file_name : string) : result Figure :=
  bins ← magnitude_bins catalog delta_m;
  let magnitudes := bin_magnitudes bins in
  n ← n_expected magnitudes params mc;
  counts_scaled ← productivity_counts_scaled Pmat catalog bins;
  others ← mapM (productivity_comparison_curve magnitudes mc)
                comparison_params;
  mret {| curves := {| curve_label := label;
                       curve_x := magnitudes;
                       curve_y := n |} :: others;
          scatter_x := magnitudes;
          scatter_y := counts_scaled;
          vlines := [];
          notes := [];
          saved_as := Plain file_name |}.

End Productivity.

(** *** [spatial_kernel] and [spatial_decay_plot] *)

Definition spatial_kernel (dist d gamma rho m mc : npfloat) : npfloat :=
  ndiv (Fin 1)
       (npow (nadd dist (nmul d (nexp (nmul gamma (nsub m mc)))))
             (nadd (Fin 1) rho)).

(** Line 216: the rows whose source magnitude, rounded to one decimal, is
    the requested magnitude rounded to one decimal. *)
Definition Psubmat (Pmat : list PairRow) (moi : npfloat) : list PairRow :=
  List.filter (fun row => neq (round (source_magnitude row) 1) (round moi 1))
              Pmat.

(** Lines 218-222. *)
Definition max_dist (Pmat : list PairRow) (moi : npfloat) : npfloat :=
  nsqrt (series_max (col spatial_distance_squared (Psubmat Pmat moi))).

Definition distance_bins (Pmat : list PairRow) (moi : npfloat)
  : list npfloat :=
  logspace (Fin (-1)) (nlog (max_dist Pmat moi)).

Definition distances (bins : list npfloat) : list npfloat :=
  vdivs (vadd (from1 bins) (upto_last bins)) (Fin 2).

Definition distance_bins_sizes (bins : list npfloat) : list npfloat :=
  vsub (from1 bins) (upto_last bins).

(** Lines 224-225 and 243-244. *)
Definition spatial_decay_scaled (bins : list npfloat)
    (d gamma rho moi mc : npfloat) : list npfloat :=
  let spatial_decay :=
    map (fun x => spatial_kernel x d gamma rho moi mc) (distances bins) in
  vdivs spatial_decay (nansum spatial_decay).

(** Lines 227-231. *)
Definition spatial_counts (Pmat : list PairRow) (moi : npfloat)
  : result (list npfloat) :=
  histogram (col spatial_distance_squared (Psubmat Pmat moi))
            (distance_bins Pmat moi)
            (pair_weights (Psubmat Pmat moi)).

(** Lines 232-233. *)
Definition dist_emp_scaled (counts bins : list npfloat) : list npfloat :=
  let dist_emp := vdiv counts (distance_bins_sizes bins) in
  vdivs dist_emp (nansum dist_emp).

(** Lines 238-245. *)
Definition spatial_comparison_curve (bins : list npfloat) (moi mc : npfloat)
    (entry : string * params_dict) : result Curve :=
  d_area ← getitem entry.2 "d";
  gamma_area ← getitem entry.2 "gamma";
  rho_area ← getitem entry.2 "rho";
  mret {| curve_label := Some entry.1;
          curve_x := vsqrt (distances bins);
          curve_y := spatial_decay_scaled bins d_area gamma_area rho_area
                                          moi mc |}.

(** The body of the loop over the requested magnitudes. *)
Definition spatial_decay_figure (Pmat : list PairRow)
    (d gamma rho mc : npfloat) (label : option string)
    (comparison_params : list (string * params_dict)) (file_name : string)
    (moi : npfloat) : result Figure :=
  let bins := distance_bins Pmat moi in
  counts ← spatial_counts Pmat moi;
  others ← mapM (spatial_comparison_curve bins moi mc) comparison_params;
  mret {| curves := {| curve_label := label;
                       curve_x := vsqrt (distances bins);
                       curve_y := spatial_decay_scaled bins d gamma rho
                                                       moi mc |} :: others;
          scatter_x := vsqrt (distances bins);
          scatter_y := dist_emp_scaled counts bins;
          vlines := [];
          notes := [];
          saved_as := WithMagnitude file_name (round moi 2) |}.

Definition spatial_decay_plot (Pmat : list PairRow)
    (magnitudes : list npfloat) (d gamma rho mc : npfloat)
    (label : option string)
    (comparison_params : list (string * params_dict)) (file_name : string)
  : result (list Figure) :=
  mapM (spatial_decay_figure Pmat d gamma rho mc label comparison_params
                             file_name)
       magnitudes.

End Plots.

(** ** The class [ETASFitVisualisation]

    The constructor stores the dictionaries of [metadata] without copying
    them and then assigns into them, so a dictionary is an object in a
    store, named by a reference, and the constructor is a computation on
    that store.  The two tables are the contents of the files that
    [pd.read_csv] is pointed to. *)

Module ETASFitVisualisation.
Import NumPy Plots.
Local Open Scope R_scope.

Definition ref : Type := positive.
Abbreviation store := (gmap ref (gmap string npfloat)).

(** A computation that reads and writes the store and may raise. *)
Definition M (A : Type) : Type := store -> result (A * store).

#[global] Instance M_ret : MRet M := fun _ a h => Ok (a, h).
#[global] Instance M_bind : MBind M := fun _ _ f m h =>
  match m h with
  | Ok (a, h') => f a h'
  | Raise e => Raise e
  end.

Definition raise {A} (e : exn) : M A := fun _ => Raise e.

(** [obj[key]] and [obj[key] = v] for the dictionary behind a reference.
    A reference always names a dictionary of the store. *)
Definition getitem_at (obj : ref) (key : string) : M npfloat := fun h =>
  match h !! obj with
  | Some d =>
      match d !! key with
      | Some v => Ok (v, h)
      | None => Raise (KeyError key)
      end
  | None => Raise TypeError
  end.

Definition setitem_at (obj : ref) (key : string) (v : npfloat) : M unit :=
  fun h =>
  match h !! obj with
  | Some d => Ok (tt, <[obj := <[key := v]> d]> h)
  | None => Raise TypeError
  end.

(** Arithmetic on a value that may be [None] is a [TypeError]. *)
Definition number (v : option npfloat) : M npfloat :=
  match v with
  | Some x => mret x
  | None => raise TypeError
  end.

Fixpoint for_each {A} (body : A -> M unit) (l : list A) : M unit :=
  match l with
  | [] => mret tt
  | x :: l' => body x ≫= fun _ => for_each body l'
  end.

(** The dictionary [metadata], one field per key the constructor asks for;
    [None] is what [metadata.get(key, None)] gives for a missing key. *)
Record Metadata : Type := {
  md_catalog : list CatalogRow;
  md_Pij : list PairRow;
  md_mc : option npfloat;
  md_delta_m : option npfloat;
  md_parameters : option ref;
  md_label : option string;
  md_comparison_parameters : option (list (string * ref));
  md_magnitude_list : option (list npfloat);
  md_store_path : option string
}.

Record t : Type := {
  catalog : list CatalogRow;
  Pij : list PairRow;
  mc : option npfloat;
  delta_m : option npfloat;
  parameters : option ref;
  label : option string;
  comparison_parameters : list (string * ref);
  magnitude_list : option (list npfloat);
  store_path : option string;
  a : npfloat;
  gamma : npfloat;
  c : npfloat;
  d : npfloat;
  k : npfloat;
  mu : npfloat;
  tau : npfloat;
  omega : npfloat;
  rho : npfloat
}.

(** Line 290. *)
Definition del_m (params_mc params_delta_m self_mc self_delta_m : npfloat)
  : npfloat :=
  nsub (nsub params_mc (ndiv params_delta_m (Fin 2)))
       (nsub self_mc (ndiv self_delta_m (Fin 2))).

(** Lines 291-293. *)
Definition rescale_d (d del gamma : npfloat) : npfloat :=
  nmul d (nexp (nmul del gamma)).
Definition rescale_k (k del gamma rho : npfloat) : npfloat :=
  nmul k (nexp (nmul (nmul del gamma) rho)).
Definition rescale_mu (mu del beta : npfloat) : npfloat :=
  nmul mu (nexp (nmul (nneg del) beta)).

(** Lines 282-297: the body of the loop over the comparison sets. *)
Definition harmonise (self_mc self_delta_m : option npfloat)
    (entry : string * ref) : M unit :=
  let params := entry.2 in
  log10_mu ← getitem_at params "log10_mu";
  let mu := npow (Fin 10) log10_mu in
  log10_d ← getitem_at params "log10_d";
  let d := npow (Fin 10) log10_d in
  log10_k0 ← getitem_at params "log10_k0";
  let k := npow (Fin 10) log10_k0 in
  gamma ← getitem_at params "gamma";
  rho ← getitem_at params "rho";
  beta ← getitem_at params "beta";
  params_mc ← getitem_at params "mc";
  params_delta_m ← getitem_at params "delta_m";
  s_delta_m ← number self_delta_m;
  s_mc ← number self_mc;
  let del := del_m params_mc params_delta_m s_mc s_delta_m in
  setitem_at params "log10_mu" (nlog10 (rescale_mu mu del beta)) ≫= fun _ =>
  setitem_at params "log10_d" (nlog10 (rescale_d d del gamma)) ≫= fun _ =>
  setitem_at params "log10_k0" (nlog10 (rescale_k k del gamma rho)).

(** [ETASFitVisualisation.__init__]. *)
Definition __init__ (metadata : Metadata) : M t :=
  let comparison := default [] (md_comparison_parameters metadata) in
  parameters ← match md_parameters metadata with
               | Some p => mret p
               | None => raise TypeError
               end;
  a ← getitem_at parameters "a";
  gamma ← getitem_at parameters "gamma";
  log10_c ← getitem_at parameters "log10_c";
  log10_d ← getitem_at parameters "log10_d";
  log10_k0 ← getitem_at parameters "log10_k0";
  log10_mu ← getitem_at parameters "log10_mu";
  log10_tau ← getitem_at parameters "log10_tau";
  omega ← getitem_at parameters "omega";
  rho ← getitem_at parameters "rho";
  for_each (harmonise (md_mc metadata) (md_delta_m metadata)) comparison
  ≫= fun _ =>
  mret {| catalog := md_catalog metadata;
          Pij := md_Pij metadata;
          mc := md_mc metadata;
          delta_m := md_delta_m metadata;
          parameters := md_parameters metadata;
          label := md_label metadata;
          comparison_parameters := comparison;
          magnitude_list := md_magnitude_list metadata;
          store_path := md_store_path metadata;
          a := a;
          gamma := gamma;
          c := npow (Fin 10) log10_c;
          d := npow (Fin 10) log10_d;
          k := npow (Fin 10) log10_k0;
          mu := npow (Fin 10) log10_mu;
          tau := npow (Fin 10) log10_tau;
          omega := omega;
          rho := rho |}.

End ETASFitVisualisation.

(** ** Inputs used in the examples *)

Module Scenarios.
Import NumPy Plots.
Local Open Scope R_scope.

Definition pair (t dist2 mag p zeta : R) : PairRow :=
  {| time_distance := Fin t;
     spatial_distance_squared := Fin dist2;
     source_magnitude := Fin mag;
     Pij := Fin p;
     zeta_plus_1 := Fin zeta |}.

(** Ten catalog events, all of magnitude 3.0, and five event pairs
    triggered by an event of magnitude 3.0. *)
Definition catalog_3 : list CatalogRow := repeat {| magnitude := Fin 3 |} 10.

Definition pairs_3 : list PairRow :=
  [ pair 1 4 3 (1 / 2) 1;
    pair 2 9 3 (1 / 4) (3 / 2);
    pair 5 16 3 (1 / 8) 1;
    pair 10 25 3 (1 / 10) 2;
    pair 20 100 3 (1 / 20) 1 ].

(** One event pair at magnitude 3.0, its events 10 km apart. *)
Definition one_pair_3 : list PairRow := [ pair 1 100 3 1 1 ].

(** One event pair at magnitude 3.0, its events 1 km and 10^4 days apart:
    the time lag is the last time bin edge, and the squared distance the
    last distance bin edge. *)
Definition far_pair_3 : list PairRow := [ pair 10000 1 3 1 1 ].

(** The quotient whose ceiling is the number of magnitude bin edges for
    [catalog_3] and [delta_m = 0.1], in binary64 arithmetic; the literal is
    the float nearest to 0.1. *)
Module Binary64.
Import PrimFloat.
Definition delta_m : float := 0x1.999999999999ap-4.
Definition edges_quotient : float :=
  ((3 + delta_m / 2) - (3 - delta_m / 2)) / delta_m.
End Binary64.

(** A store with the dictionary of the primary parameters and the
    dictionary of one comparison region, whose completeness magnitude is
    [region_mc], and the [metadata] that refers to them; the primary
    completeness magnitude is 3.0. *)
Definition primary_params : gmap string npfloat :=
  list_to_map
    [ ("a", Fin 2); ("gamma", Fin 1); ("log10_c", Fin (-2));
      ("log10_d", Fin (-1)); ("log10_k0", Fin (-2)); ("log10_mu", Fin (-6));
      ("log10_tau", Fin 4); ("omega", Fin (-1 / 10)); ("rho", Fin (1 / 2)) ].

Definition region_params (region_mc : R) : gmap string npfloat :=
  list_to_map
    [ ("log10_mu", Fin (-6)); ("log10_d", Fin (-1)); ("log10_k0", Fin (-2));
      ("gamma", Fin 1); ("rho", Fin (1 / 2)); ("beta", Fin 2);
      ("mc", Fin region_mc); ("delta_m", Fin (1 / 10)) ].

Definition session_store (region_mc : R)
  : gmap positive (gmap string npfloat) :=
  <[2%positive := region_params region_mc]>
    (<[1%positive := primary_params]> ∅).

Definition session_metadata : ETASFitVisualisation.Metadata :=
  {| ETASFitVisualisation.md_catalog := catalog_3;
     ETASFitVisualisation.md_Pij := pairs_3;
     ETASFitVisualisation.md_mc := Some (Fin 3);
     ETASFitVisualisation.md_delta_m := Some (Fin (1 / 10));
     ETASFitVisualisation.md_parameters := Some 1%positive;
     ETASFitVisualisation.md_label := Some "primary";
     ETASFitVisualisation.md_comparison_parameters :=
       Some [("region", 2%positive)];
     ETASFitVisualisation.md_magnitude_list := Some [Fin 3];
     ETASFitVisualisation.md_store_path := Some "fits" |}.



(** The object that the constructor makes of [session_metadata]. *)
Definition session_self : ETASFitVisualisation.t :=
  {| ETASFitVisualisation.catalog := catalog_3;
     ETASFitVisualisation.Pij := pairs_3;
     ETASFitVisualisation.mc := Some (Fin 3);
     ETASFitVisualisation.delta_m := Some (Fin (1 / 10));
     ETASFitVisualisation.parameters := Some 1%positive;
     ETASFitVisualisation.label := Some "primary";
     ETASFitVisualisation.comparison_parameters := [("region", 2%positive)];
     ETASFitVisualisation.magnitude_list := Some [Fin 3];
     ETASFitVisualisation.store_path := Some "fits";
     ETASFitVisualisation.a := Fin 2;
     ETASFitVisualisation.gamma := Fin 1;
     ETASFitVisualisation.c := npow (Fin 10) (Fin (-2));
     ETASFitVisualisation.d := npow (Fin 10) (Fin (-1));
     ETASFitVisualisation.k := npow (Fin 10) (Fin (-2));
     ETASFitVisualisation.mu := npow (Fin 10) (Fin (-6));
     ETASFitVisualisation.tau := npow (Fin 10) (Fin 4);
     ETASFitVisualisation.omega := Fin (-1 / 10);
     ETASFitVisualisation.rho := Fin (1 / 2) |}.

End Scenarios.

(** ** The methods of [ETASFitVisualisation] that draw the kernels *)

Module Methods.
Import NumPy Plots ETASFitVisualisation.
Local Open Scope R_scope.

(** [os.path.join(a, b)] on a POSIX system: [b] alone when it is absolute,
    otherwise [a] and [b] with one separator between them, none being added
    when [a] is empty or ends with one. *)
Definition ends_with_sep (a : string) : bool :=
  match String.get (String.length a - 1) a with
  | Some ch => String.eqb (String ch EmptyString) "/"
  | None => false
  end.

Definition path_join (a b : string) : string :=
  if String.prefix "/" b then b
  else if ((String.length a =? 0)%nat || ends_with_sep a)%bool
       then String.append a b
  else String.append a (String.append "/" b).

Fixpoint map_each {A B} (body : A -> M B) (l : list A) : M (list B) :=
  match l with
  | [] => mret []
  | x :: l' => body x ≫= fun y => map_each body l' ≫= fun ys => mret (y :: ys)
  end.

(** A computation that does not touch the store. *)
Definition lift {A} (r : result A) : M A := fun h =>
  match r with
  | Ok a => Ok (a, h)
  | Raise e => Raise e
  end.

Definition text (v : option string) : M string :=
  match v with
  | Some s => mret s
  | None => raise TypeError
  end.

(** Lines 304-312: the dictionary built for every comparison set. *)
Definition time_comparison_entry (entry : string * ref)
  : M (string * gmap string npfloat) :=
  log10_tau ← getitem_at entry.2 "log10_tau";
  omega ← getitem_at entry.2 "omega";
  log10_c ← getitem_at entry.2 "log10_c";
  mret (entry.1,
        <["c" := npow (Fin 10) log10_c]>
          (<["omega" := omega]>
             (<["tau" := npow (Fin 10) log10_tau]> ∅))).

Definition time_kernel_plot (self : t) (fn_store : string) : M Figure :=
  comparison_params ← map_each time_comparison_entry
                               (comparison_parameters self);
  store_path ← text (store_path self);
  lift (temporal_decay_plot (ETASFitVisualisation.Pij self) (tau self)
          (c self) (omega self) (label self) comparison_params
          (path_join store_path fn_store)).

(** Lines 339-347. *)
Definition space_comparison_entry (entry : string * ref)
  : M (string * gmap string npfloat) :=
  log10_d ← getitem_at entry.2 "log10_d";
  rho ← getitem_at entry.2 "rho";
  gamma ← getitem_at entry.2 "gamma";
  mret (entry.1,
        <["gamma" := gamma]>
          (<["rho" := rho]>
             (<["d" := npow (Fin 10) log10_d]> ∅))).

(** [spatial_decay_plot] iterates over [self.magnitude_list] and subtracts
    [self.mc] from every magnitude: a list that is [None] is a [TypeError],
    and so is an [mc] that is [None] as soon as there is a magnitude. *)
Definition space_kernel_plot (self : t) (fn_store : string)
  : M (list Figure) :=
  comparison_params ← map_each space_comparison_entry
                               (comparison_parameters self);
  store_path ← text (store_path self);
  match magnitude_list self with
  | None => raise TypeError
  | Some magnitudes =>
      match mc self with
      | Some mc =>
          lift (spatial_decay_plot (ETASFitVisualisation.Pij self) magnitudes
                  (d self) (gamma self) (rho self) mc (label self)
                  comparison_params (path_join store_path fn_store))
      | None =>
          match magnitudes with
          | [] => mret []
          | _ :: _ => raise TypeError
          end
      end
  end.

End Methods.

(** ** Bins over the reals

    The weight of the samples in every bin, written out directly: what the
    counts of a histogram are compared with. *)

Module Bins.
Import NumPy.
Local Open Scope R_scope.

Definition Rltb (a b : R) : bool := if Rlt_dec a b then true else false.
Definition Rleb (a b : R) : bool := if Rlt_dec b a then false else true.

(** The total weight of the samples that satisfy [p]. *)
Definition Rweight (xs ws : list R) (p : R -> bool) : R :=
  Rsum (map (fun s : R * R => if p s.1 then s.2 else 0) (zip xs ws)).

(** One weight per bin: the samples from the lower edge on and below the
    upper edge, the upper edge of the last bin included. *)
Fixpoint bin_weights (xs ws es : list R) : list R :=
  match es with
  | lo :: es' =>
      match es' with
      | [] => []
      | [hi] => [Rweight xs ws (fun x => Rleb lo x && Rleb x hi)]
      | hi :: _ :: _ =>
          Rweight xs ws (fun x => Rleb lo x && Rltb x hi)
          :: bin_weights xs ws es'
      end
  | [] => []
  end.

Fixpoint nondecreasing (es : list R) : Prop :=
  match es with
  | a :: es' =>
      match es' with
      | b :: _ => a <= b /\ nondecreasing es'
      | [] => True
      end
  | [] => True
  end.

(** The smallest and the largest of a non-empty list. *)
Definition Rlist_min (a : R) (l : list R) : R := fold_left Rmin l a.
Definition Rlist_max (a : R) (l : list R) : R := fold_left Rmax l a.

End Bins.

(** ** Tables of numbers *)

Module Tables.
Import NumPy Plots.
Local Open Scope R_scope.

(** A row whose time lag, source magnitude, squared distance, probability
    and correction factor are all numbers. *)
Definition finite_pair (row : PairRow) : Prop :=
  isfinite (time_distance row) = true
  /\ isfinite (spatial_distance_squared row) = true
  /\ isfinite (source_magnitude row) = true
  /\ isfinite (Pij row) = true
  /\ isfinite (zeta_plus_1 row) = true.

Definition row_weight (row : PairRow) : R :=
  fin_part (Pij row) * fin_part (zeta_plus_1 row).

Definition time_lags (Pmat : list PairRow) : list R :=
  map (fun row => fin_part (time_distance row)) Pmat.

Definition source_magnitudes (Pmat : list PairRow) : list R :=
  map (fun row => fin_part (source_magnitude row)) Pmat.

Definition row_weights (Pmat : list PairRow) : list R := map row_weight Pmat.

Definition squared_distances (Pmat : list PairRow) : list R :=
  map (fun row => fin_part (spatial_distance_squared row)) Pmat.

(** The 50 edges of the time bins, as real numbers. *)
Definition time_edges : list R := map (log_edge (-4) 4) (seq 0 50).

(** The 50 edges of the distance bins when the largest squared distance of
    the selected rows is [r]. *)
Definition distance_edges (r : R) : list R :=
  map (log_edge (-1) (ln (sqrt r))) (seq 0 50).

(** A catalog with the given magnitudes. *)
Definition catalog_of (ms : list R) : list CatalogRow :=
  map (fun m => {| magnitude := Fin m |}) ms.

(** The edges of the magnitude bins for a smallest magnitude [mn], a
    largest magnitude [mx] and a bin width [dm]: as many as the ceiling of
    [(stop - start) / dm] says, from [start = mn - dm/2] in steps of
    [dm]. *)
Definition magnitude_edges (mn mx dm : R) : list R :=
  map (fun i => mn - dm / 2 + INR i * dm)
      (seq 0 (Z.to_nat (Rceil ((mx + dm / 2 + - (mn - dm / 2)) / dm)))).

(** A count of catalog events over a weight of event pairs, as numpy
    divides them. *)
Definition per_event (W N : R) : npfloat :=
  if Req_dec_T N 0 then inf_of_sign W else Fin (W / N).

End Tables.

(** ** Fields of the dictionaries of a store *)

Module Fields.
Import NumPy ETASFitVisualisation.

(** [obj[key]] when there is such an object and it has the key. *)
Definition field_of (h : store) (obj : ref) (key : string) : option npfloat :=
  d ← h !! obj; d !! key.

Definition has_fields (h : store) (obj : ref) (keys : list string) : Prop :=
  Forall (fun key => is_Some (field_of h obj key)) keys.

(** The keys the constructor reads in the primary parameters, and in every
    comparison set. *)
Definition primary_keys : list string :=
  ["a"; "gamma"; "log10_c"; "log10_d"; "log10_k0"; "log10_mu"; "log10_tau";
   "omega"; "rho"]%string.

Definition comparison_keys : list string :=
  ["log10_mu"; "log10_d"; "log10_k0"; "gamma"; "rho"; "beta"; "mc";
   "delta_m"]%string.

(** The fields the constructor assigns. *)
Definition rescaled_keys : list string :=
  ["log10_mu"; "log10_d"; "log10_k0"]%string.

End Fields.

(** * Facts about the numeric model *)

Section NumPyFacts.
Import NumPy.
Local Open Scope R_scope.

Lemma nadd_comm (x y : npfloat) : nadd x y = nadd y x.
Proof. destruct x, y; simpl; try reflexivity. f_equal. ring. Qed.

Lemma nadd_assoc (x y z : npfloat) : nadd x (nadd y z) = nadd (nadd x y) z.
Proof. destruct x, y, z; simpl; try reflexivity. f_equal. ring. Qed.

Lemma nadd_0_l (x : npfloat) : nadd (Fin 0) x = x.
Proof. destruct x; simpl; try reflexivity. f_equal. ring. Qed.

Lemma fold_nadd_acc (l : list npfloat) (acc : npfloat) :
  fold_left nadd l acc = nadd acc (nsum l).
Proof.
  unfold nsum. revert acc.
  induction l as [|x l IH]; intros acc; cbn [fold_left].
  - rewrite nadd_comm. symmetry. apply nadd_0_l.
  - rewrite IH. rewrite (IH (nadd (Fin 0) x)).
    rewrite nadd_0_l. symmetry. apply nadd_assoc.
Qed.

Lemma nsum_nil : nsum [] = Fin 0.
Proof. reflexivity. Qed.

Lemma nsum_cons (x : npfloat) (l : list npfloat) :
  nsum (x :: l) = nadd x (nsum l).
Proof.
  unfold nsum at 1. cbn [fold_left]. rewrite fold_nadd_acc.
  now rewrite nadd_0_l.
Qed.

Lemma nansum_cons (x : npfloat) (l : list npfloat) :
  nansum (x :: l) = nadd (nan_to_zero x) (nansum l).
Proof. unfold nansum. simpl. apply nsum_cons. Qed.

Lemma ndiv_Fin (a b : R) : b <> 0 -> ndiv (Fin a) (Fin b) = Fin (a / b).
Proof. intros Hb. simpl. destruct (Req_dec_T b 0); [contradiction | reflexivity]. Qed.

Lemma neq_Fin_refl (a : R) : neq (Fin a) (Fin a) = true.
Proof. simpl. destruct (Req_dec_T a a); [reflexivity | contradiction]. Qed.

Lemma neq_Fin_ne (a b : R) : a <> b -> neq (Fin a) (Fin b) = false.
Proof. intros H. simpl. destruct (Req_dec_T a b); [contradiction | reflexivity]. Qed.

Lemma nlt_Fin_true (a b : R) : a < b -> nlt (Fin a) (Fin b) = true.
Proof. intros H. simpl. destruct (Rlt_dec a b); [reflexivity | contradiction]. Qed.

Lemma nlt_Fin_false (a b : R) : b <= a -> nlt (Fin a) (Fin b) = false.
Proof. intros H. simpl. destruct (Rlt_dec a b); [lra | reflexivity]. Qed.

(** A finite total has finite terms only. *)
Lemma nsum_Fin_inv (l : list npfloat) (s : R) :
  nsum l = Fin s ->
  Forall (fun x => isfinite x = true) l /\ s = Rsum (map fin_part l).
Proof.
  revert s. induction l as [|x l IH]; intros s H.
  - rewrite nsum_nil in H. injection H as <-. split; [constructor | reflexivity].
  - rewrite nsum_cons in H.
    destruct x as [r| | |]; destruct (nsum l) as [t| | |] eqn:E;
      simpl in H; try discriminate.
    injection H as <-.
    destruct (IH t eq_refl) as [Hall Ht].
    split; [constructor; [reflexivity | exact Hall] |].
    simpl. now rewrite Ht.
Qed.

(** A finite NaN-skipping total has terms that are finite or NaN. *)
Lemma nansum_Fin_inv (l : list npfloat) (s : R) :
  nansum l = Fin s ->
  Forall (fun x => isfinite x = true \/ x = NaN) l
  /\ s = Rsum (map fin_part l).
Proof.
  revert s. induction l as [|x l IH]; intros s H.
  - injection H as <-. split; [constructor | reflexivity].
  - rewrite nansum_cons in H.
    destruct x as [r| | |]; destruct (nansum l) as [t| | |] eqn:E;
      simpl in H; try discriminate; injection H as <-;
      destruct (IH t eq_refl) as [Hall Ht]; (split; [constructor; auto |]);
      simpl; rewrite Ht; ring.
Qed.

Lemma nansum_vdivs_Fin (l : list npfloat) (s : R) :
  s <> 0 ->
  Forall (fun x => isfinite x = true \/ x = NaN) l ->
  nansum (vdivs l (Fin s)) = Fin (Rsum (map fin_part l) / s).
Proof.
  intros Hs Hall. induction Hall as [|x l Hx Hall IH].
  - simpl. unfold nansum. simpl. rewrite nsum_nil. f_equal. field. exact Hs.
  - unfold vdivs in *. simpl map. rewrite nansum_cons, IH.
    destruct Hx as [Hx | ->].
    + destruct x as [r| | |]; try discriminate.
      rewrite ndiv_Fin by exact Hs. simpl. f_equal. field. exact Hs.
    + simpl. f_equal. field. exact Hs.
Qed.

(** *** [np.logspace] on finite bounds *)

Lemma INR_49 : INR 49 = 49.
Proof. rewrite INR_IZR_INZ. reflexivity. Qed.

Lemma npow_10_Fin (y : R) : npow (Fin 10) (Fin y) = Fin (Rpower 10 y).
Proof.
  unfold npow, neq.
  destruct (Req_dec_T y 0) as [-> | Hy].
  - rewrite Rpower_O by lra. reflexivity.
  - destruct (Req_dec_T 10 1) as [H | _]; [lra |].
    destruct (Rlt_dec 0 10) as [_ | H]; [reflexivity | lra].
Qed.

Lemma logspace_Fin (a b : R) :
  logspace (Fin a) (Fin b) = map (fun i => Fin (log_edge a b i)) (seq 0 50).
Proof.
  unfold logspace, logspace_num, linspace.
  change (seq 0 50) with (seq 0 49 ++ [49%nat]).
  rewrite !map_app. f_equal.
  - rewrite map_map. apply map_ext. intros i.
    cbn [nsub nneg nadd]. rewrite ndiv_Fin by (rewrite INR_49; lra).
    cbn [nmul nadd]. rewrite npow_10_Fin. unfold log_edge.
    rewrite INR_49. do 2 f_equal. lra.
  - cbn [map]. rewrite npow_10_Fin. unfold log_edge.
    rewrite INR_49. do 3 f_equal. field.
Qed.

Lemma log_edge_lt (a b : R) (i j : nat) :
  a < b -> (i < j)%nat -> log_edge a b i < log_edge a b j.
Proof.
  intros Hab Hij. unfold log_edge. apply Rpower_lt; [lra |].
  apply Rplus_lt_compat_l, Rmult_lt_compat_r; [lra |].
  now apply lt_INR.
Qed.

Lemma log_edge_first (a b : R) : log_edge a b 0 = Rpower 10 a.
Proof. unfold log_edge. f_equal. simpl. lra. Qed.

Lemma log_edge_last (a b : R) : log_edge a b 49 = Rpower 10 b.
Proof. unfold log_edge. rewrite INR_49. f_equal. field. Qed.

End NumPyFacts.

(** * The plot routines *)

Section PlotsFacts.
Import NumPy Plots.
Local Open Scope R_scope.

(** Two columns of one table, multiplied entry by entry. *)
Lemma pair_weights_rows (Pmat : list PairRow) :
  pair_weights Pmat = map (fun row => nmul (Pij row) (zeta_plus_1 row)) Pmat.
Proof.
  unfold pair_weights, vmul, col.
  induction Pmat as [|row Pmat IH]; [reflexivity |].
  cbn [map zip_with]. now rewrite IH.
Qed.

Lemma pair_weights_length (Pmat : list PairRow) :
  length (pair_weights Pmat) = length Pmat.
Proof. rewrite pair_weights_rows. apply length_map. Qed.

(** The time bins, their widths and their midpoints. *)
Lemma time_bins_edges :
  time_bins = map (fun i => Fin (log_edge (-4) 4 i)) (seq 0 50).
Proof. apply logspace_Fin. Qed.

Lemma time_bins_sizes_edges :
  time_bins_sizes
  = map (fun i => Fin (log_edge (-4) 4 (S i) - log_edge (-4) 4 i)) (seq 0 49).
Proof. unfold time_bins_sizes. rewrite time_bins_edges. reflexivity. Qed.

Lemma tmid_edges :
  tmid
  = map (fun i => Fin ((log_edge (-4) 4 i + log_edge (-4) 4 (S i)) / 2))
        (seq 0 49).
Proof.
  unfold tmid. rewrite time_bins_edges.
  change (vadd _ _)
    with (map (fun i => Fin (log_edge (-4) 4 i + log_edge (-4) 4 (S i)))
              (seq 0 49)).
  unfold vdivs. rewrite map_map. apply map_ext. intros i.
  apply ndiv_Fin. lra.
Qed.

(** Edges that increase pass the check of [np.histogram]. *)
Lemma logspace_check (a b : R) :
  a < b ->
  existsb (fun c => c)
    (zip_with ngt (upto_last (logspace (Fin a) (Fin b)))
                  (from1 (logspace (Fin a) (Fin b)))) = false.
Proof.
  intros Hab. rewrite logspace_Fin.
  change (zip_with ngt _ _)
    with (map (fun i => nlt (Fin (log_edge a b (S i))) (Fin (log_edge a b i)))
              (seq 0 49)).
  apply not_true_is_false. intros H.
  apply existsb_exists in H. destruct H as [c [Hin Hc]]. subst c.
  apply in_map_iff in Hin. destruct Hin as [i [Hi _]].
  rewrite nlt_Fin_false in Hi; [discriminate |].
  left. apply log_edge_lt; [exact Hab | lia].
Qed.

Lemma histogram_logspace (a b : R) (xs ws : list npfloat) :
  a < b -> length xs = length ws ->
  histogram xs (logspace (Fin a) (Fin b)) ws
  = Ok (diff (cum_n xs ws (logspace (Fin a) (Fin b)))).
Proof.
  intros Hab Hlen. unfold histogram.
  rewrite Hlen, Nat.eqb_refl. cbn [negb].
  now rewrite logspace_check.
Qed.

(** The histogram of [temporal_decay_plot] never raises. *)
Lemma temporal_counts_ok (Pmat : list PairRow) :
  temporal_counts Pmat
  = Ok (diff (cum_n (col time_distance Pmat) (pair_weights Pmat) time_bins)).
Proof.
  unfold temporal_counts, time_bins. apply histogram_logspace; [lra |].
  unfold col. now rewrite length_map, pair_weights_length.
Qed.

(** A power with a positive base is the real power. *)
Lemma npow_pos (x y : R) : 0 < x -> npow (Fin x) (Fin y) = Fin (Rpower x y).
Proof.
  intros Hx. unfold npow, neq.
  destruct (Req_dec_T y 0) as [-> | Hy].
  - now rewrite Rpower_O.
  - destruct (Req_dec_T x 1) as [-> | Hx1].
    + unfold Rpower. rewrite ln_1, Rmult_0_r, exp_0. reflexivity.
    + destruct (Rlt_dec 0 x); [reflexivity | contradiction].
Qed.

Lemma Rpower_pos (x y : R) : 0 < Rpower x y.
Proof. unfold Rpower. apply exp_pos. Qed.

(** The two kernels on finite arguments, the denominator being positive. *)
Lemma spatial_kernel_real (dist d gamma rho m mc : R) :
  0 < dist + d * exp (gamma * (m - mc)) ->
  spatial_kernel (Fin dist) (Fin d) (Fin gamma) (Fin rho) (Fin m) (Fin mc)
  = Fin (1 / Rpower (dist + d * exp (gamma * (m - mc))) (1 + rho)).
Proof.
  intros Hpos. unfold spatial_kernel.
  cbn [nsub nneg nadd nmul nexp].
  replace (m + - mc) with (m - mc) by lra.
  rewrite npow_pos by exact Hpos.
  apply ndiv_Fin. apply Rgt_not_eq, Rpower_pos.
Qed.

Lemma temporal_kernel_real (t tau c omega : R) :
  tau <> 0 -> 0 < t + c ->
  temporal_kernel (Fin t) (Fin tau) (Fin c) (Fin omega)
  = Fin (exp (- t / tau) / Rpower (t + c) (1 + omega)).
Proof.
  intros Htau Hpos. unfold temporal_kernel.
  cbn [nneg nadd]. rewrite ndiv_Fin by exact Htau. cbn [nexp].
  rewrite npow_pos by exact Hpos.
  apply ndiv_Fin. apply Rgt_not_eq, Rpower_pos.
Qed.

(** C1.  In each of the three plot routines the weights handed to
    [np.histogram] are, row by row of the event-pair table, the product of
    the columns [Pij] and [zeta_plus_1]: lines 47-51 of
    [temporal_decay_plot], lines 136-140 of [productivity_plot] and lines
    227-231 of [spatial_decay_plot] (there on the rows selected for the
    magnitude). *)
Theorem histogram_weights_are_Pij_times_zeta
    (Pmat : list PairRow) (bins : list npfloat) (moi : npfloat) :
  let w := fun P : list PairRow =>
             map (fun row => nmul (Pij row) (zeta_plus_1 row)) P in
  temporal_counts Pmat
  = histogram (col time_distance Pmat) time_bins (w Pmat)
  /\ productivity_counts Pmat bins
     = histogram (col source_magnitude Pmat) bins (w Pmat)
  /\ spatial_counts Pmat moi
     = histogram (col spatial_distance_squared (Psubmat Pmat moi))
                 (distance_bins Pmat moi) (w (Psubmat Pmat moi)).
Proof.
  intros w. unfold temporal_counts, productivity_counts, spatial_counts, w.
  rewrite !pair_weights_rows. repeat split.
Qed.

(** The product is not the column [Pij]: a row with a correction factor
    other than one is weighted differently. *)
Lemma pair_weights_not_Pij_alone :
  exists Pmat : list PairRow, pair_weights Pmat <> col Pij Pmat.
Proof.
  exists [ {| time_distance := Fin 1; spatial_distance_squared := Fin 1;
              source_magnitude := Fin 3; Pij := Fin 1;
              zeta_plus_1 := Fin 2 |} ].
  cbn. intros H. injection H as H. lra.
Qed.

(** C4.  [spatial_kernel] is one over the [(1+rho)]-th power of
    [dist + d*exp(gamma*(m-mc))], for all arguments; when the arguments are
    numbers and that sum is positive, as the callers must ensure, this is
    the real number [1 / (dist + d*exp(gamma*(m-mc)))^(1+rho)]. *)
Theorem spatial_kernel_formula :
  (forall dist d gamma rho m mc : npfloat,
     spatial_kernel dist d gamma rho m mc
     = ndiv (Fin 1)
            (npow (nadd dist (nmul d (nexp (nmul gamma (nsub m mc)))))
                  (nadd (Fin 1) rho)))
  /\ (forall dist d gamma rho m mc : R,
        0 < dist + d * exp (gamma * (m - mc)) ->
        spatial_kernel (Fin dist) (Fin d) (Fin gamma) (Fin rho) (Fin m)
                       (Fin mc)
        = Fin (1 / Rpower (dist + d * exp (gamma * (m - mc))) (1 + rho))).
Proof.
  split.
  - reflexivity.
  - apply spatial_kernel_real.
Qed.

Lemma spatial_kernel_formula_witness :
  spatial_kernel (Fin 2) (Fin 1) (Fin 0) (Fin 1) (Fin 3) (Fin 3)
  = Fin (1 / Rpower (2 + 1 * exp (0 * (3 - 3))) (1 + 1)).
Proof.
  apply (proj2 spatial_kernel_formula).
  pose proof (exp_pos (0 * (3 - 3))). lra.
Defined.

Lemma exp_le (x y : R) : x <= y -> exp x <= exp y.
Proof.
  intros [H | ->]; [left; now apply exp_increasing | right; reflexivity].
Qed.







(** The counts of a weighted histogram are divided by the bin widths and
    then by the total of these densities: by Python's [sum] in
    [temporal_decay_plot] (lines 55-56), by [np.nansum] in
    [spatial_decay_plot] (lines 232-233).  Whatever the counts and the
    edges, when that total is a number other than zero the scaled values
    add up to one, the NaN bins left out. *)
Lemma temporal_counts_scaled_total (counts : list npfloat) (total : R) :
  nsum (vdiv counts time_bins_sizes) = Fin total -> total <> 0 ->
  nansum (temporal_counts_scaled counts) = Fin 1.
Proof.
  intros Ht Hnt. unfold temporal_counts_scaled. cbn zeta. rewrite Ht.
  apply nsum_Fin_inv in Ht. destruct Ht as [Hall Hsum].
  rewrite nansum_vdivs_Fin; [| exact Hnt |].
  - f_equal. rewrite <- Hsum. now field.
  - eapply Forall_impl; [exact Hall |]. intros x Hx. now left.
Qed.

Lemma dist_emp_scaled_total (counts bins : list npfloat) (total : R) :
  nansum (vdiv counts (distance_bins_sizes bins)) = Fin total -> total <> 0 ->
  nansum (dist_emp_scaled counts bins) = Fin 1.
Proof.
  intros Hs Hns. unfold dist_emp_scaled. cbn zeta. rewrite Hs.
  apply nansum_Fin_inv in Hs. destruct Hs as [Hall Hsum].
  rewrite nansum_vdivs_Fin; [| exact Hns | exact Hall].
  f_equal. rewrite <- Hsum. now field.
Qed.

Lemma Rpower_10_4 : Rpower 10 4 = 10 ^ 4.
Proof.
  replace 4 with (INR 4) at 1 by (rewrite INR_IZR_INZ; reflexivity).
  apply Rpower_pow. lra.
Qed.

(** C7.  [temporal_decay_plot] lays out 50 logarithmically spaced bin
    edges, the exponents going from -4 to 4 in equal steps, the first edge
    [10^-4] and the last [10^4].  The analytic curve it draws has, at the
    midpoint of every two consecutive edges, the value of
    [exp(-t/tau) / (t+c)^(1+omega)] there over the sum of these values at
    all the midpoints. *)
Theorem temporal_plot_bins_and_analytic_curve
    (Pmat : list PairRow) (tau c omega : npfloat) (label : option string)
    (comparison_params : list (string * params_dict)) (file_name : string)
    (fig : Figure) :
  temporal_decay_plot Pmat tau c omega label comparison_params file_name
  = Ok fig ->
  let edge := fun i : nat => Rpower 10 (-4 + INR i * (8 / 49)) in
  let kernel := fun t : npfloat =>
    ndiv (nexp (ndiv (nneg t) tau)) (npow (nadd t c) (nadd (Fin 1) omega)) in
  length time_bins = 50%nat
  /\ time_bins = map (fun i => Fin (edge i)) (seq 0 50)
  /\ head time_bins = Some (Fin (/ 10 ^ 4))
  /\ last time_bins = Some (Fin (10 ^ 4))
  /\ tmid = map (fun i => Fin ((edge i + edge (S i)) / 2)) (seq 0 49)
  /\ exists others : list Curve,
       curves fig
       = {| curve_label := label;
            curve_x := tmid;
            curve_y := map (fun t => ndiv (kernel t) (nsum (map kernel tmid)))
                           tmid |} :: others.
Proof.
  intros Hrun edge kernel.
  assert (forall i, log_edge (-4) 4 i = edge i) as Hedge.
  { intros i. unfold log_edge, edge. f_equal. lra. }
  assert (time_bins = map (fun i => Fin (edge i)) (seq 0 50)) as Hbins.
  { rewrite time_bins_edges. apply map_ext. intros i. now rewrite Hedge. }
  split; [| split; [| split; [| split; [| split]]]].
  - rewrite Hbins. now rewrite length_map, length_seq.
  - exact Hbins.
  - rewrite time_bins_edges. cbn [seq map head].
    rewrite log_edge_first.
    replace (-4) with (- (4)) by lra.
    now rewrite Rpower_Ropp, Rpower_10_4.
  - rewrite time_bins_edges.
    change (seq 0 50) with (seq 0 49 ++ [49%nat]).
    rewrite map_app. cbn [map]. rewrite last_snoc.
    now rewrite log_edge_last, Rpower_10_4.
  - rewrite tmid_edges. apply map_ext. intros i. now rewrite !Hedge.
  - unfold temporal_decay_plot in Hrun. rewrite temporal_counts_ok in Hrun.
    cbn [mbind result_bind] in Hrun.
    destruct (mapM temporal_comparison_curve comparison_params)
      as [others | e]; [| discriminate].
    cbn [mret result_ret] in Hrun. injection Hrun as <-.
    exists others. reflexivity.
Qed.

Lemma temporal_plot_bins_and_analytic_curve_witness :
  let edge := fun i : nat => Rpower 10 (-4 + INR i * (8 / 49)) in
  let kernel := fun t : npfloat =>
    ndiv (nexp (ndiv (nneg t) (Fin 5)))
         (npow (nadd t (Fin (1 / 10))) (nadd (Fin 1) (Fin (1 / 5)))) in
  exists fig : Figure,
    temporal_decay_plot [] (Fin 5) (Fin (1 / 10)) (Fin (1 / 5)) None []
                        "time_kernel_fit.pdf" = Ok fig
    /\ length time_bins = 50%nat
    /\ time_bins = map (fun i => Fin (edge i)) (seq 0 50)
    /\ head time_bins = Some (Fin (/ 10 ^ 4))
    /\ last time_bins = Some (Fin (10 ^ 4))
    /\ tmid = map (fun i => Fin ((edge i + edge (S i)) / 2)) (seq 0 49)
    /\ exists others : list Curve,
         curves fig
         = {| curve_label := None;
              curve_x := tmid;
              curve_y := map (fun t => ndiv (kernel t)
                                            (nsum (map kernel tmid)))
                             tmid |} :: others.
Proof.
  intros edge kernel.
  assert (exists fig : Figure,
            temporal_decay_plot [] (Fin 5) (Fin (1 / 10)) (Fin (1 / 5)) None
                                [] "time_kernel_fit.pdf" = Ok fig)
    as [fig Hrun].
  { unfold temporal_decay_plot. rewrite temporal_counts_ok.
    eexists. reflexivity. }
  exists fig. split; [exact Hrun |].
  exact (temporal_plot_bins_and_analytic_curve
           [] (Fin 5) (Fin (1 / 10)) (Fin (1 / 5)) None []
           "time_kernel_fit.pdf" fig Hrun).
Defined.

End PlotsFacts.

(** * Rounding, reductions and degenerate bins *)

Section EdgeCases.
Import NumPy Plots.
Local Open Scope R_scope.

Lemma Rfloor_IZR (z : Z) : Rfloor (IZR z) = z.
Proof.
  unfold Rfloor.
  rewrite <- (tech_up (IZR z) (z + 1)).
  - lia.
  - rewrite plus_IZR. lra.
  - rewrite plus_IZR. lra.
Qed.

Lemma Rceil_IZR (z : Z) : Rceil (IZR z) = z.
Proof. unfold Rceil. rewrite <- opp_IZR, Rfloor_IZR. lia. Qed.

Lemma Rrint_IZR (z : Z) : Rrint (IZR z) = z.
Proof.
  unfold Rrint. rewrite Rfloor_IZR.
  destruct (Rlt_dec (IZR z - IZR z) (1 / 2)) as [_ | H]; [reflexivity | lra].
Qed.

Lemma round_Fin (x : R) (n : nat) :
  round (Fin x) n = Fin (IZR (Rrint (x * 10 ^ n)) / 10 ^ n).
Proof.
  unfold round. cbn [nmul nrint]. apply ndiv_Fin.
  apply pow_nonzero. lra.
Qed.

(** A number with at most one decimal is its own rounding to one decimal. *)
Lemma round_tenths (z : Z) : round (Fin (IZR z / 10)) 1 = Fin (IZR z / 10).
Proof.
  rewrite round_Fin.
  replace (IZR z / 10 * 10 ^ 1) with (IZR z) by (simpl; field).
  rewrite Rrint_IZR. f_equal. simpl. field.
Qed.

Lemma series_fold_const (f : npfloat -> npfloat -> npfloat) (x : npfloat)
    (n : nat) :
  f x x = x -> fold_left f (repeat x n) x = x.
Proof.
  intros Hf. induction n as [|n IH]; [reflexivity |].
  cbn [repeat fold_left]. now rewrite Hf.
Qed.

Lemma series_min_repeat (a : R) (n : nat) :
  series_min (repeat (Fin a) (S n)) = Fin a.
Proof.
  unfold series_min. cbn [repeat fold_left isnan].
  apply series_fold_const. cbn [isnan].
  rewrite nlt_Fin_false by lra. reflexivity.
Qed.

Lemma series_max_repeat (a : R) (n : nat) :
  series_max (repeat (Fin a) (S n)) = Fin a.
Proof.
  unfold series_max. cbn [repeat fold_left isnan].
  apply series_fold_const. cbn [isnan].
  rewrite nlt_Fin_false by lra. reflexivity.
Qed.

(** [10 ** nan] is NaN, so bins laid out up to NaN are all NaN. *)
Lemma npow_10_NaN : npow (Fin 10) NaN = NaN.
Proof.
  unfold npow. cbn [neq].
  destruct (Req_dec_T 10 1) as [H | _]; [lra | reflexivity].
Qed.

Lemma logspace_NaN (start : npfloat) :
  logspace start NaN = repeat NaN 50.
Proof.
  unfold logspace, logspace_num, linspace.
  rewrite map_app, map_map.
  change (repeat NaN 50) with (map (fun _ : nat => NaN) (seq 0 49) ++ [NaN]).
  f_equal.
  - apply map_ext. intros i.
    replace (nsub NaN start) with NaN by (now destruct start).
    cbn [ndiv nmul nadd]. apply npow_10_NaN.
  - cbn [map]. now rewrite npow_10_NaN.
Qed.

(** A histogram over a single edge has no bin. *)
Lemma histogram_one_edge (a w : list npfloat) (e : npfloat) :
  length a = length w -> histogram a [e] w = Ok [].
Proof.
  intros Hlen. unfold histogram. rewrite Hlen, Nat.eqb_refl. reflexivity.
Qed.

(** A histogram of no sample over bins that are all NaN: no edge is
    greater than the next, and every count is zero. *)
Lemma histogram_empty_NaN :
  histogram [] (repeat NaN 50) [] = Ok (repeat (Fin (0 + - 0)) 49).
Proof. reflexivity. Qed.

End EdgeCases.

(** * The magnitude bins of [productivity_plot] *)

Section ProductivityBins.
Import NumPy Plots Scenarios.
Local Open Scope R_scope.

(** Whatever the catalog, a single edge leaves [productivity_plot] without
    any bin. *)
Lemma productivity_counts_scaled_one_edge (Pmat : list PairRow)
    (catalog : list CatalogRow) (e : npfloat) :
  productivity_counts_scaled Pmat catalog [e] = Ok [].
Proof.
  unfold productivity_counts_scaled, productivity_counts,
    histogram_unweighted.
  rewrite !histogram_one_edge; [reflexivity | |].
  - unfold col. now rewrite length_map, pair_weights_length.
  - now rewrite length_map.
Qed.

(** When all the events of the catalog have one magnitude and [delta_m] is
    positive, [np.arange] stops before [max + delta_m/2] and the bins are a
    single edge. *)
Lemma magnitude_bins_single_magnitude (a dm : R) (n : nat) :
  0 < dm ->
  magnitude_bins (repeat {| magnitude := Fin a |} (S n)) (Fin dm)
  = Ok [Fin (a - dm / 2)].
Proof.
  intros Hdm. unfold magnitude_bins, col.
  rewrite map_repeat. cbn [magnitude].
  rewrite series_min_repeat, series_max_repeat.
  rewrite ndiv_Fin by lra. cbn [nsub nneg nadd].
  unfold arange. cbn [nsub nneg nadd]. rewrite ndiv_Fin by lra.
  replace ((a + dm / 2 + - (a + - (dm / 2))) / dm) with (IZR 1)
    by (field; lra).
  rewrite Rceil_IZR. change (Z.to_nat 1) with 1%nat. cbn [seq map nmul nadd].
  do 3 f_equal. simpl. lra.
Qed.

(** C6.  With a catalog of ten events of magnitude 3.0 and
    [delta_m = 0.1], [np.arange(2.95, 3.05, 0.1)] has the single element
    2.95: there is no magnitude bin, no bin midpoint, and the empirical
    series of [productivity_plot] is empty, whatever the event pairs. *)
Theorem productivity_single_magnitude_has_no_bin :
  magnitude_bins catalog_3 (Fin (1 / 10)) = Ok [Fin (3 - 1 / 10 / 2)]
  /\ bin_magnitudes [Fin (3 - 1 / 10 / 2)] = []
  /\ productivity_counts_scaled pairs_3 catalog_3 [Fin (3 - 1 / 10 / 2)]
     = Ok [].
Proof.
  split; [| split].
  - apply (magnitude_bins_single_magnitude 3 (1 / 10) 9). lra.
  - reflexivity.
  - apply productivity_counts_scaled_one_edge.
Qed.

(** The same count in binary64: the quotient [(3.05 - 2.95) / 0.1] is
    positive and at most one, so its ceiling is one as well. *)
Lemma edges_quotient_binary64_ceiling :
  PrimFloat.ltb PrimFloat.zero Binary64.edges_quotient = true
  /\ PrimFloat.leb Binary64.edges_quotient PrimFloat.one = true.
Proof. split; vm_compute; reflexivity. Qed.

End ProductivityBins.

(** * The distance bins of [spatial_decay_plot] *)

Section DistanceBins.
Import NumPy Plots Scenarios.
Local Open Scope R_scope.

Lemma exp_2_lt_10 : exp 2 < 10.
Proof.
  replace 2 with (1 + 1) by lra. rewrite exp_plus.
  pose proof exp_le_3 as H3. pose proof (exp_pos 1) as H0.
  assert (exp 1 * exp 1 <= 3 * 3) by (apply Rmult_le_compat; lra).
  lra.
Qed.

Lemma ln_10_gt_2 : 2 < ln 10.
Proof.
  rewrite <- (ln_exp 2) at 1.
  apply ln_increasing; [apply exp_pos | apply exp_2_lt_10].
Qed.

Lemma Rpower_10_ln_10 : 100 < Rpower 10 (ln 10).
Proof.
  replace 100 with (Rpower 10 2).
  - apply Rpower_lt; [lra | apply ln_10_gt_2].
  - replace 2 with (INR 2) by (rewrite INR_IZR_INZ; reflexivity).
    rewrite Rpower_pow by lra. simpl. lra.
Qed.

(** The bins, when the largest squared distance of the selected rows is a
    positive number [r]: 50 edges, the exponents of ten equally spaced from
    -1 to the natural logarithm of [sqrt r]. *)
Lemma distance_bins_edges (Pmat : list PairRow) (moi : npfloat) (r : R) :
  series_max (col spatial_distance_squared (Psubmat Pmat moi)) = Fin r ->
  0 < r ->
  distance_bins Pmat moi
  = map (fun i => Fin (log_edge (-1) (ln (sqrt r)) i)) (seq 0 50).
Proof.
  intros Hmax Hr. unfold distance_bins, max_dist. rewrite Hmax.
  cbn [nsqrt]. destruct (Rlt_dec r 0) as [H | _]; [lra |].
  cbn [nlog]. destruct (Rlt_dec 0 (sqrt r)) as [_ | H].
  - apply logspace_Fin.
  - exfalso. apply H. now apply sqrt_lt_R0.
Qed.

(** C8.  For the magnitude 3.0 and one event pair of that magnitude whose
    events are 10 km apart, the largest observed distance is 10, and the 50
    bin edges start at 0.1; the last edge is [10^(ln 10)], beyond 100,
    because line 220 hands [np.logspace] the natural logarithm of the
    largest distance as the exponent of ten. *)
Theorem distance_bins_overshoot_max_distance :
  Psubmat one_pair_3 (Fin 3) = one_pair_3
  /\ max_dist one_pair_3 (Fin 3) = Fin 10
  /\ length (distance_bins one_pair_3 (Fin 3)) = 50%nat
  /\ head (distance_bins one_pair_3 (Fin 3)) = Some (Fin (1 / 10))
  /\ last (distance_bins one_pair_3 (Fin 3)) = Some (Fin (Rpower 10 (ln 10)))
  /\ 100 < Rpower 10 (ln 10).
Proof.
  assert (Psubmat one_pair_3 (Fin 3) = one_pair_3) as Hsub.
  { unfold Psubmat, one_pair_3, pair. cbn [List.filter source_magnitude].
    rewrite round_Fin, neq_Fin_refl. reflexivity. }
  assert (sqrt 100 = 10) as Hsqrt.
  { replace 100 with (10 * 10) by lra. apply sqrt_square. lra. }
  assert (series_max (col spatial_distance_squared
                          (Psubmat one_pair_3 (Fin 3))) = Fin 100) as Hmax.
  { rewrite Hsub. reflexivity. }
  pose proof (distance_bins_edges one_pair_3 (Fin 3) 100 Hmax ltac:(lra))
    as Hbins.
  rewrite Hsqrt in Hbins.
  split; [exact Hsub |]. split; [| split; [| split; [| split]]].
  - unfold max_dist. rewrite Hmax. cbn [nsqrt].
    destruct (Rlt_dec 100 0) as [H | _]; [lra |]. now rewrite Hsqrt.
  - rewrite Hbins. now rewrite length_map, length_seq.
  - rewrite Hbins. cbn [seq map head]. rewrite log_edge_first.
    replace (-1) with (- (1)) by lra.
    rewrite Rpower_Ropp, Rpower_1 by lra. do 2 f_equal. lra.
  - rewrite Hbins. change (seq 0 50) with (seq 0 49 ++ [49%nat]).
    rewrite map_app. cbn [map]. rewrite last_snoc.
    now rewrite log_edge_last.
  - exact Rpower_10_ln_10.
Qed.

(** What [spatial_decay_plot] hands to matplotlib for a magnitude that no
    row of the table has. *)
Lemma empty_subset_bins (Pmat : list PairRow) (moi : npfloat) :
  Psubmat Pmat moi = [] -> distance_bins Pmat moi = repeat NaN 50.
Proof.
  intros Hsub. unfold distance_bins, max_dist. rewrite Hsub.
  cbn [col map series_max fold_left nsqrt nlog]. apply logspace_NaN.
Qed.

Lemma empty_subset_counts (Pmat : list PairRow) (moi : npfloat) :
  Psubmat Pmat moi = [] ->
  spatial_counts Pmat moi = Ok (repeat (Fin (0 + - 0)) 49).
Proof.
  intros Hsub. unfold spatial_counts.
  rewrite (empty_subset_bins _ _ Hsub), Hsub. exact histogram_empty_NaN.
Qed.

Lemma comparison_curve_ok (bins : list npfloat) (moi mc d g r : npfloat)
    (entry : string * params_dict) :
  entry.2 !! "d" = Some d -> entry.2 !! "gamma" = Some g ->
  entry.2 !! "rho" = Some r ->
  spatial_comparison_curve bins moi mc entry
  = Ok {| curve_label := Some entry.1;
          curve_x := vsqrt (distances bins);
          curve_y := spatial_decay_scaled bins d g r moi mc |}.
Proof.
  intros Hd Hg Hr. unfold spatial_comparison_curve, getitem.
  rewrite Hd, Hg, Hr. reflexivity.
Qed.

Lemma comparison_curves_NaN (moi mc : npfloat)
    (comparison_params : list (string * params_dict)) :
  Forall (fun entry : string * params_dict =>
            is_Some (entry.2 !! "d") /\ is_Some (entry.2 !! "gamma")
            /\ is_Some (entry.2 !! "rho")) comparison_params ->
  exists others : list Curve,
    mapM (spatial_comparison_curve (repeat NaN 50) moi mc) comparison_params
    = Ok others
    /\ Forall (fun cv => curve_x cv = repeat NaN 49) others.
Proof.
  induction 1 as [|entry l [[d Hd] [[g Hg] [r Hr]]] _ [others [IH Hx]]].
  - exists []. split; [reflexivity | constructor].
  - eexists (_ :: others). split.
    + cbn [mapM]. rewrite (comparison_curve_ok _ _ _ d g r) by assumption.
      cbn [mbind result_bind]. rewrite IH. reflexivity.
    + constructor; [reflexivity | exact Hx].
Qed.

(** C9.  When no row of the table has the requested magnitude, the body of
    the loop of [spatial_decay_plot] raises nothing (the comparison sets
    having the keys it reads): the largest distance of no row is NaN, all
    50 bin edges are NaN, [np.histogram] accepts them and counts nothing,
    and every point handed to matplotlib, on the curves and in the scatter,
    has a NaN abscissa; the figure is saved under the name of that
    magnitude. *)
Theorem spatial_plot_empty_subset
    (Pmat : list PairRow) (d gamma rho mc : npfloat) (label : option string)
    (comparison_params : list (string * params_dict)) (file_name : string)
    (moi : npfloat) :
  Psubmat Pmat moi = [] ->
  Forall (fun entry : string * params_dict =>
            is_Some (entry.2 !! "d") /\ is_Some (entry.2 !! "gamma")
            /\ is_Some (entry.2 !! "rho")) comparison_params ->
  exists fig : Figure,
    spatial_decay_figure Pmat d gamma rho mc label comparison_params
                         file_name moi = Ok fig
    /\ Forall (fun cv => curve_x cv = repeat NaN 49) (curves fig)
    /\ scatter_x fig = repeat NaN 49
    /\ scatter_y fig = repeat NaN 49
    /\ saved_as fig = WithMagnitude file_name (round moi 2).
Proof.
  intros Hsub Hkeys.
  destruct (comparison_curves_NaN moi mc comparison_params Hkeys)
    as [others [Hothers Hx]].
  unfold spatial_decay_figure. cbn zeta.
  rewrite (empty_subset_counts _ _ Hsub), (empty_subset_bins _ _ Hsub).
  cbn [mbind result_bind]. rewrite Hothers.
  eexists. split; [reflexivity |].
  cbn [curves scatter_x scatter_y saved_as].
  split; [| split; [| split]]; try reflexivity.
  constructor; [reflexivity | exact Hx].
Qed.

Lemma spatial_plot_empty_subset_witness :
  exists fig : Figure,
    spatial_decay_figure one_pair_3 (Fin 1) (Fin 1) (Fin 1) (Fin 2) None []
                         "space_kernel_fit" (Fin 4) = Ok fig
    /\ Forall (fun cv => curve_x cv = repeat NaN 49) (curves fig)
    /\ scatter_x fig = repeat NaN 49
    /\ scatter_y fig = repeat NaN 49
    /\ saved_as fig = WithMagnitude "space_kernel_fit" (round (Fin 4) 2).
Proof.
  apply spatial_plot_empty_subset.
  - unfold Psubmat, one_pair_3, pair. cbn [List.filter source_magnitude].
    replace (Fin 3) with (Fin (IZR 30 / 10)) by (f_equal; lra).
    replace (Fin 4) with (Fin (IZR 40 / 10)) by (f_equal; lra).
    rewrite !round_tenths, neq_Fin_ne by lra. reflexivity.
  - constructor.
Defined.

End DistanceBins.

(** * The constructor of [ETASFitVisualisation] *)

Section Harmonisation.
Import NumPy Plots ETASFitVisualisation.
Local Open Scope R_scope.

Lemma getitem_at_ok (obj : ref) (key : string) (h : store)
    (d : gmap string npfloat) (v : npfloat) :
  h !! obj = Some d -> d !! key = Some v -> getitem_at obj key h = Ok (v, h).
Proof. intros Hd Hv. unfold getitem_at. now rewrite Hd, Hv. Qed.

Lemma getitem_at_inv (obj : ref) (key : string) (h h' : store) (v : npfloat) :
  getitem_at obj key h = Ok (v, h') ->
  h' = h /\ exists d, h !! obj = Some d /\ d !! key = Some v.
Proof.
  unfold getitem_at. destruct (h !! obj) as [d|]; [| discriminate].
  destruct (d !! key) as [w|] eqn:Hw; [| discriminate].
  intros [= <- <-]. split; [reflexivity |]. now exists d.
Qed.

Lemma number_inv (o : option npfloat) (h h' : store) (v : npfloat) :
  number o h = Ok (v, h') -> h' = h /\ o = Some v.
Proof.
  destruct o as [x|]; [| discriminate]. now intros [= <- <-].
Qed.

(** The dictionary after the three assignments of lines 295-297. *)
Lemma setitem_thrice (obj : ref) (h : store) (p : gmap string npfloat)
    (vmu vd vk : npfloat) :
  h !! obj = Some p ->
  (setitem_at obj "log10_mu" vmu ≫= fun _ =>
   setitem_at obj "log10_d" vd ≫= fun _ =>
   setitem_at obj "log10_k0" vk) h
  = Ok (tt, <[obj := <["log10_k0" := vk]>
                      (<["log10_d" := vd]> (<["log10_mu" := vmu]> p))]> h).
Proof.
  intros Hp. unfold mbind, M_bind, setitem_at.
  rewrite Hp. rewrite !lookup_insert_eq. now rewrite !insert_insert_eq.
Qed.

(** What one turn of the loop does, read off a successful run. *)
Lemma harmonise_inv (self_mc self_delta_m : option npfloat)
    (entry : string * ref) (h h' : store) (u : unit) :
  harmonise self_mc self_delta_m entry h = Ok (u, h') ->
  exists (p : gmap string npfloat)
         (log10_mu log10_d log10_k0 gamma rho beta pmc pdm smc sdm : npfloat),
    h !! entry.2 = Some p
    /\ p !! "log10_mu" = Some log10_mu /\ p !! "log10_d" = Some log10_d
    /\ p !! "log10_k0" = Some log10_k0 /\ p !! "gamma" = Some gamma
    /\ p !! "rho" = Some rho /\ p !! "beta" = Some beta
    /\ p !! "mc" = Some pmc /\ p !! "delta_m" = Some pdm
    /\ self_mc = Some smc /\ self_delta_m = Some sdm
    /\ h' = <[entry.2 :=
               <["log10_k0" :=
                   nlog10 (rescale_k (npow (Fin 10) log10_k0)
                                     (del_m pmc pdm smc sdm) gamma rho)]>
               (<["log10_d" :=
                   nlog10 (rescale_d (npow (Fin 10) log10_d)
                                     (del_m pmc pdm smc sdm) gamma)]>
               (<["log10_mu" :=
                   nlog10 (rescale_mu (npow (Fin 10) log10_mu)
                                      (del_m pmc pdm smc sdm) beta)]> p))]> h.
Proof.
  unfold harmonise. intros H.
  repeat match type of H with
  | (getitem_at ?o ?k ≫= _) ?s = _ =>
      let E := fresh "E" in
      let v := fresh "v" in
      let s' := fresh "s" in
      unfold mbind at 1, M_bind at 1 in H;
      destruct (getitem_at o k s) as [[v s'] | ?] eqn:E; [| discriminate];
      apply getitem_at_inv in E; destruct E as [-> E]
  | (number ?o ≫= _) ?s = _ =>
      let E := fresh "E" in
      let v := fresh "v" in
      let s' := fresh "s" in
      unfold mbind at 1, M_bind at 1 in H;
      destruct (number o s) as [[v s'] | ?] eqn:E; [| discriminate];
      apply number_inv in E; destruct E as [-> E]
  end.
  destruct E as [p [Hp Hmu]].
  repeat match goal with
  | E : exists d, h !! entry.2 = Some d /\ _ |- _ =>
      let d := fresh "d" in
      let Hd := fresh "Hd" in
      destruct E as [d [Hd E]];
      rewrite Hp in Hd; injection Hd as <-
  end.
  rewrite (setitem_thrice _ _ p) in H by exact Hp.
  injection H as _ <-.
  exists p. do 10 eexists. repeat (split; [eassumption |]). reflexivity.
Qed.

Lemma harmonise_frame (self_mc self_delta_m : option npfloat)
    (entry : string * ref) (h h' : store) (u : unit) (other : ref) :
  harmonise self_mc self_delta_m entry h = Ok (u, h') ->
  other <> entry.2 -> h' !! other = h !! other.
Proof.
  intros H Hne. apply harmonise_inv in H.
  destruct H as (p & ? & ? & ? & ? & ? & ? & ? & ? & ? & ? & H).
  destruct H as (_ & _ & _ & _ & _ & _ & _ & _ & _ & _ & _ & ->).
  now apply lookup_insert_ne.
Qed.

Lemma for_each_cons {A} (body : A -> M unit) (x : A) (l : list A)
    (h h' : store) (u : unit) :
  for_each body (x :: l) h = Ok (u, h') ->
  exists h1, body x h = Ok (tt, h1) /\ for_each body l h1 = Ok (u, h').
Proof.
  cbn [for_each]. unfold mbind at 1, M_bind at 1.
  destruct (body x h) as [[[] h1] | e]; [| discriminate].
  intros H. now exists h1.
Qed.

(** The loop leaves alone the dictionaries that are not comparison sets. *)
Lemma for_each_harmonise_frame (self_mc self_delta_m : option npfloat)
    (l : list (string * ref)) (h h' : store) (u : unit) (other : ref) :
  for_each (harmonise self_mc self_delta_m) l h = Ok (u, h') ->
  ~ In other (map snd l) -> h' !! other = h !! other.
Proof.
  revert h. induction l as [|entry l IH]; intros h H Hnot.
  - now injection H as _ <-.
  - apply for_each_cons in H. destruct H as [h1 [H1 H]].
    rewrite (IH h1 H) by (intros Hin; apply Hnot; now right).
    eapply harmonise_frame; [exact H1 |].
    intros ->. apply Hnot. now left.
Qed.

(** The constructor reads the primary parameters, runs the loop and keeps
    the references it was given. *)
Lemma init_inv (metadata : Metadata) (h h' : store) (self : t) :
  __init__ metadata h = Ok (self, h') ->
  for_each (harmonise (md_mc metadata) (md_delta_m metadata))
           (default [] (md_comparison_parameters metadata)) h = Ok (tt, h')
  /\ comparison_parameters self
     = default [] (md_comparison_parameters metadata).
Proof.
  unfold __init__. intros H.
  unfold mbind at 1, M_bind at 1 in H.
  destruct (md_parameters metadata) as [prm|]; [| discriminate].
  cbn [mret M_ret] in H.
  repeat match type of H with
  | (getitem_at ?o ?k ≫= _) ?s = _ =>
      let E := fresh "E" in
      let v := fresh "v" in
      let s' := fresh "s" in
      unfold mbind at 1, M_bind at 1 in H;
      destruct (getitem_at o k s) as [[v s'] | ?] eqn:E; [| discriminate];
      apply getitem_at_inv in E; destruct E as [-> E]
  end.
  unfold mbind at 1, M_bind at 1 in H.
  destruct (for_each _ _ h) as [[[] h1] | e]; [| discriminate].
  injection H as <- <-. split; reflexivity.
Qed.

(** *** The rescaled fields on finite values *)

Lemma ln_10_neq_0 : ln 10 <> 0.
Proof. apply ln_neq_0; lra. Qed.

Lemma nlog10_scaled (x t : R) :
  nlog10 (nmul (npow (Fin 10) (Fin x)) (nexp (Fin t)))
  = Fin (x + t / ln 10).
Proof.
  rewrite npow_10_Fin. cbn [nexp nmul nlog10].
  pose proof (Rpower_pos 10 x) as Hp. pose proof (exp_pos t) as He.
  destruct (Rlt_dec 0 (Rpower 10 x * exp t)) as [_ | H].
  - f_equal. rewrite ln_mult by assumption.
    rewrite ln_Rpower, ln_exp. field. exact ln_10_neq_0.
  - exfalso. apply H. now apply Rmult_lt_0_compat.
Qed.

Lemma log10_rescale_d (log10_d del gamma : R) :
  nlog10 (rescale_d (npow (Fin 10) (Fin log10_d)) (Fin del) (Fin gamma))
  = Fin (log10_d + del * gamma / ln 10).
Proof. unfold rescale_d. cbn [nmul]. apply nlog10_scaled. Qed.



Lemma del_m_Fin (pmc pdm smc sdm : R) :
  del_m (Fin pmc) (Fin pdm) (Fin smc) (Fin sdm)
  = Fin (pmc - pdm / 2 - (smc - sdm / 2)).
Proof.
  unfold del_m. rewrite !ndiv_Fin by lra. reflexivity.
Qed.

Lemma session_runs (region_mc : R) :
  exists (self : t) (h' : store),
    __init__ Scenarios.session_metadata (Scenarios.session_store region_mc)
    = Ok (self, h').
Proof. eexists _, _. reflexivity. Qed.

(** The loop overwrites the three fields of every comparison set, in the
    dictionary the caller holds. *)
Lemma for_each_harmonise_writes (self_mc self_delta_m : option npfloat)
    (l : list (string * ref)) (h h' : store) (u : unit)
    (area_label : string) (params : ref) (p : gmap string npfloat) :
  for_each (harmonise self_mc self_delta_m) l h = Ok (u, h') ->
  NoDup (map snd l) -> In (area_label, params) l -> h !! params = Some p ->
  exists log10_mu log10_d log10_k0 gamma rho beta pmc pdm smc sdm : npfloat,
    p !! "log10_mu" = Some log10_mu /\ p !! "log10_d" = Some log10_d
    /\ p !! "log10_k0" = Some log10_k0 /\ p !! "gamma" = Some gamma
    /\ p !! "rho" = Some rho /\ p !! "beta" = Some beta
    /\ p !! "mc" = Some pmc /\ p !! "delta_m" = Some pdm
    /\ self_mc = Some smc /\ self_delta_m = Some sdm
    /\ h' !! params
       = Some (<["log10_k0" :=
                   nlog10 (rescale_k (npow (Fin 10) log10_k0)
                                     (del_m pmc pdm smc sdm) gamma rho)]>
               (<["log10_d" :=
                   nlog10 (rescale_d (npow (Fin 10) log10_d)
                                     (del_m pmc pdm smc sdm) gamma)]>
               (<["log10_mu" :=
                   nlog10 (rescale_mu (npow (Fin 10) log10_mu)
                                      (del_m pmc pdm smc sdm) beta)]> p))).
Proof.
  revert h. induction l as [|entry l IH]; intros h H Hnd Hin Hp.
  - destruct Hin.
  - apply for_each_cons in H. destruct H as [h1 [H1 H]].
    cbn [map] in Hnd. apply NoDup_cons in Hnd. destruct Hnd as [Hfresh Hnd].
    rewrite list_elem_of_In in Hfresh.
    destruct Hin as [-> | Hin].
    + pose proof (for_each_harmonise_frame _ _ _ _ _ _ _ H Hfresh) as Hsame.
      cbn [snd] in Hsame.
      apply harmonise_inv in H1. cbn [snd] in H1.
      destruct H1 as (p' & xmu & xd & xk & xg & xr & xb & xmc & xdm & ymc
                      & ydm & Hp' & H1).
      rewrite Hp in Hp'. injection Hp' as <-.
      exists xmu, xd, xk, xg, xr, xb, xmc, xdm, ymc, ydm.
      destruct H1 as (? & ? & ? & ? & ? & ? & ? & ? & ? & ? & ->).
      repeat (split; [assumption |]).
      rewrite Hsame. apply lookup_insert_eq.
    + assert (params <> entry.2) as Hne.
      { intros ->. apply Hfresh. apply in_map_iff. now exists (area_label, entry.2). }
      apply (IH h1 H Hnd Hin).
      rewrite <- Hp. eapply harmonise_frame; [exact H1 | exact Hne].
Qed.




(** *** A comparison set with the completeness of the primary set *)










End Harmonisation.

(** * The scaled histograms *)

Section ScaledHistograms.
Import NumPy Plots Scenarios.
Local Open Scope R_scope.

Lemma log_edge_width_neq_0 (a b : R) (i : nat) :
  a < b -> log_edge a b (S i) - log_edge a b i <> 0.
Proof.
  intros Hab.
  assert (log_edge a b i < log_edge a b (S i))
    by (apply log_edge_lt; [exact Hab | lia]).
  lra.
Qed.

(** One sample that sits on the last of the 50 edges: it is counted in the
    last bin. *)
Lemma cum_n_last_edge (a b x w : R) :
  a < b -> x = Rpower 10 b ->
  cum_n [Fin x] [Fin w] (logspace (Fin a) (Fin b))
  = map (fun _ : nat => Fin 0) (seq 0 49) ++ [Fin (0 + w)].
Proof.
  intros Hab Hx. rewrite logspace_Fin. unfold cum_n.
  change (upto_last (map (fun i => Fin (log_edge a b i)) (seq 0 50)))
    with (map (fun i => Fin (log_edge a b i)) (seq 0 49)).
  change (last_slice (map (fun i => Fin (log_edge a b i)) (seq 0 50)))
    with [Fin (log_edge a b 49)].
  rewrite map_map. f_equal.
  - apply map_ext_in. intros i Hi. apply in_seq in Hi.
    unfold weight_where. cbn [zip zip_with List.filter fst sort_lt].
    rewrite nlt_Fin_false; [reflexivity |].
    rewrite Hx, <- (log_edge_last a b). left. apply log_edge_lt; [exact Hab | lia].
  - cbn [map]. unfold weight_where, sort_le.
    cbn [zip zip_with List.filter fst sort_lt].
    rewrite nlt_Fin_false by (rewrite log_edge_last; lra).
    reflexivity.
Qed.

Lemma last_edge_densities (a b x w : R) :
  a < b -> x = Rpower 10 b -> w <> 0 ->
  let bins := logspace (Fin a) (Fin b) in
  let dens := vdiv (diff (cum_n [Fin x] [Fin w] bins))
                   (vsub (from1 bins) (upto_last bins)) in
  exists total : R,
    total <> 0 /\ nsum dens = Fin total /\ nansum dens = Fin total.
Proof.
  intros Hab Hx Hw bins dens. subst dens bins.
  rewrite (cum_n_last_edge a b x w Hab Hx), logspace_Fin.
  cbn [diff vsub vdiv from1 upto_last seq map app tl removelast zip_with
       nsub nneg nadd].
  rewrite !ndiv_Fin by (apply log_edge_width_neq_0; exact Hab).
  unfold nansum. cbn [map nan_to_zero isnan nsum fold_left nadd].
  eexists. split; [| split; reflexivity].
  match goal with
  | |- ?t <> 0 =>
      replace t with (w / (log_edge a b 49 + - log_edge a b 48))
        by (unfold Rdiv; ring)
  end.
  unfold Rdiv. apply Rmult_integral_contrapositive. split; [exact Hw |].
  apply Rinv_neq_0_compat. exact (log_edge_width_neq_0 a b 48 Hab).
Qed.

(** C3.  The weighted counts of the event pairs are divided by the bin
    widths and then by the total of these densities: by Python's [sum] in
    [temporal_decay_plot] (lines 55-56), by [np.nansum] in
    [spatial_decay_plot] (lines 232-233).  For every table, when that
    total is a number other than zero, the scaled values add up to one,
    the NaN bins left out. *)
Theorem normalised_histogram_sums_to_one
    (Pmat_t Pmat_s : list PairRow) (moi : npfloat)
    (counts_t counts_s : list npfloat) (total_t total_s : R) :
  temporal_counts Pmat_t = Ok counts_t ->
  nsum (vdiv counts_t time_bins_sizes) = Fin total_t -> total_t <> 0 ->
  spatial_counts Pmat_s moi = Ok counts_s ->
  nansum (vdiv counts_s (distance_bins_sizes (distance_bins Pmat_s moi)))
  = Fin total_s ->
  total_s <> 0 ->
  nansum (temporal_counts_scaled counts_t) = Fin 1
  /\ nansum (dist_emp_scaled counts_s (distance_bins Pmat_s moi)) = Fin 1.
Proof.
  intros _ Ht Hnt _ Hs Hns. split.
  - exact (temporal_counts_scaled_total counts_t total_t Ht Hnt).
  - exact (dist_emp_scaled_total counts_s _ total_s Hs Hns).
Qed.

Lemma far_pair_distance_bins :
  Psubmat far_pair_3 (Fin 3) = far_pair_3
  /\ distance_bins far_pair_3 (Fin 3) = logspace (Fin (-1)) (Fin 0).
Proof.
  assert (Psubmat far_pair_3 (Fin 3) = far_pair_3) as Hsub.
  { unfold Psubmat, far_pair_3, pair. cbn [List.filter source_magnitude].
    rewrite round_Fin, neq_Fin_refl. reflexivity. }
  split; [exact Hsub |].
  unfold distance_bins, max_dist. rewrite Hsub.
  cbn [far_pair_3 pair col map spatial_distance_squared series_max fold_left
       isnan nsqrt].
  destruct (Rlt_dec 1 0) as [H | _]; [lra |].
  rewrite sqrt_1. cbn [nlog].
  destruct (Rlt_dec 0 1) as [_ | H]; [| lra].
  now rewrite ln_1.
Qed.

Lemma normalised_histogram_sums_to_one_witness :
  exists counts_t counts_s : list npfloat,
    temporal_counts far_pair_3 = Ok counts_t
    /\ spatial_counts far_pair_3 (Fin 3) = Ok counts_s
    /\ nansum (temporal_counts_scaled counts_t) = Fin 1
    /\ nansum (dist_emp_scaled counts_s (distance_bins far_pair_3 (Fin 3)))
       = Fin 1.
Proof.
  destruct far_pair_distance_bins as [Hsub Hbins].
  assert (10000 = Rpower 10 4) as H4 by (rewrite Rpower_10_4; simpl; lra).
  assert (1 = Rpower 10 0) as H0 by (rewrite Rpower_O; lra).
  destruct (last_edge_densities (-4) 4 10000 (1 * 1) ltac:(lra) H4 ltac:(lra))
    as [total_t [Hnt [Ht _]]].
  destruct (last_edge_densities (-1) 0 1 (1 * 1) ltac:(lra) H0 ltac:(lra))
    as [total_s [Hns [_ Hs]]].
  assert (spatial_counts far_pair_3 (Fin 3)
          = Ok (diff (cum_n [Fin 1] [Fin (1 * 1)]
                            (logspace (Fin (-1)) (Fin 0))))) as Hcs.
  { unfold spatial_counts. rewrite Hbins, Hsub.
    apply (histogram_logspace (-1) 0); [lra | reflexivity]. }
  eexists _, _. split; [apply temporal_counts_ok |].
  split; [exact Hcs |].
  apply (normalised_histogram_sums_to_one
           far_pair_3 far_pair_3 (Fin 3) _ _ total_t total_s).
  - apply temporal_counts_ok.
  - exact Ht.
  - exact Hnt.
  - exact Hcs.
  - rewrite Hbins. exact Hs.
  - exact Hns.
Defined.

End ScaledHistograms.

(** * What the routines hand to matplotlib

    The scattered points of each routine are the scaled counts studied
    above. *)

Section Scatter.
Import NumPy Plots Scenarios.
Local Open Scope R_scope.

Lemma Ok_inj {A : Type} (x y : A) : Ok x = Ok y -> x = y.
Proof. intros H. now injection H. Qed.

Lemma temporal_decay_plot_scatter (Pmat : list PairRow)
    (tau c omega : npfloat) (label : option string)
    (comparison_params : list (string * params_dict)) (file_name : string)
    (fig : Figure) :
  temporal_decay_plot Pmat tau c omega label comparison_params file_name
  = Ok fig ->
  exists counts : list npfloat,
    temporal_counts Pmat = Ok counts
    /\ scatter_x fig = tmid
    /\ scatter_y fig = temporal_counts_scaled counts.
Proof.
  unfold temporal_decay_plot. intros H.
  destruct (temporal_counts Pmat) as [counts | e]; [| discriminate].
  cbn [mbind result_bind] in H.
  destruct (mapM temporal_comparison_curve comparison_params)
    as [others | e]; [| discriminate].
  apply Ok_inj in H. subst fig. exists counts.
  split; [reflexivity |]. split; reflexivity.
Qed.

Lemma spatial_decay_figure_scatter (Pmat : list PairRow)
    (d gamma rho mc : npfloat) (label : option string)
    (comparison_params : list (string * params_dict)) (file_name : string)
    (moi : npfloat) (fig : Figure) :
  spatial_decay_figure Pmat d gamma rho mc label comparison_params file_name
                       moi = Ok fig ->
  exists counts : list npfloat,
    spatial_counts Pmat moi = Ok counts
    /\ scatter_x fig = vsqrt (distances (distance_bins Pmat moi))
    /\ scatter_y fig = dist_emp_scaled counts (distance_bins Pmat moi).
Proof.
  unfold spatial_decay_figure. cbn zeta. intros H.
  destruct (spatial_counts Pmat moi) as [counts | e]; [| discriminate].
  cbn [mbind result_bind] in H.
  destruct (mapM _ comparison_params) as [others | e]; [| discriminate].
  apply Ok_inj in H. subst fig. exists counts.
  split; [reflexivity |]. split; reflexivity.
Qed.

Lemma productivity_plot_scatter
    (parameter_dict2array : params_dict -> result (list npfloat))
    (expected_aftershocks :
       list npfloat -> list npfloat * npfloat -> bool -> bool ->
       result (list npfloat))
    (Pmat : list PairRow) (catalog : list CatalogRow) (params : params_dict)
    (mc delta_m : npfloat) (label : option string)
    (comparison_params : list (string * params_dict)) (file_name : string)
    (fig : Figure) :
  productivity_plot parameter_dict2array expected_aftershocks Pmat catalog
                    params mc delta_m label comparison_params file_name
  = Ok fig ->
  exists bins : list npfloat,
    magnitude_bins catalog delta_m = Ok bins
    /\ scatter_x fig = bin_magnitudes bins
    /\ productivity_counts_scaled Pmat catalog bins = Ok (scatter_y fig).
Proof.
  unfold productivity_plot. intros H.
  destruct (magnitude_bins catalog delta_m) as [bins | e]; [| discriminate].
  cbn [mbind result_bind] in H.
  destruct (n_expected _ _ _ params mc) as [n | e]; [| discriminate].
  cbn [mbind result_bind] in H.
  destruct (productivity_counts_scaled Pmat catalog bins)
    as [counts_scaled | e] eqn:Hcounts; [| discriminate].
  cbn [mbind result_bind] in H.
  destruct (mapM _ comparison_params) as [others | e]; [| discriminate].
  apply Ok_inj in H. subst fig. exists bins.
  split; [reflexivity |]. split; [reflexivity | exact Hcounts].
Qed.

(** With the catalog of ten events of magnitude 3.0 and [delta_m = 0.1],
    a figure that [productivity_plot] saves has no empirical point at
    all. *)
Lemma productivity_plot_single_magnitude_no_point
    (parameter_dict2array : params_dict -> result (list npfloat))
    (expected_aftershocks :
       list npfloat -> list npfloat * npfloat -> bool -> bool ->
       result (list npfloat))
    (params : params_dict) (mc : npfloat) (label : option string)
    (comparison_params : list (string * params_dict)) (file_name : string)
    (fig : Figure) :
  productivity_plot parameter_dict2array expected_aftershocks pairs_3
                    catalog_3 params mc (Fin (1 / 10)) label
                    comparison_params file_name = Ok fig ->
  scatter_x fig = [] /\ scatter_y fig = [].
Proof.
  intros H. apply productivity_plot_scatter in H.
  destruct H as (bins & Hbins & Hx & Hy).
  unfold catalog_3 in Hbins.
  rewrite (magnitude_bins_single_magnitude 3 (1 / 10) 9) in Hbins by lra.
  injection Hbins as <-.
  rewrite productivity_counts_scaled_one_edge in Hy. injection Hy as <-.
  now rewrite Hx.
Qed.

End Scatter.

(** * Histograms of finite data *)

Section FiniteHistograms.
Import NumPy Plots Bins.
Local Open Scope R_scope.

Lemma all_finite_map (l : list npfloat) :
  Forall (fun x => isfinite x = true) l -> l = map Fin (map fin_part l).
Proof.
  induction 1 as [|x l Hx _ IH]; [reflexivity |].
  destruct x; try discriminate. cbn [map fin_part]. now rewrite <- IH.
Qed.

Lemma nsum_map_Fin (rs : list R) : nsum (map Fin rs) = Fin (Rsum rs).
Proof.
  induction rs as [|r rs IH]; [reflexivity |].
  cbn [map]. rewrite nsum_cons, IH. reflexivity.
Qed.

Lemma weight_where_Fin (xs ws : list R) (p : npfloat -> bool) :
  weight_where (map Fin xs) (map Fin ws) p
  = Fin (Rweight xs ws (fun x => p (Fin x))).
Proof.
  unfold weight_where, Rweight. revert ws.
  induction xs as [|x xs IH]; intros [|w ws]; try reflexivity.
  specialize (IH ws). cbn [map].
  change (zip (Fin x :: map Fin xs) (Fin w :: map Fin ws))
    with ((Fin x, Fin w) :: zip (map Fin xs) (map Fin ws)).
  change (zip (x :: xs) (w :: ws)) with ((x, w) :: zip xs ws).
  cbn [List.filter map fst snd Rsum fold_right].
  destruct (p (Fin x)).
  - cbn [map snd]. rewrite nsum_cons, IH. reflexivity.
  - rewrite IH. f_equal. unfold Rsum. lra.
Qed.

Lemma Rweight_ext (xs ws : list R) (p q : R -> bool) :
  (forall x, p x = q x) -> Rweight xs ws p = Rweight xs ws q.
Proof.
  intros H. unfold Rweight. f_equal. apply map_ext. intros s. now rewrite H.
Qed.

(** Weights add up over predicates that split a third one. *)
Lemma Rweight_split (xs ws : list R) (p q r : R -> bool) :
  (forall x, r x = p x || q x) -> (forall x, p x && q x = false) ->
  Rweight xs ws p + Rweight xs ws q = Rweight xs ws r.
Proof.
  intros Hr Hpq. unfold Rweight.
  induction (zip xs ws) as [|s l IH]; cbn [map Rsum fold_right].
  - lra.
  - unfold Rsum in IH. rewrite <- IH, Hr.
    specialize (Hpq s.1). destruct (p s.1), (q s.1); cbn in *;
      try discriminate; lra.
Qed.

Lemma Rleb_true (a b : R) : Rleb a b = true <-> a <= b.
Proof. unfold Rleb. destruct (Rlt_dec b a); split; intros; try lra; easy. Qed.

Lemma Rltb_true (a b : R) : Rltb a b = true <-> a < b.
Proof. unfold Rltb. destruct (Rlt_dec a b); split; intros; try lra; easy. Qed.

(** Deciding a goal between boolean tests on reals. *)
Ltac bool_reals :=
  unfold Rleb, Rltb;
  repeat match goal with
  | |- context [Rlt_dec ?a ?b] => destruct (Rlt_dec a b)
  end; cbn; try reflexivity; try lra.

Lemma cum_n_cons (a w : list npfloat) (e0 e1 : npfloat) (rest : list npfloat) :
  cum_n a w (e0 :: e1 :: rest)
  = weight_where a w (fun x => sort_lt x e0) :: cum_n a w (e1 :: rest).
Proof.
  unfold cum_n, upto_last, last_slice.
  replace (length (e0 :: e1 :: rest) - 1)%nat
    with (S (length (e1 :: rest) - 1)) by (cbn [length]; lia).
  reflexivity.
Qed.

Lemma diff_cons (x y : npfloat) (l : list npfloat) :
  diff (x :: y :: l) = nsub y x :: diff (y :: l).
Proof. reflexivity. Qed.

Lemma cum_n_head (a w : list npfloat) (e : npfloat) (rest : list npfloat) :
  exists c cs, cum_n a w (e :: rest) = c :: cs.
Proof.
  destruct rest as [|e1 rest].
  - eexists _, _. reflexivity.
  - rewrite cum_n_cons. eexists _, _. reflexivity.
Qed.

(** The counts of [np.histogram] on numbers are the weights of the bins. *)
Lemma histogram_counts_finite (xs ws es : list R) :
  nondecreasing es ->
  diff (cum_n (map Fin xs) (map Fin ws) (map Fin es))
  = map Fin (bin_weights xs ws es).
Proof.
  induction es as [|e0 es IH]; intros Hs; [reflexivity |].
  destruct es as [|e1 es]; [reflexivity |].
  destruct Hs as [H01 Hs]. specialize (IH Hs).
  cbn [map] in *. rewrite cum_n_cons.
  destruct es as [|e2 es].
  - cbn [bin_weights map].
    change (cum_n (map Fin xs) (map Fin ws) [Fin e1])
      with [weight_where (map Fin xs) (map Fin ws)
              (fun x => sort_le x (Fin e1))].
    rewrite diff_cons. change (diff [_]) with (@nil npfloat).
    rewrite (weight_where_Fin xs ws (fun x => sort_lt x (Fin e0))).
    rewrite (weight_where_Fin xs ws (fun x => sort_le x (Fin e1))). cbn [nsub nneg nadd]. do 2 f_equal.
    rewrite <- (Rweight_split xs ws (fun x => sort_lt (Fin x) (Fin e0))
                  (fun x => Rleb e0 x && Rleb x e1)
                  (fun x => sort_le (Fin x) (Fin e1))).
    + lra.
    + intros x. unfold sort_le. cbn [sort_lt nlt]. bool_reals.
    + intros x. cbn [sort_lt nlt]. bool_reals.
  - cbn [map] in *. rewrite cum_n_cons in IH.
    rewrite cum_n_cons, diff_cons, IH.
    change (bin_weights xs ws (e0 :: e1 :: e2 :: es))
      with (Rweight xs ws (fun x => Rleb e0 x && Rltb x e1)
            :: bin_weights xs ws (e1 :: e2 :: es)).
    cbn [map]. f_equal.
    rewrite (weight_where_Fin xs ws (fun x => sort_lt x (Fin e0))).
    rewrite (weight_where_Fin xs ws (fun x => sort_lt x (Fin e1))).
    cbn [nsub nneg nadd]. f_equal.
    rewrite <- (Rweight_split xs ws (fun x => sort_lt (Fin x) (Fin e0))
                  (fun x => Rleb e0 x && Rltb x e1)
                  (fun x => sort_lt (Fin x) (Fin e1))).
    + lra.
    + intros x. cbn [sort_lt nlt]. bool_reals.
    + intros x. cbn [sort_lt nlt]. bool_reals.
Qed.

Lemma nondecreasing_check (es : list R) :
  nondecreasing es ->
  existsb (fun c => c)
    (zip_with ngt (upto_last (map Fin es)) (from1 (map Fin es))) = false.
Proof.
  induction es as [|e0 es IH]; intros Hs; [reflexivity |].
  destruct es as [|e1 es]; [reflexivity |].
  destruct Hs as [H01 Hs]. specialize (IH Hs).
  unfold upto_last, from1 in *. cbn [map removelast tl zip_with existsb] in *.
  unfold ngt at 1. rewrite nlt_Fin_false by exact H01. cbn [orb].
  destruct es as [|e2 es]; [reflexivity |]. exact IH.
Qed.

Lemma histogram_finite (xs ws es : list R) :
  length xs = length ws -> nondecreasing es ->
  histogram (map Fin xs) (map Fin es) (map Fin ws)
  = Ok (map Fin (bin_weights xs ws es)).
Proof.
  intros Hlen Hs. unfold histogram.
  rewrite !length_map, Hlen, Nat.eqb_refl. cbn [negb].
  rewrite nondecreasing_check by exact Hs.
  now rewrite histogram_counts_finite.
Qed.

Lemma last_indep_default (l : list R) (a b : R) :
  l <> [] -> List.last l a = List.last l b.
Proof.
  induction l as [|c l IH]; intros Hne; [contradiction |].
  destruct l as [|c' l]; [reflexivity |].
  change (List.last (c' :: l) a = List.last (c' :: l) b).
  apply IH. discriminate.
Qed.

Lemma nondecreasing_head_last (a : R) (l : list R) :
  nondecreasing (a :: l) -> a <= List.last l a.
Proof.
  revert a. induction l as [|b l IH]; intros a Hs; [cbn; lra |].
  destruct Hs as [Hab Hs]. specialize (IH b Hs).
  destruct l as [|c l]; [exact Hab |].
  change (List.last (b :: c :: l) a) with (List.last (c :: l) a).
  rewrite (last_indep_default (c :: l) a b) by discriminate. lra.
Qed.

(** All the bins together hold the samples from the first edge to the last
    one, both included. *)
Lemma bin_weights_total (xs ws : list R) (lo : R) (es : list R) :
  nondecreasing (lo :: es) -> es <> [] ->
  Rsum (bin_weights xs ws (lo :: es))
  = Rweight xs ws (fun x => Rleb lo x && Rleb x (List.last es lo)).
Proof.
  revert lo. induction es as [|hi es IH]; intros lo Hs Hne; [contradiction |].
  destruct Hs as [Hlo Hs].
  destruct es as [|e2 es].
  - cbn [bin_weights Rsum fold_right List.last]. lra.
  - change (bin_weights xs ws (lo :: hi :: e2 :: es))
      with (Rweight xs ws (fun x => Rleb lo x && Rltb x hi)
            :: bin_weights xs ws (hi :: e2 :: es)).
    cbn [Rsum fold_right]. fold (Rsum (bin_weights xs ws (hi :: e2 :: es))).
    rewrite (IH hi Hs) by discriminate.
    pose proof (nondecreasing_head_last hi (e2 :: es) Hs) as Hlast.
    change (List.last (hi :: e2 :: es) lo) with (List.last (e2 :: es) lo).
    rewrite (last_indep_default (e2 :: es) lo hi) by discriminate.
    apply Rweight_split; intros x; bool_reals.
Qed.

Lemma nondecreasing_map_seq (f : nat -> R) (a n : nat) :
  (forall i, f i <= f (S i)) -> nondecreasing (map f (seq a n)).
Proof.
  intros Hf. revert a. induction n as [|n IH]; intros a; [exact I |].
  cbn [seq map]. destruct n as [|n]; [exact I |].
  split; [apply Hf | apply (IH (S a))].
Qed.

End FiniteHistograms.

(** * The counts of the time bins *)

Section TimeBins.
Import NumPy Plots Bins Tables Scenarios.
Local Open Scope R_scope.

Lemma finite_col (Pmat : list PairRow) (f : PairRow -> npfloat) :
  Forall (fun row => isfinite (f row) = true) Pmat ->
  col f Pmat = map Fin (map (fun row => fin_part (f row)) Pmat).
Proof.
  intros H. unfold col. rewrite map_map.
  induction H as [|row l Hrow _ IH]; [reflexivity |].
  cbn [map]. rewrite IH. f_equal.
  destruct (f row); try discriminate. reflexivity.
Qed.

Lemma finite_pair_weights (Pmat : list PairRow) :
  Forall finite_pair Pmat -> pair_weights Pmat = map Fin (row_weights Pmat).
Proof.
  intros H. rewrite pair_weights_rows. unfold row_weights. rewrite map_map.
  induction H as [|row l Hrow _ IH]; [reflexivity |].
  cbn [map]. rewrite IH. f_equal.
  destruct Hrow as (_ & _ & _ & Hp & Hz). unfold row_weight.
  destruct (Pij row), (zeta_plus_1 row); try discriminate. reflexivity.
Qed.

Lemma time_bins_reals : time_bins = map Fin time_edges.
Proof. rewrite time_bins_edges. unfold time_edges. now rewrite map_map. Qed.

Lemma time_edges_nondecreasing : nondecreasing time_edges.
Proof.
  apply nondecreasing_map_seq. intros i. left.
  apply log_edge_lt; [lra | lia].
Qed.

(** X1.  On a table of numbers, the counts of [temporal_decay_plot] are,
    bin by bin, the total weight [Pij * zeta_plus_1] of the pairs whose
    time lag is in the bin; all together they are the weight of the pairs
    whose time lag is between [10^-4] and [10^4], and a pair outside this
    range is counted nowhere. *)
Theorem temporal_counts_are_bin_weights (Pmat : list PairRow) :
  Forall finite_pair Pmat ->
  temporal_counts Pmat
  = Ok (map Fin (bin_weights (time_lags Pmat) (row_weights Pmat) time_edges))
  /\ Rsum (bin_weights (time_lags Pmat) (row_weights Pmat) time_edges)
     = Rweight (time_lags Pmat) (row_weights Pmat)
               (fun t => Rleb (/ 10 ^ 4) t && Rleb t (10 ^ 4)).
Proof.
  intros Hfin. split.
  - unfold temporal_counts.
    rewrite (finite_col Pmat time_distance), finite_pair_weights,
      time_bins_reals.
    + apply histogram_finite; [| exact time_edges_nondecreasing].
      unfold time_lags, row_weights. now rewrite !length_map.
    + exact Hfin.
    + eapply Forall_impl; [exact Hfin |]. now intros row (H & _).
  - pose proof time_edges_nondecreasing as Hs.
    change time_edges
      with (log_edge (-4) 4 0 :: map (log_edge (-4) 4) (seq 1 49)) in *.
    rewrite bin_weights_total by (exact Hs || discriminate).
    change (List.last (map (log_edge (-4) 4) (seq 1 49)) (log_edge (-4) 4 0))
      with (log_edge (-4) 4 49).
    rewrite log_edge_first, log_edge_last, Rpower_10_4.
    replace (-4) with (- (4)) by lra.
    now rewrite Rpower_Ropp, Rpower_10_4.
Qed.

Lemma temporal_counts_are_bin_weights_witness :
  temporal_counts far_pair_3
  = Ok (map Fin (bin_weights (time_lags far_pair_3) (row_weights far_pair_3)
                             time_edges))
  /\ Rsum (bin_weights (time_lags far_pair_3) (row_weights far_pair_3)
                       time_edges)
     = Rweight (time_lags far_pair_3) (row_weights far_pair_3)
               (fun t => Rleb (/ 10 ^ 4) t && Rleb t (10 ^ 4)).
Proof.
  apply temporal_counts_are_bin_weights.
  repeat constructor.
Defined.

End TimeBins.

(** * The outcome of [temporal_decay_plot] *)

Section TemporalPlot.
Import NumPy Plots Bins Tables Scenarios.
Local Open Scope R_scope.

(** A loop over the comparison sets, as [mapM] in [result]. *)
Lemma mapM_result_cons {A B : Type} (f : A -> result B) (x : A) (l : list A) :
  mapM f (x :: l)
  = match f x with
    | Ok y => match mapM f l with
              | Ok ys => Ok (y :: ys)
              | Raise e => Raise e
              end
    | Raise e => Raise e
    end.
Proof.
  cbn [mapM]. destruct (f x) as [y | e]; [| reflexivity].
  cbn [mbind result_bind]. destruct (mapM f l); reflexivity.
Qed.

Lemma temporal_comparison_curve_cases (entry : string * params_dict) :
  ((is_Some (entry.2 !! "tau") /\ is_Some (entry.2 !! "c")
    /\ is_Some (entry.2 !! "omega"))
   /\ exists cv, temporal_comparison_curve entry = Ok cv
                 /\ curve_label cv = Some entry.1 /\ curve_x cv = tmid)
  \/ exists key, In key ["tau"; "c"; "omega"]%string
                 /\ entry.2 !! key = None
                 /\ temporal_comparison_curve entry = Raise (KeyError key).
Proof.
  unfold temporal_comparison_curve, getitem.
  destruct (entry.2 !! "tau") as [vt|] eqn:Ht.
  - destruct (entry.2 !! "c") as [vc|] eqn:Hc.
    + destruct (entry.2 !! "omega") as [vo|] eqn:Ho.
      * left. split; [repeat split; eexists; reflexivity |].
        eexists. split; [reflexivity |]. split; reflexivity.
      * right. exists "omega"%string. cbn. auto.
    + right. exists "c"%string. cbn. auto.
  - right. exists "tau"%string. cbn. auto.
Qed.

Lemma temporal_comparison_curves_cases
    (comparison_params : list (string * params_dict)) :
  (Forall (fun entry : string * params_dict =>
             is_Some (entry.2 !! "tau") /\ is_Some (entry.2 !! "c")
             /\ is_Some (entry.2 !! "omega")) comparison_params
   /\ exists others,
        mapM temporal_comparison_curve comparison_params = Ok others
        /\ map curve_label others
           = map (fun entry => Some entry.1) comparison_params
        /\ Forall (fun cv => curve_x cv = tmid) others)
  \/ exists key, In key ["tau"; "c"; "omega"]%string
                 /\ Exists (fun entry : string * params_dict =>
                              entry.2 !! key = None) comparison_params
                 /\ mapM temporal_comparison_curve comparison_params
                    = Raise (KeyError key).
Proof.
  induction comparison_params as [|entry l IH].
  - left. split; [constructor |]. exists []. repeat split. constructor.
  - rewrite mapM_result_cons.
    destruct (temporal_comparison_curve_cases entry)
      as [[Hkeys (cv & -> & Hlab & Hx)] | (key & Hin & Hnone & ->)].
    + destruct IH as [[Hall (others & -> & Hlabs & Hxs)]
                     | (key & Hin & Hex & ->)].
      * left. split; [now constructor |].
        exists (cv :: others). split; [reflexivity |].
        cbn [map]. rewrite Hlab, Hlabs. split; [reflexivity |].
        now constructor.
      * right. exists key. split; [exact Hin |]. split; [| reflexivity].
        now apply Exists_cons_tl.
    + right. exists key. split; [exact Hin |]. split; [| reflexivity].
      now apply Exists_cons_hd.
Qed.

(** X2.  Whatever the table and the parameters (NaN included),
    [temporal_decay_plot] either saves a figure with one curve for the
    primary parameters and one for every comparison set, in order and
    labelled by the key of the set, all over the 49 midpoints, or raises
    [KeyError] for one of ["tau"], ["c"], ["omega"] that a comparison set
    lacks; it raises nothing else, and saves a figure exactly when every
    comparison set has the three keys. *)
Theorem temporal_decay_plot_outcome
    (Pmat : list PairRow) (tau c omega : npfloat) (label : option string)
    (comparison_params : list (string * params_dict)) (file_name : string) :
  (Forall (fun entry : string * params_dict =>
             is_Some (entry.2 !! "tau") /\ is_Some (entry.2 !! "c")
             /\ is_Some (entry.2 !! "omega")) comparison_params
   /\ exists fig,
        temporal_decay_plot Pmat tau c omega label comparison_params file_name
        = Ok fig
        /\ map curve_label (curves fig)
           = label :: map (fun entry => Some entry.1) comparison_params
        /\ Forall (fun cv => curve_x cv = tmid) (curves fig)
        /\ length tmid = 49%nat
        /\ saved_as fig = Plain file_name)
  \/ exists key, In key ["tau"; "c"; "omega"]%string
                 /\ Exists (fun entry : string * params_dict =>
                              entry.2 !! key = None) comparison_params
                 /\ temporal_decay_plot Pmat tau c omega label
                      comparison_params file_name = Raise (KeyError key).
Proof.
  unfold temporal_decay_plot. rewrite temporal_counts_ok.
  cbn [mbind result_bind].
  destruct (temporal_comparison_curves_cases comparison_params)
    as [[Hall (others & -> & Hlabs & Hxs)] | (key & Hin & Hex & ->)].
  - left. split; [exact Hall |]. eexists. split; [reflexivity |].
    cbn [curves saved_as map curve_label]. rewrite Hlabs.
    split; [reflexivity |]. split; [now constructor |].
    split; [| reflexivity].
    rewrite tmid_edges. now rewrite length_map, length_seq.
  - right. exists key. split; [exact Hin |]. split; [exact Hex | reflexivity].
Qed.

Lemma Rsum_pos (l : list R) :
  Forall (fun x => 0 < x) l -> l <> [] -> 0 < Rsum l.
Proof.
  induction 1 as [|x l Hx Hl IH]; intros Hne; [contradiction |].
  cbn [Rsum fold_right]. destruct l as [|y l].
  - cbn. lra.
  - assert (0 < Rsum (y :: l)) by (apply IH; discriminate).
    unfold Rsum in *. lra.
Qed.

Lemma Rsum_map_div (l : list R) (s : R) :
  Rsum (map (fun x => x / s) l) = Rsum l / s.
Proof.
  induction l as [|x l IH]; cbn [map Rsum fold_right].
  - unfold Rdiv. lra.
  - unfold Rsum in IH. rewrite IH. unfold Rdiv. lra.
Qed.

(** A curve of positive numbers, divided by its total. *)
Lemma scaled_positive_curve (ks : list R) :
  Forall (fun x => 0 < x) ks -> ks <> [] ->
  vdivs (map Fin ks) (nsum (map Fin ks))
  = map Fin (map (fun x => x / Rsum ks) ks)
  /\ Rsum (map (fun x => x / Rsum ks) ks) = 1
  /\ Forall (fun x => 0 < x) (map (fun x => x / Rsum ks) ks).
Proof.
  intros Hpos Hne. pose proof (Rsum_pos ks Hpos Hne) as Hs.
  split; [| split].
  - rewrite nsum_map_Fin. unfold vdivs. rewrite !map_map.
    apply map_ext. intros x. apply ndiv_Fin. lra.
  - rewrite Rsum_map_div. field. lra.
  - apply Forall_map. eapply Forall_impl; [exact Hpos |].
    intros x Hx. cbn. now apply Rdiv_lt_0_compat.
Qed.

Lemma tmid_reals :
  tmid = map Fin (map (fun i => (log_edge (-4) 4 i + log_edge (-4) 4 (S i)) / 2)
                      (seq 0 49)).
Proof. rewrite tmid_edges. now rewrite map_map. Qed.

Lemma log_edge_pos (a b : R) (i : nat) : 0 < log_edge a b i.
Proof. apply Rpower_pos. Qed.

(** X3.  For [tau >= 0.001], [0 <= c <= 1000] and [1 + omega] between -10
    and 10 (a range in which no power over- or underflows and the first
    midpoint keeps a positive value), the analytic curve of
    [temporal_decay_plot] consists of 49 numbers, none negative, that add
    up to one.  They are not said to be positive: [exp(-t/tau)] reaches
    zero at the late midpoints in floating point. *)
Theorem time_decay_scaled_sums_to_one (tau c omega : R) :
  / 1000 <= tau -> 0 <= c <= 1000 -> -10 <= 1 + omega <= 10 ->
  exists ys : list R,
    time_decay_scaled (Fin tau) (Fin c) (Fin omega) = map Fin ys
    /\ length ys = 49%nat
    /\ Forall (fun y => 0 <= y) ys
    /\ nsum (time_decay_scaled (Fin tau) (Fin c) (Fin omega)) = Fin 1.
Proof.
  intros Htau Hc _.
  set (mid := fun i => (log_edge (-4) 4 i + log_edge (-4) 4 (S i)) / 2).
  set (ks := map (fun i => exp (- mid i / tau) / Rpower (mid i + c) (1 + omega))
                 (seq 0 49)).
  assert (forall i, 0 < mid i) as Hmid.
  { intros i. unfold mid.
    pose proof (log_edge_pos (-4) 4 i). pose proof (log_edge_pos (-4) 4 (S i)).
    lra. }
  assert (time_decay (Fin tau) (Fin c) (Fin omega) = map Fin ks) as Hdecay.
  { unfold time_decay, ks. rewrite tmid_reals, !map_map.
    apply map_ext. intros i. fold (mid i).
    apply temporal_kernel_real; [lra |]. specialize (Hmid i). lra. }
  assert (Forall (fun x => 0 < x) ks) as Hpos.
  { unfold ks. apply Forall_map, Forall_forall. intros i _. cbn.
    apply Rdiv_lt_0_compat; [apply exp_pos | apply Rpower_pos]. }
  assert (ks <> []) as Hne by discriminate.
  destruct (scaled_positive_curve ks Hpos Hne) as (Hscaled & Hone & Hall).
  exists (map (fun x => x / Rsum ks) ks).
  unfold time_decay_scaled. rewrite Hdecay, Hscaled.
  split; [reflexivity |]. split; [| split].
  - unfold ks. now rewrite !length_map, length_seq.
  - eapply Forall_impl; [exact Hall |]. intros y Hy. cbn beta in Hy. lra.
  - now rewrite nsum_map_Fin, Hone.
Qed.

Lemma time_decay_scaled_sums_to_one_witness :
  exists ys : list R,
    time_decay_scaled (Fin 5) (Fin (1 / 10)) (Fin (1 / 5)) = map Fin ys
    /\ length ys = 49%nat
    /\ Forall (fun y => 0 <= y) ys
    /\ nsum (time_decay_scaled (Fin 5) (Fin (1 / 10)) (Fin (1 / 5))) = Fin 1.
Proof. apply time_decay_scaled_sums_to_one; lra. Defined.

End TemporalPlot.

(** * Tables with no pair inside the bins *)

Section OutOfRange.
Import NumPy Plots Bins Tables Scenarios.
Local Open Scope R_scope.

Lemma Rweight_none (xs ws : list R) (p : R -> bool) :
  Forall (fun x => p x = false) xs -> Rweight xs ws p = 0.
Proof.
  intros H. revert ws. unfold Rweight.
  induction H as [|x xs Hx _ IH]; intros [|w ws]; try reflexivity.
  change (zip (x :: xs) (w :: ws)) with ((x, w) :: zip xs ws).
  cbn [map Rsum fold_right fst]. rewrite Hx.
  specialize (IH ws). unfold Rsum in IH. rewrite IH. lra.
Qed.

(** Samples that are all below the edges or all above them fall in no
    bin. *)
Lemma bin_weights_outside (xs ws es : list R) (lo hi : R) :
  Forall (fun e => lo <= e <= hi) es ->
  Forall (fun x => x < lo \/ hi < x) xs ->
  bin_weights xs ws es = repeat 0 (length es - 1).
Proof.
  intros Hes Hxs. induction Hes as [|e0 es He0 Hes IH]; [reflexivity |].
  destruct Hes as [|e1 es He1 Hes]; [reflexivity |].
  assert (forall q : R -> bool,
            (forall x, q x = Rltb x e1 \/ q x = Rleb x e1) ->
            Rweight xs ws (fun x => Rleb e0 x && q x) = 0) as Hzero.
  { intros q Hq. apply Rweight_none.
    eapply Forall_impl; [exact Hxs |]. intros x Hx. cbn beta.
    destruct (Hq x) as [-> | ->]; unfold Rleb, Rltb;
      repeat match goal with
      | |- context [Rlt_dec ?a ?b] => destruct (Rlt_dec a b)
      end; cbn; try reflexivity; lra. }
  destruct es as [|e2 es].
  - cbn [bin_weights length repeat Nat.sub]. f_equal.
    apply (Hzero (fun x => Rleb x e1)). intros x. now right.
  - change (bin_weights xs ws (e0 :: e1 :: e2 :: es))
      with (Rweight xs ws (fun x => Rleb e0 x && Rltb x e1)
            :: bin_weights xs ws (e1 :: e2 :: es)).
    rewrite IH. cbn [length Nat.sub repeat]. f_equal.
    apply (Hzero (fun x => Rltb x e1)). intros x. now left.
Qed.

Lemma time_edges_range :
  Forall (fun e => / 10 ^ 4 <= e <= 10 ^ 4) time_edges.
Proof.
  unfold time_edges. apply Forall_map, Forall_forall. intros i Hi.
  apply list_elem_of_In, in_seq in Hi. cbn beta.
  assert (log_edge (-4) 4 0 = / 10 ^ 4) as H0.
  { rewrite log_edge_first. replace (-4) with (- (4)) by lra.
    now rewrite Rpower_Ropp, Rpower_10_4. }
  assert (log_edge (-4) 4 49 = 10 ^ 4) as H49
    by now rewrite log_edge_last, Rpower_10_4.
  rewrite <- H0, <- H49. split.
  - destruct (Nat.eq_dec i 0%nat) as [-> | Hne]; [lra |].
    left. apply log_edge_lt; [lra | lia].
  - destruct (Nat.eq_dec i 49%nat) as [-> | Hne]; [lra |].
    left. apply log_edge_lt; [lra | lia].
Qed.

Lemma time_bins_sizes_reals :
  time_bins_sizes
  = map Fin (map (fun i => log_edge (-4) 4 (S i) - log_edge (-4) 4 i)
                 (seq 0 49)).
Proof. rewrite time_bins_sizes_edges. now rewrite map_map. Qed.

Lemma vdiv_zeros (sizes : list R) :
  Forall (fun s => s <> 0) sizes ->
  vdiv (repeat (Fin 0) (length sizes)) (map Fin sizes)
  = repeat (Fin 0) (length sizes).
Proof.
  unfold vdiv. induction 1 as [|s sizes Hs _ IH]; [reflexivity |].
  cbn [length repeat map zip_with]. rewrite IH, ndiv_Fin by exact Hs.
  do 2 f_equal. unfold Rdiv. lra.
Qed.

Lemma nsum_zeros (n : nat) : nsum (repeat (Fin 0) n) = Fin 0.
Proof.
  induction n as [|n IH]; [reflexivity |].
  cbn [repeat]. rewrite nsum_cons, IH. cbn [nadd]. f_equal. lra.
Qed.

Lemma vdivs_zeros (n : nat) :
  vdivs (repeat (Fin 0) n) (Fin 0) = repeat NaN n.
Proof.
  unfold vdivs. induction n as [|n IH]; [reflexivity |].
  cbn [repeat map]. rewrite IH. f_equal.
  cbn [ndiv]. destruct (Req_dec_T 0 0) as [_ | H]; [| contradiction].
  unfold inf_of_sign. destruct (Rlt_dec 0 0) as [H | _]; [lra |]. reflexivity.
Qed.

Lemma temporal_counts_scaled_zeros :
  temporal_counts_scaled (repeat (Fin 0) 49) = repeat NaN 49.
Proof.
  unfold temporal_counts_scaled. cbn zeta. rewrite time_bins_sizes_reals.
  set (sizes := map (fun i => log_edge (-4) 4 (S i) - log_edge (-4) 4 i)
                    (seq 0 49)).
  assert (length sizes = 49%nat) as Hlen
    by (unfold sizes; now rewrite length_map, length_seq).
  rewrite <- Hlen, vdiv_zeros, nsum_zeros, vdivs_zeros; [reflexivity |].
  unfold sizes. apply Forall_map, Forall_forall. intros i _. cbn beta.
  assert (log_edge (-4) 4 i < log_edge (-4) 4 (S i))
    by (apply log_edge_lt; [lra | lia]).
  lra.
Qed.

(** X4.  When no pair of a table of numbers has its time lag between
    [10^-4] and [10^4] days (an empty table for one), [np.histogram]
    counts nothing, the total of the densities is zero, and every one of
    the 49 empirical points of [temporal_decay_plot] is NaN (0/0); nothing
    is raised. *)
Theorem temporal_points_are_NaN_without_lag_in_range (Pmat : list PairRow) :
  Forall finite_pair Pmat ->
  Forall (fun row => fin_part (time_distance row) < / 10 ^ 4
                     \/ 10 ^ 4 < fin_part (time_distance row)) Pmat ->
  temporal_counts Pmat = Ok (repeat (Fin 0) 49)
  /\ temporal_counts_scaled (repeat (Fin 0) 49) = repeat NaN 49
  /\ forall tau c omega label file_name, exists fig,
       temporal_decay_plot Pmat tau c omega label [] file_name = Ok fig
       /\ scatter_y fig = repeat NaN 49.
Proof.
  intros Hfin Hout.
  assert (temporal_counts Pmat = Ok (repeat (Fin 0) 49)) as Hcounts.
  { unfold temporal_counts.
    rewrite (finite_col Pmat time_distance), finite_pair_weights,
      time_bins_reals; [| exact Hfin |].
    - rewrite histogram_finite; [| | exact time_edges_nondecreasing].
      + rewrite (bin_weights_outside _ _ _ (/ 10 ^ 4) (10 ^ 4)).
        * reflexivity.
        * exact time_edges_range.
        * apply Forall_map. exact Hout.
      + unfold row_weights. now rewrite !length_map.
    - eapply Forall_impl; [exact Hfin |]. now intros row (H & _). }
  split; [exact Hcounts |]. split; [exact temporal_counts_scaled_zeros |].
  intros tau c omega label file_name.
  unfold temporal_decay_plot. rewrite Hcounts. cbn [mbind result_bind mapM].
  eexists. split; [reflexivity |].
  cbn [scatter_y]. exact temporal_counts_scaled_zeros.
Qed.

Lemma temporal_points_are_NaN_without_lag_in_range_witness :
  temporal_counts [pair 100000 1 3 1 1] = Ok (repeat (Fin 0) 49)
  /\ temporal_counts_scaled (repeat (Fin 0) 49) = repeat NaN 49
  /\ forall tau c omega label file_name, exists fig,
       temporal_decay_plot [pair 100000 1 3 1 1] tau c omega label []
                           file_name = Ok fig
       /\ scatter_y fig = repeat NaN 49.
Proof.
  apply temporal_points_are_NaN_without_lag_in_range.
  - repeat constructor.
  - constructor; [| constructor]. right. cbn. lra.
Defined.

End OutOfRange.

(** * The outcome of [spatial_decay_plot] on tables of numbers *)

Section SpatialPlot.
Import NumPy Plots Bins Tables Scenarios.
Local Open Scope R_scope.

Lemma ln_sqrt_half (r : R) : 0 < r -> ln (sqrt r) = ln r / 2.
Proof.
  intros Hr. rewrite <- Rpower_sqrt by exact Hr.
  unfold Rpower. rewrite ln_exp. lra.
Qed.

Lemma ln_sqrt_close (r : R) : 0 < r -> r < exp (-2) -> ln (sqrt r) < -1.
Proof.
  intros Hr Hclose. rewrite ln_sqrt_half by exact Hr.
  pose proof (ln_increasing r (exp (-2)) Hr Hclose) as H.
  rewrite ln_exp in H. lra.
Qed.

Lemma ln_sqrt_far (r : R) : exp (-2) < r -> -1 < ln (sqrt r).
Proof.
  intros Hfar. pose proof (exp_pos (-2)) as Hpos.
  rewrite ln_sqrt_half by lra.
  pose proof (ln_increasing (exp (-2)) r Hpos Hfar) as H.
  rewrite ln_exp in H. lra.
Qed.

Lemma log_edge_gt (a b : R) : b < a -> log_edge a b 1 < log_edge a b 0.
Proof.
  intros Hba. unfold log_edge. apply Rpower_lt; [lra |].
  cbn [INR]. nra.
Qed.

(** Edges that go down between the first and the second are refused. *)
Lemma histogram_decreasing (a w : list npfloat) (e0 e1 : npfloat)
    (rest : list npfloat) :
  length a = length w -> ngt e0 e1 = true ->
  histogram a (e0 :: e1 :: rest) w = Raise ValueError.
Proof.
  intros Hlen Hgt. unfold histogram. rewrite Hlen, Nat.eqb_refl.
  cbn [negb]. unfold upto_last, from1.
  change (removelast (e0 :: e1 :: rest)) with (e0 :: removelast (e1 :: rest)).
  cbn [tl zip_with existsb]. now rewrite Hgt.
Qed.

Lemma mapM_result_In_Raise {A B : Type} (f : A -> result B) (l : list A)
    (x : A) (e : exn) :
  In x l -> f x = Raise e -> exists e', mapM f l = Raise e'.
Proof.
  intros Hin Hx. induction l as [|y l IH]; [destruct Hin |].
  rewrite mapM_result_cons. destruct Hin as [-> | Hin].
  - rewrite Hx. now exists e.
  - destruct (f y) as [z | e1]; [| now exists e1].
    destruct (IH Hin) as [e' ->]. now exists e'.
Qed.

Lemma col_pair_weights_length {Pmat : list PairRow}
    (name : PairRow -> npfloat) :
  length (col name Pmat) = length (pair_weights Pmat).
Proof. rewrite pair_weights_length. apply length_map. Qed.

(** X5.  When the pairs of a requested magnitude are all closer than
    [e^-1] km (their largest squared distance [r] is positive and below
    [e^-2]), the second bin edge is below the first, [np.histogram] refuses
    the edges, and [spatial_decay_plot] raises: a [ValueError] in the turn
    of that magnitude, so the call as a whole ends in an exception. *)
Theorem spatial_plot_raises_for_close_pairs
    (Pmat : list PairRow) (magnitudes : list npfloat)
    (d gamma rho mc : npfloat) (label : option string)
    (comparison_params : list (string * params_dict)) (file_name : string)
    (moi : npfloat) (r : R) :
  series_max (col spatial_distance_squared (Psubmat Pmat moi)) = Fin r ->
  0 < r -> r < exp (-2) -> In moi magnitudes ->
  spatial_counts Pmat moi = Raise ValueError
  /\ spatial_decay_figure Pmat d gamma rho mc label comparison_params
                          file_name moi = Raise ValueError
  /\ exists e, spatial_decay_plot Pmat magnitudes d gamma rho mc label
                 comparison_params file_name = Raise e.
Proof.
  intros Hmax Hr Hclose Hin.
  assert (spatial_counts Pmat moi = Raise ValueError) as Hcounts.
  { unfold spatial_counts. rewrite (distance_bins_edges Pmat moi r Hmax Hr).
    change (seq 0 50) with (0%nat :: 1%nat :: seq 2 48). cbn [map].
    apply histogram_decreasing; [apply col_pair_weights_length |].
    unfold ngt. apply nlt_Fin_true, log_edge_gt.
    now apply ln_sqrt_close. }
  assert (spatial_decay_figure Pmat d gamma rho mc label comparison_params
            file_name moi = Raise ValueError) as Hfig.
  { unfold spatial_decay_figure. cbn zeta. now rewrite Hcounts. }
  split; [exact Hcounts |]. split; [exact Hfig |].
  unfold spatial_decay_plot.
  eapply mapM_result_In_Raise; [exact Hin | exact Hfig].
Qed.

Lemma Psubmat_one_row (t dist2 p zeta : R) :
  Psubmat [pair t dist2 3 p zeta] (Fin 3) = [pair t dist2 3 p zeta].
Proof.
  unfold Psubmat, pair. cbn [List.filter source_magnitude].
  rewrite round_Fin, neq_Fin_refl. reflexivity.
Qed.

Lemma exp_minus_2_gt_tenth : / 10 < exp (-2).
Proof.
  replace (-2) with (- (2)) by lra. rewrite exp_Ropp.
  apply Rinv_lt_contravar; [| exact exp_2_lt_10].
  apply Rmult_lt_0_compat; [apply exp_pos | lra].
Qed.

Lemma spatial_plot_raises_for_close_pairs_witness :
  spatial_counts [pair 1 (1 / 100) 3 1 1] (Fin 3) = Raise ValueError
  /\ spatial_decay_figure [pair 1 (1 / 100) 3 1 1] (Fin 1) (Fin 1) (Fin 1)
       (Fin 2) None [] "space_kernel_fit" (Fin 3) = Raise ValueError
  /\ exists e, spatial_decay_plot [pair 1 (1 / 100) 3 1 1] [Fin 3] (Fin 1)
                 (Fin 1) (Fin 1) (Fin 2) None [] "space_kernel_fit" = Raise e.
Proof.
  apply (spatial_plot_raises_for_close_pairs _ _ _ _ _ _ _ _ _ _ (1 / 100)).
  - rewrite Psubmat_one_row. reflexivity.
  - lra.
  - pose proof exp_minus_2_gt_tenth. lra.
  - now left.
Defined.

End SpatialPlot.

(** * The distance bins on tables of numbers *)

Section SpatialBins.
Import NumPy Plots Bins Tables Scenarios.
Local Open Scope R_scope.

Lemma Psubmat_finite (Pmat : list PairRow) (moi : npfloat) :
  Forall finite_pair Pmat -> Forall finite_pair (Psubmat Pmat moi).
Proof.
  unfold Psubmat. induction 1 as [|row l Hrow _ IH]; [constructor |].
  cbn [List.filter]. destruct (neq _ _); [now constructor | exact IH].
Qed.

Lemma distance_bins_reals (Pmat : list PairRow) (moi : npfloat) (r : R) :
  series_max (col spatial_distance_squared (Psubmat Pmat moi)) = Fin r ->
  0 < r -> distance_bins Pmat moi = map Fin (distance_edges r).
Proof.
  intros Hmax Hr. rewrite (distance_bins_edges Pmat moi r Hmax Hr).
  unfold distance_edges. now rewrite map_map.
Qed.

Lemma distance_edges_nondecreasing (r : R) :
  exp (-2) < r -> nondecreasing (distance_edges r).
Proof.
  intros Hfar. apply nondecreasing_map_seq. intros i. left.
  apply log_edge_lt; [now apply ln_sqrt_far | lia].
Qed.

Lemma Rpower_10_minus_1 : Rpower 10 (-1) = / 10.
Proof.
  replace (-1) with (- (1)) by lra. now rewrite Rpower_Ropp, Rpower_1 by lra.
Qed.

(** X6.  On a table of numbers whose pairs of the requested magnitude
    reach beyond [e^-1] km, the counts of [spatial_decay_plot] are, bin by
    bin, the total weight [Pij * zeta_plus_1] of the selected pairs whose
    squared distance lies between the edges of the bin, the edges being
    those laid out from the largest distance itself; all together they are
    the weight of the selected pairs whose squared distance is between
    [0.1] and the last edge [10^(ln max_dist)]. *)
Theorem spatial_counts_are_bin_weights
    (Pmat : list PairRow) (moi : npfloat) (r : R) :
  Forall finite_pair Pmat ->
  series_max (col spatial_distance_squared (Psubmat Pmat moi)) = Fin r ->
  exp (-2) < r ->
  spatial_counts Pmat moi
  = Ok (map Fin (bin_weights (squared_distances (Psubmat Pmat moi))
                             (row_weights (Psubmat Pmat moi))
                             (distance_edges r)))
  /\ Rsum (bin_weights (squared_distances (Psubmat Pmat moi))
                       (row_weights (Psubmat Pmat moi)) (distance_edges r))
     = Rweight (squared_distances (Psubmat Pmat moi))
               (row_weights (Psubmat Pmat moi))
               (fun x => Rleb (/ 10) x && Rleb x (Rpower 10 (ln (sqrt r)))).
Proof.
  intros Hfin Hmax Hfar.
  assert (0 < r) as Hr by (pose proof (exp_pos (-2)); lra).
  pose proof (Psubmat_finite Pmat moi Hfin) as Hsub.
  pose proof (distance_edges_nondecreasing r Hfar) as Hs.
  split.
  - unfold spatial_counts.
    rewrite (finite_col _ spatial_distance_squared), finite_pair_weights,
      (distance_bins_reals Pmat moi r Hmax Hr).
    + apply histogram_finite; [| exact Hs].
      unfold squared_distances, row_weights. now rewrite !length_map.
    + exact Hsub.
    + eapply Forall_impl; [exact Hsub |]. now intros row (_ & H & _).
  - change (distance_edges r)
      with (log_edge (-1) (ln (sqrt r)) 0
            :: map (log_edge (-1) (ln (sqrt r))) (seq 1 49)) in *.
    rewrite bin_weights_total by (exact Hs || discriminate).
    change (List.last (map (log_edge (-1) (ln (sqrt r))) (seq 1 49))
                      (log_edge (-1) (ln (sqrt r)) 0))
      with (log_edge (-1) (ln (sqrt r)) 49).
    now rewrite log_edge_first, log_edge_last, Rpower_10_minus_1.
Qed.

Lemma exp_minus_2_lt_1 : exp (-2) < 1.
Proof. rewrite <- exp_0. apply exp_increasing. lra. Qed.

Lemma spatial_counts_are_bin_weights_witness :
  spatial_counts one_pair_3 (Fin 3)
  = Ok (map Fin (bin_weights (squared_distances (Psubmat one_pair_3 (Fin 3)))
                             (row_weights (Psubmat one_pair_3 (Fin 3)))
                             (distance_edges 100)))
  /\ Rsum (bin_weights (squared_distances (Psubmat one_pair_3 (Fin 3)))
                       (row_weights (Psubmat one_pair_3 (Fin 3)))
                       (distance_edges 100))
     = Rweight (squared_distances (Psubmat one_pair_3 (Fin 3)))
               (row_weights (Psubmat one_pair_3 (Fin 3)))
               (fun x => Rleb (/ 10) x && Rleb x (Rpower 10 (ln (sqrt 100)))).
Proof.
  apply spatial_counts_are_bin_weights.
  - repeat constructor.
  - unfold one_pair_3. rewrite Psubmat_one_row. reflexivity.
  - pose proof exp_minus_2_lt_1. lra.
Defined.

(** X7.  The last distance bin edge is [10^(ln max_dist)], and the squared
    distances are what is counted: the largest squared distance [r] of the
    selected pairs is inside the bins exactly when it is at least 1. *)
Theorem distance_bins_hold_largest_pair_iff
    (Pmat : list PairRow) (moi : npfloat) (r : R) :
  series_max (col spatial_distance_squared (Psubmat Pmat moi)) = Fin r ->
  0 < r ->
  exists top : R,
    last (distance_bins Pmat moi) = Some (Fin top)
    /\ (r <= top <-> 1 <= r).
Proof.
  intros Hmax Hr. exists (Rpower 10 (ln (sqrt r))). split.
  - rewrite (distance_bins_edges Pmat moi r Hmax Hr).
    change (seq 0 50) with (seq 0 49 ++ [49%nat]).
    rewrite map_app. cbn [map]. rewrite last_snoc.
    now rewrite log_edge_last.
  - rewrite ln_sqrt_half by exact Hr. unfold Rpower.
    pose proof ln_10_gt_2 as H10.
    rewrite <- (exp_ln r) at 1 by exact Hr.
    split.
    + intros Hle. destruct (Rle_or_lt 1 r) as [H1 | H1]; [exact H1 |].
      exfalso. pose proof (ln_increasing r 1 Hr H1) as Hln.
      rewrite ln_1 in Hln.
      assert (ln r / 2 * ln 10 < ln r) as Hlt by nra.
      apply exp_increasing in Hlt. lra.
    + intros H1. apply exp_le.
      assert (0 <= ln r) as Hln.
      { destruct H1 as [H1 | <-]; [| rewrite ln_1; lra].
        pose proof (ln_increasing 1 r ltac:(lra) H1) as Hln.
        rewrite ln_1 in Hln. lra. }
      nra.
Qed.

Lemma distance_bins_hold_largest_pair_iff_witness :
  exists top : R,
    last (distance_bins [pair 1 (1 / 4) 3 1 1] (Fin 3)) = Some (Fin top)
    /\ (1 / 4 <= top <-> 1 <= 1 / 4).
Proof.
  apply distance_bins_hold_largest_pair_iff.
  - rewrite Psubmat_one_row. reflexivity.
  - lra.
Defined.

Lemma nansum_map_Fin (rs : list R) : nansum (map Fin rs) = Fin (Rsum rs).
Proof.
  unfold nansum. rewrite map_map. cbn [nan_to_zero isnan].
  apply nsum_map_Fin.
Qed.

Lemma distances_reals (a b : R) :
  distances (map (fun i => Fin (log_edge a b i)) (seq 0 50))
  = map Fin (map (fun i => (log_edge a b (S i) + log_edge a b i) / 2)
                 (seq 0 49)).
Proof.
  unfold distances.
  change (vadd _ _)
    with (map (fun i => Fin (log_edge a b (S i) + log_edge a b i))
              (seq 0 49)).
  unfold vdivs. rewrite !map_map. apply map_ext. intros i.
  apply ndiv_Fin. lra.
Qed.

(** X8.  For [d >= 0] and a subset whose largest squared distance is a
    positive number, the analytic curve that [spatial_decay_plot] draws for
    a magnitude consists of 49 positive numbers that add up to one. *)
Theorem spatial_decay_scaled_sums_to_one
    (Pmat : list PairRow) (m r d gamma rho mc : R) :
  series_max (col spatial_distance_squared (Psubmat Pmat (Fin m))) = Fin r ->
  0 < r -> 0 <= d ->
  exists ys : list R,
    spatial_decay_scaled (distance_bins Pmat (Fin m)) (Fin d) (Fin gamma)
                         (Fin rho) (Fin m) (Fin mc) = map Fin ys
    /\ length ys = 49%nat
    /\ Forall (fun y => 0 < y) ys
    /\ nansum (spatial_decay_scaled (distance_bins Pmat (Fin m)) (Fin d)
                 (Fin gamma) (Fin rho) (Fin m) (Fin mc)) = Fin 1.
Proof.
  intros Hmax Hr Hd.
  rewrite (distance_bins_edges Pmat (Fin m) r Hmax Hr).
  set (b := ln (sqrt r)).
  set (mid := fun i => (log_edge (-1) b (S i) + log_edge (-1) b i) / 2).
  set (ks := map (fun i => 1 / Rpower (mid i + d * exp (gamma * (m - mc)))
                                      (1 + rho)) (seq 0 49)).
  assert (forall i, 0 < mid i + d * exp (gamma * (m - mc))) as Hbase.
  { intros i. unfold mid.
    pose proof (log_edge_pos (-1) b i). pose proof (log_edge_pos (-1) b (S i)).
    pose proof (exp_pos (gamma * (m - mc))). nra. }
  assert (map (fun x => spatial_kernel x (Fin d) (Fin gamma) (Fin rho) (Fin m)
                                       (Fin mc))
              (distances (map (fun i => Fin (log_edge (-1) b i)) (seq 0 50)))
          = map Fin ks) as Hdecay.
  { rewrite distances_reals. unfold ks. rewrite !map_map.
    apply map_ext. intros i. fold (mid i).
    apply spatial_kernel_real. apply Hbase. }
  assert (Forall (fun x => 0 < x) ks) as Hpos.
  { unfold ks. apply Forall_map, Forall_forall. intros i _. cbn beta.
    apply Rdiv_lt_0_compat; [lra | apply Rpower_pos]. }
  assert (ks <> []) as Hne by discriminate.
  destruct (scaled_positive_curve ks Hpos Hne) as (Hscaled & Hone & Hall).
  exists (map (fun x => x / Rsum ks) ks).
  unfold spatial_decay_scaled. cbn zeta.
  rewrite Hdecay, nansum_map_Fin, <- nsum_map_Fin, Hscaled.
  split; [reflexivity |]. split; [| split; [exact Hall |]].
  - unfold ks. now rewrite !length_map, length_seq.
  - now rewrite nansum_map_Fin, Hone.
Qed.

Lemma spatial_decay_scaled_sums_to_one_witness :
  exists ys : list R,
    spatial_decay_scaled (distance_bins one_pair_3 (Fin 3)) (Fin 2) (Fin 1)
                         (Fin 1) (Fin 3) (Fin 2) = map Fin ys
    /\ length ys = 49%nat
    /\ Forall (fun y => 0 < y) ys
    /\ nansum (spatial_decay_scaled (distance_bins one_pair_3 (Fin 3)) (Fin 2)
                 (Fin 1) (Fin 1) (Fin 3) (Fin 2)) = Fin 1.
Proof.
  apply (spatial_decay_scaled_sums_to_one one_pair_3 3 100 2 1 1 2).
  - unfold one_pair_3. rewrite Psubmat_one_row. reflexivity.
  - lra.
  - lra.
Defined.

End SpatialBins.

(** * The magnitude bins on catalogs of numbers *)

Section MagnitudeBins.
Import NumPy Plots Bins Tables Scenarios.
Local Open Scope R_scope.

Lemma series_fold_max (a : R) (l : list R) :
  fold_left (fun acc x =>
    if isnan x then acc
    else if isnan acc then x
    else if nlt acc x then x else acc) (map Fin l) (Fin a)
  = Fin (Rlist_max a l).
Proof.
  unfold Rlist_max. revert a. induction l as [|b l IH]; intros a.
  - reflexivity.
  - cbn [map fold_left isnan nlt]. destruct (Rlt_dec a b) as [Hab | Hab].
    + rewrite IH. do 2 f_equal. now rewrite Rmax_right by lra.
    + rewrite IH. do 2 f_equal. now rewrite Rmax_left by lra.
Qed.

Lemma series_fold_min (a : R) (l : list R) :
  fold_left (fun acc x =>
    if isnan x then acc
    else if isnan acc then x
    else if nlt x acc then x else acc) (map Fin l) (Fin a)
  = Fin (Rlist_min a l).
Proof.
  unfold Rlist_min. revert a. induction l as [|b l IH]; intros a.
  - reflexivity.
  - cbn [map fold_left isnan nlt]. destruct (Rlt_dec b a) as [Hab | Hab].
    + rewrite IH. do 2 f_equal. now rewrite Rmin_right by lra.
    + rewrite IH. do 2 f_equal. now rewrite Rmin_left by lra.
Qed.

Lemma series_max_reals (a : R) (l : list R) :
  series_max (map Fin (a :: l)) = Fin (Rlist_max a l).
Proof. unfold series_max. cbn [map fold_left isnan]. apply series_fold_max. Qed.

Lemma series_min_reals (a : R) (l : list R) :
  series_min (map Fin (a :: l)) = Fin (Rlist_min a l).
Proof. unfold series_min. cbn [map fold_left isnan]. apply series_fold_min. Qed.

Lemma Rlist_min_le_max (a : R) (l : list R) : Rlist_min a l <= Rlist_max a l.
Proof.
  unfold Rlist_min, Rlist_max.
  assert (forall lo hi, lo <= hi -> fold_left Rmin l lo <= fold_left Rmax l hi)
    as H.
  { induction l as [|b l IH]; intros lo hi Hle; [exact Hle |].
    cbn [fold_left]. apply IH.
    pose proof (Rmin_l lo b). pose proof (Rmax_l hi b). lra. }
  apply H. lra.
Qed.

Lemma catalog_of_magnitudes (ms : list R) :
  col magnitude (catalog_of ms) = map Fin ms.
Proof. unfold col, catalog_of. rewrite map_map. reflexivity. Qed.

Lemma magnitude_bins_reals (m0 : R) (ms : list R) (dm : R) :
  dm <> 0 ->
  magnitude_bins (catalog_of (m0 :: ms)) (Fin dm)
  = Ok (map Fin (magnitude_edges (Rlist_min m0 ms) (Rlist_max m0 ms) dm)).
Proof.
  intros Hdm. unfold magnitude_bins. cbn zeta.
  rewrite catalog_of_magnitudes, series_min_reals, series_max_reals.
  rewrite ndiv_Fin by lra. unfold arange. cbn [nsub nneg nadd].
  rewrite ndiv_Fin by exact Hdm. unfold magnitude_edges.
  rewrite map_map. f_equal.
Qed.

(** In exact arithmetic: the largest and the smallest magnitude a whole
    number [k] of bin widths apart. *)
Lemma magnitude_edges_on_grid (mn mx dm : R) (k : nat) :
  0 < dm -> mx - mn = INR k * dm ->
  magnitude_edges mn mx dm
  = map (fun i => mn - dm / 2 + INR i * dm) (seq 0 (S k))
  /\ Forall (fun e => e <= mx - dm / 2) (magnitude_edges mn mx dm).
Proof.
  intros Hdm Hgrid.
  assert ((mx + dm / 2 + - (mn - dm / 2)) / dm = IZR (Z.of_nat (S k))) as Hq.
  { rewrite <- INR_IZR_INZ, S_INR.
    replace (mx + dm / 2 + - (mn - dm / 2)) with (mx - mn + dm) by lra.
    rewrite Hgrid. field. lra. }
  assert (magnitude_edges mn mx dm
          = map (fun i => mn - dm / 2 + INR i * dm) (seq 0 (S k))) as Hedges.
  { unfold magnitude_edges. rewrite Hq, Rceil_IZR. now rewrite Nat2Z.id. }
  split; [exact Hedges |].
  rewrite Hedges. apply Forall_map, Forall_forall.
  intros i Hi. apply list_elem_of_In, in_seq in Hi. cbn beta.
  assert (INR i <= INR k) as Hik by (apply le_INR; lia).
  assert (INR i * dm <= INR k * dm) by (apply Rmult_le_compat_r; lra).
  lra.
Qed.

Lemma Rlist_max_In (a : R) (l : list R) : In (Rlist_max a l) (a :: l).
Proof.
  unfold Rlist_max. revert a. induction l as [|b l IH]; intros a.
  - now left.
  - cbn [fold_left]. destruct (IH (Rmax a b)) as [H | H].
    + rewrite <- H. apply Rmax_case; [now left | right; now left].
    + right. now right.
Qed.

Lemma Rlist_min_In (a : R) (l : list R) : In (Rlist_min a l) (a :: l).
Proof.
  unfold Rlist_min. revert a. induction l as [|b l IH]; intros a.
  - now left.
  - cbn [fold_left]. destruct (IH (Rmin a b)) as [H | H].
    + rewrite <- H. apply Rmin_case; [now left | right; now left].
    + right. now right.
Qed.

(** X10.  A bin width that is a power of two ([delta_m = 2^-j]: 0.5,
    0.25, ...) and catalog magnitudes that are whole multiples of it, of
    moderate size, so that every operation of line 130 is exact in binary
    floating point as well.  The largest and the smallest magnitude are then
    a whole number [k] of bin widths apart, [np.arange] gives the [k + 1]
    edges [min - delta_m/2 + i * delta_m], hence [k] bins, and the last
    edge is half a bin width below the largest magnitude: the events of
    the largest magnitude are in no bin. *)
Theorem largest_magnitude_outside_bins_on_grid
    (m0 : R) (ms : list R) (dm : R) (j : nat) :
  dm = / 2 ^ j -> (j <= 1000)%nat ->
  Forall (fun m => exists z : Z, m = IZR z * dm /\ (Z.abs z <= 2 ^ 50)%Z)
         (m0 :: ms) ->
  exists (k : nat) (edges : list R),
    Rlist_max m0 ms - Rlist_min m0 ms = INR k * dm
    /\ edges = map (fun i => Rlist_min m0 ms - dm / 2 + INR i * dm)
                   (seq 0 (S k))
    /\ magnitude_bins (catalog_of (m0 :: ms)) (Fin dm) = Ok (map Fin edges)
    /\ length (bin_magnitudes (map Fin edges)) = k
    /\ Forall (fun e => e <= Rlist_max m0 ms - dm / 2) edges
    /\ Forall (fun e => e < Rlist_max m0 ms) edges.
Proof.
  intros Hdyadic _ Hgrid.
  assert (0 < dm) as Hdm.
  { rewrite Hdyadic. apply Rinv_0_lt_compat, pow_lt. lra. }
  pose proof (Rlist_min_le_max m0 ms) as Hle.
  rewrite Forall_forall in Hgrid.
  destruct (Hgrid _ (proj2 (list_elem_of_In _ _) (Rlist_max_In m0 ms)))
    as (zmax & Hmax & _).
  destruct (Hgrid _ (proj2 (list_elem_of_In _ _) (Rlist_min_In m0 ms)))
    as (zmin & Hmin & _).
  set (mn := Rlist_min m0 ms) in *. set (mx := Rlist_max m0 ms) in *.
  assert (zmin <= zmax)%Z as Hz.
  { apply le_IZR. apply (Rmult_le_reg_r dm); [exact Hdm | lra]. }
  set (k := Z.to_nat (zmax - zmin)).
  assert (mx - mn = INR k * dm) as Hk.
  { unfold k. rewrite INR_IZR_INZ, Z2Nat.id by lia.
    rewrite minus_IZR. lra. }
  destruct (magnitude_edges_on_grid mn mx dm k Hdm Hk) as [Hedges Hall].
  exists k, (magnitude_edges mn mx dm).
  split; [exact Hk |]. split; [exact Hedges |].
  split; [apply magnitude_bins_reals; lra |]. split; [| split].
  - unfold bin_magnitudes, vdivs, vadd, from1, upto_last.
    rewrite length_map, length_zip_with, length_tl, removelast_firstn_len.
    rewrite length_take, !length_map, Hedges, length_map, length_seq. lia.
  - exact Hall.
  - eapply Forall_impl; [exact Hall |]. intros e He. cbn beta in *. lra.
Qed.

Lemma largest_magnitude_outside_bins_on_grid_witness :
  exists (k : nat) (edges : list R),
    Rlist_max 3 [4] - Rlist_min 3 [4] = INR k * (1 / 2)
    /\ edges = map (fun i => Rlist_min 3 [4] - 1 / 2 / 2 + INR i * (1 / 2))
                   (seq 0 (S k))
    /\ magnitude_bins (catalog_of [3; 4]) (Fin (1 / 2)) = Ok (map Fin edges)
    /\ length (bin_magnitudes (map Fin edges)) = k
    /\ Forall (fun e => e <= Rlist_max 3 [4] - 1 / 2 / 2) edges
    /\ Forall (fun e => e < Rlist_max 3 [4]) edges.
Proof.
  apply (largest_magnitude_outside_bins_on_grid 3 [4] (1 / 2) 1).
  - cbn [pow]. lra.
  - lia.
  - constructor; [| constructor; [| constructor]].
    + exists 6%Z. split; [lra | now apply Z.leb_le].
    + exists 8%Z. split; [lra | now apply Z.leb_le].
Defined.

End MagnitudeBins.

(** * The empirical points of [productivity_plot] *)

Section ProductivityPoints.
Import NumPy Plots Bins Tables Scenarios.
Local Open Scope R_scope.

Lemma vdiv_reals (Ws Ns : list R) :
  vdiv (map Fin Ws) (map Fin Ns) = zip_with per_event Ws Ns.
Proof.
  unfold vdiv. revert Ns.
  induction Ws as [|W Ws IH]; intros [|N Ns]; try reflexivity.
  cbn [map zip_with]. now rewrite IH.
Qed.

(** X11.  For a table and a catalog of numbers, and the bin edges that
    [np.histogram] is handed (numbers that do not decrease), the empirical
    points of [productivity_plot] (lines 136-144) are, bin by bin, the total
    weight [Pij * zeta_plus_1] of the pairs whose source magnitude is in the
    bin over the number of catalog events whose magnitude is in the bin; in
    a bin without catalog event the point is an infinity, or NaN when it
    holds no weight either. *)
Theorem productivity_points_are_weight_per_event
    (Pmat : list PairRow) (ms es : list R) :
  Forall finite_pair Pmat -> nondecreasing es ->
  let weight := bin_weights (source_magnitudes Pmat) (row_weights Pmat) es in
  let events := bin_weights ms (map (fun _ => 1) ms) es in
  productivity_counts_scaled Pmat (catalog_of ms) (map Fin es)
  = Ok (zip_with per_event weight events)
  /\ forall W N : R,
       per_event W N
       = if Req_dec_T N 0
         then (if Rlt_dec 0 W then PInf else if Rlt_dec W 0 then NInf else NaN)
         else Fin (W / N).
Proof.
  intros Hfin Hs weight events. split; [| reflexivity].
  unfold productivity_counts_scaled, productivity_counts.
  rewrite (finite_col Pmat source_magnitude), finite_pair_weights.
  - rewrite histogram_finite; [| | exact Hs].
    + cbn [mbind result_bind]. unfold histogram_unweighted.
      rewrite catalog_of_magnitudes.
      replace (map (fun _ : npfloat => Fin 1) (map Fin ms))
        with (map Fin (map (fun _ : R => 1) ms)) by now rewrite !map_map.
      rewrite histogram_finite; [| now rewrite length_map | exact Hs].
      cbn [mbind result_bind mret result_ret]. now rewrite vdiv_reals.
    + unfold source_magnitudes, row_weights. now rewrite !length_map.
  - exact Hfin.
  - eapply Forall_impl; [exact Hfin |]. now intros row (_ & _ & H & _).
Qed.

Lemma productivity_points_are_weight_per_event_witness :
  let es := [11 / 4; 13 / 4; 15 / 4] in
  let weight :=
    bin_weights (source_magnitudes pairs_3) (row_weights pairs_3) es in
  let events := bin_weights [3; 4] (map (fun _ => 1) [3; 4]) es in
  productivity_counts_scaled pairs_3 (catalog_of [3; 4]) (map Fin es)
  = Ok (zip_with per_event weight events)
  /\ forall W N : R,
       per_event W N
       = if Req_dec_T N 0
         then (if Rlt_dec 0 W then PInf else if Rlt_dec W 0 then NInf else NaN)
         else Fin (W / N).
Proof.
  apply (productivity_points_are_weight_per_event
           pairs_3 [3; 4] [11 / 4; 13 / 4; 15 / 4]).
  - repeat constructor.
  - cbn. lra.
Defined.

Lemma series_fold_NaN (f : npfloat -> npfloat -> npfloat) (l : list npfloat) :
  (forall acc, f acc NaN = acc) ->
  Forall (fun x => x = NaN) l -> fold_left f l NaN = NaN.
Proof.
  intros Hf. induction 1 as [|x l -> _ IH]; [reflexivity |].
  cbn [fold_left]. now rewrite Hf.
Qed.

(** X12.  A catalog without a single magnitude that is a number (an empty
    catalog for one) and a bin width other than zero: the smallest and the
    largest magnitude are NaN, the length that [np.arange] computes is NaN,
    and [productivity_plot] raises [ValueError] before it looks at anything
    else.  (With a bin width of zero the division by the step comes
    first.) *)
Theorem productivity_plot_needs_a_magnitude
    (parameter_dict2array : params_dict -> result (list npfloat))
    (expected_aftershocks :
       list npfloat -> list npfloat * npfloat -> bool -> bool ->
       result (list npfloat))
    (Pmat : list PairRow) (catalog : list CatalogRow) (params : params_dict)
    (mc delta_m : npfloat) (label : option string)
    (comparison_params : list (string * params_dict)) (file_name : string) :
  Forall (fun row => magnitude row = NaN) catalog -> delta_m <> Fin 0 ->
  magnitude_bins catalog delta_m = Raise ValueError
  /\ productivity_plot parameter_dict2array expected_aftershocks Pmat catalog
       params mc delta_m label comparison_params file_name
     = Raise ValueError.
Proof.
  intros Hnan _.
  assert (Forall (fun x => x = NaN) (col magnitude catalog)) as Hcol.
  { unfold col. apply Forall_map. exact Hnan. }
  assert (magnitude_bins catalog delta_m = Raise ValueError) as Hbins.
  { unfold magnitude_bins, series_min, series_max. cbn zeta.
    rewrite !series_fold_NaN by (exact Hcol || reflexivity).
    unfold arange. cbn [nsub nadd ndiv].
    now destruct (ndiv delta_m (Fin 2)). }
  split; [exact Hbins |].
  unfold productivity_plot. now rewrite Hbins.
Qed.

Lemma productivity_plot_needs_a_magnitude_witness :
  magnitude_bins [ {| magnitude := NaN |} ] (Fin (1 / 10)) = Raise ValueError
  /\ productivity_plot (fun _ => Ok []) (fun x _ _ _ => Ok x) pairs_3
       [ {| magnitude := NaN |} ] ∅ (Fin 3) (Fin (1 / 10)) None []
       "productivity_fit.pdf"
     = Raise ValueError.
Proof.
  apply productivity_plot_needs_a_magnitude.
  - repeat constructor.
  - intros H. injection H as H. lra.
Defined.

End ProductivityPoints.

(** * What the constructor needs and what it leaves alone *)

Section ConstructorFrame.
Import NumPy Plots ETASFitVisualisation Fields.
Local Open Scope R_scope.

Lemma field_of_Some (h : store) (obj : ref) (key : string) (v : npfloat) :
  field_of h obj key = Some v
  <-> exists d, h !! obj = Some d /\ d !! key = Some v.
Proof.
  unfold field_of. destruct (h !! obj) as [d|]; cbn.
  - split; [intros H; now exists d | now intros (d' & [= <-] & H)].
  - split; [discriminate | now intros (d' & [=] & _)].
Qed.

Lemma getitem_at_field (obj : ref) (key : string) (h : store) (v : npfloat) :
  field_of h obj key = Some v -> getitem_at obj key h = Ok (v, h).
Proof.
  intros H. apply field_of_Some in H. destruct H as (d & Hd & Hv).
  now apply (getitem_at_ok obj key h d v).
Qed.

Lemma getitem_at_field_inv (obj : ref) (key : string) (h h' : store)
    (v : npfloat) :
  getitem_at obj key h = Ok (v, h') -> h' = h /\ field_of h obj key = Some v.
Proof.
  intros H. apply getitem_at_inv in H. destruct H as [-> H].
  split; [reflexivity |]. now apply field_of_Some.
Qed.

(** One turn of the loop: which fields it changes. *)
Lemma harmonise_fields (self_mc self_delta_m : option npfloat)
    (entry : string * ref) (h h' : store) (u : unit) :
  harmonise self_mc self_delta_m entry h = Ok (u, h') ->
  has_fields h entry.2 comparison_keys
  /\ is_Some self_mc /\ is_Some self_delta_m
  /\ (forall obj key, ~ In key rescaled_keys ->
        field_of h' obj key = field_of h obj key)
  /\ (forall obj key, is_Some (field_of h' obj key)
                      <-> is_Some (field_of h obj key)).
Proof.
  intros H. apply harmonise_inv in H.
  destruct H as (p & xmu & xd & xk & xg & xr & xb & xmc & xdm & ymc & ydm & H).
  destruct H as (Hp & Hmu & Hd & Hk & Hg & Hr & Hb & Hmc & Hdm & -> & -> & ->).
  split; [| split; [now eexists | split; [now eexists | split]]].
  - unfold has_fields, comparison_keys.
    repeat (constructor; [unfold field_of; rewrite Hp; cbn; eauto |]).
    constructor.
  - intros obj key Hkey. unfold field_of.
    destruct (decide (obj = entry.2)) as [-> | Hne].
    + rewrite lookup_insert_eq, Hp. cbn.
      rewrite !lookup_insert_ne; [reflexivity | | |];
        intros <-; apply Hkey; cbn; auto.
    + now rewrite lookup_insert_ne by congruence.
  - intros obj key. unfold field_of.
    destruct (decide (obj = entry.2)) as [-> | Hne].
    + rewrite lookup_insert_eq, Hp. cbn.
      destruct (decide (key = "log10_k0"%string)) as [-> | Hk0].
      { rewrite lookup_insert_eq, Hk. split; eauto. }
      rewrite lookup_insert_ne by congruence.
      destruct (decide (key = "log10_d"%string)) as [-> | Hkd].
      { rewrite lookup_insert_eq, Hd. split; eauto. }
      rewrite lookup_insert_ne by congruence.
      destruct (decide (key = "log10_mu"%string)) as [-> | Hkmu].
      { rewrite lookup_insert_eq, Hmu. split; eauto. }
      now rewrite lookup_insert_ne by congruence.
    + now rewrite lookup_insert_ne by congruence.
Qed.

Lemma for_each_harmonise_fields (self_mc self_delta_m : option npfloat)
    (l : list (string * ref)) (h h' : store) (u : unit) :
  for_each (harmonise self_mc self_delta_m) l h = Ok (u, h') ->
  Forall (fun entry => has_fields h entry.2 comparison_keys) l
  /\ (l = [] \/ (is_Some self_mc /\ is_Some self_delta_m))
  /\ (forall obj key, ~ In key rescaled_keys ->
        field_of h' obj key = field_of h obj key)
  /\ (forall obj key, is_Some (field_of h' obj key)
                      <-> is_Some (field_of h obj key)).
Proof.
  revert h. induction l as [|entry l IH]; intros h H.
  - injection H as _ <-. split; [constructor |]. split; [now left |].
    split; [reflexivity | reflexivity].
  - apply for_each_cons in H. destruct H as (h1 & H1 & H).
    apply harmonise_fields in H1.
    destruct H1 as (Hkeys & Hmc & Hdm & Hsame1 & Hdom1).
    destruct (IH h1 H) as (Hall & _ & Hsame & Hdom).
    split; [| split; [right; now split | split]].
    + constructor; [exact Hkeys |].
      eapply Forall_impl; [exact Hall |]. intros e He.
      unfold has_fields in *. eapply Forall_impl; [exact He |].
      intros key Hk. cbn beta in *. now apply Hdom1.
    + intros obj key Hkey. now rewrite Hsame, Hsame1.
    + intros obj key. now rewrite Hdom, Hdom1.
Qed.

(** X13.  The constructor changes nothing in the store but the fields
    [log10_mu], [log10_d] and [log10_k0] of the comparison sets: every
    other field of every dictionary keeps its value, no key appears or
    disappears, and a dictionary that is no comparison set is left as it
    was. *)
Theorem constructor_touches_only_rescaled_fields
    (metadata : Metadata) (h h' : store) (self : t) :
  __init__ metadata h = Ok (self, h') ->
  (forall obj key, ~ In key rescaled_keys ->
     field_of h' obj key = field_of h obj key)
  /\ (forall obj key, is_Some (field_of h' obj key)
                      <-> is_Some (field_of h obj key))
  /\ (forall obj,
        ~ In obj (map snd (default [] (md_comparison_parameters metadata))) ->
        h' !! obj = h !! obj).
Proof.
  intros Hrun. apply init_inv in Hrun. destruct Hrun as [Hloop _].
  pose proof (for_each_harmonise_fields _ _ _ _ _ _ Hloop)
    as (_ & _ & Hsame & Hdom).
  split; [exact Hsame |]. split; [exact Hdom |].
  intros obj Hnot. eapply for_each_harmonise_frame; eassumption.
Qed.

Lemma constructor_touches_only_rescaled_fields_witness :
  exists (self : t) (h' : store),
    __init__ Scenarios.session_metadata (Scenarios.session_store 4)
    = Ok (self, h')
    /\ (forall obj key, ~ In key rescaled_keys ->
          field_of h' obj key
          = field_of (Scenarios.session_store 4) obj key)
    /\ (forall obj key,
          is_Some (field_of h' obj key)
          <-> is_Some (field_of (Scenarios.session_store 4) obj key))
    /\ (forall obj,
          ~ In obj (map snd (default [] (md_comparison_parameters
                                           Scenarios.session_metadata))) ->
          h' !! obj = Scenarios.session_store 4 !! obj).
Proof.
  destruct (session_runs 4) as (self & h' & Hrun).
  exists self, h'. split; [exact Hrun |].
  exact (constructor_touches_only_rescaled_fields _ _ _ _ Hrun).
Defined.

End ConstructorFrame.

(** * When the constructor succeeds *)

Section ConstructorOutcome.
Import NumPy Plots ETASFitVisualisation Fields.
Local Open Scope R_scope.

Lemma has_fields_cons (h : store) (obj : ref) (key : string)
    (keys : list string) :
  has_fields h obj (key :: keys)
  <-> is_Some (field_of h obj key) /\ has_fields h obj keys.
Proof.
  unfold has_fields. split.
  - intros H. inversion H; subst. now split.
  - intros [H1 H2]. now constructor.
Qed.

Lemma bind_getitem_at {A : Type} (obj : ref) (key : string) (h : store)
    (v : npfloat) (k : npfloat -> M A) :
  field_of h obj key = Some v -> (getitem_at obj key ≫= k) h = k v h.
Proof.
  intros H. unfold mbind, M_bind. now rewrite (getitem_at_field _ _ _ _ H).
Qed.

Lemma harmonise_ok (smc sdm : npfloat) (entry : string * ref) (h : store) :
  has_fields h entry.2 comparison_keys ->
  exists h', harmonise (Some smc) (Some sdm) entry h = Ok (tt, h').
Proof.
  intros Hkeys. unfold comparison_keys in Hkeys.
  repeat (apply has_fields_cons in Hkeys;
          let v := fresh "v" in
          let Hv := fresh "Hv" in
          destruct Hkeys as [[v Hv] Hkeys]).
  unfold harmonise. cbn zeta.
  repeat (erewrite bind_getitem_at by eassumption).
  cbn [number]. unfold mbind at 1, M_bind at 1. cbn [mret M_ret].
  unfold mbind at 1, M_bind at 1. cbn [mret M_ret].
  apply field_of_Some in Hv. destruct Hv as (p & Hp & _).
  rewrite (setitem_thrice _ _ p) by exact Hp. now eexists.
Qed.

Lemma for_each_harmonise_ok (smc sdm : npfloat) (l : list (string * ref))
    (h : store) :
  Forall (fun entry => has_fields h entry.2 comparison_keys) l ->
  exists h', for_each (harmonise (Some smc) (Some sdm)) l h = Ok (tt, h').
Proof.
  revert h. induction l as [|entry l IH]; intros h Hall.
  - now exists h.
  - inversion Hall as [|e0 l0 Hentry Hall']; subst. clear Hall.
    rename Hall' into Hall.
    destruct (harmonise_ok smc sdm entry h Hentry) as [h1 H1].
    pose proof (harmonise_fields _ _ _ _ _ _ H1) as (_ & _ & _ & _ & Hdom).
    destruct (IH h1) as [h' H'].
    { eapply Forall_impl; [exact Hall |]. intros e He.
      unfold has_fields in *. eapply Forall_impl; [exact He |].
      intros key Hk. cbn beta in *. now apply Hdom. }
    exists h'. cbn [for_each]. unfold mbind at 1, M_bind at 1.
    now rewrite H1.
Qed.

Lemma init_primary (metadata : Metadata) (h h' : store) (self : t) :
  __init__ metadata h = Ok (self, h') ->
  exists p, md_parameters metadata = Some p /\ has_fields h p primary_keys.
Proof.
  unfold __init__. intros H.
  unfold mbind at 1, M_bind at 1 in H.
  destruct (md_parameters metadata) as [prm|]; [| discriminate].
  cbn [mret M_ret] in H. exists prm. split; [reflexivity |].
  unfold primary_keys.
  repeat match type of H with
  | (getitem_at ?o ?k ≫= _) ?s = _ =>
      let E := fresh "E" in
      let v := fresh "v" in
      let s' := fresh "s" in
      unfold mbind at 1, M_bind at 1 in H;
      destruct (getitem_at o k s) as [[v s'] | ?] eqn:E; [| discriminate];
      apply getitem_at_field_inv in E; destruct E as [-> E]
  end.
  repeat (apply has_fields_cons; split; [eauto |]).
  constructor.
Qed.

Lemma init_ok (metadata : Metadata) (h : store) (p : ref) :
  md_parameters metadata = Some p -> has_fields h p primary_keys ->
  Forall (fun entry => has_fields h entry.2 comparison_keys)
         (default [] (md_comparison_parameters metadata)) ->
  default [] (md_comparison_parameters metadata) = []
  \/ (is_Some (md_mc metadata) /\ is_Some (md_delta_m metadata)) ->
  exists self h', __init__ metadata h = Ok (self, h').
Proof.
  intros Hp Hkeys Hall Hmc. unfold primary_keys in Hkeys.
  repeat (apply has_fields_cons in Hkeys;
          let v := fresh "v" in
          let Hv := fresh "Hv" in
          destruct Hkeys as [[v Hv] Hkeys]).
  assert (exists h',
            for_each (harmonise (md_mc metadata) (md_delta_m metadata))
                     (default [] (md_comparison_parameters metadata)) h
            = Ok (tt, h')) as [h' Hloop].
  { destruct Hmc as [-> | [[smc ->] [sdm ->]]].
    - now exists h.
    - now apply for_each_harmonise_ok. }
  unfold __init__. rewrite Hp. cbn zeta.
  unfold mbind at 1, M_bind at 1. cbn [mret M_ret].
  repeat (erewrite bind_getitem_at by eassumption).
  unfold mbind at 1, M_bind at 1. rewrite Hloop.
  eexists _, _. reflexivity.
Qed.

(** X14.  The constructor succeeds exactly when [metadata] has primary
    parameters with the nine keys it reads, every comparison set has the
    eight keys [log10_mu], [log10_d], [log10_k0], [gamma], [rho], [beta],
    [mc], [delta_m], and, as soon as there is a comparison set, the primary
    [mc] and [delta_m] are given.  Without comparison sets it succeeds
    even when [mc] and [delta_m] are missing; keys as [log10_tau] are not
    asked of a comparison set. *)
Theorem constructor_succeeds_iff (metadata : Metadata) (h : store) :
  (exists self h', __init__ metadata h = Ok (self, h'))
  <-> (exists p, md_parameters metadata = Some p
                 /\ has_fields h p primary_keys)
      /\ Forall (fun entry => has_fields h entry.2 comparison_keys)
                (default [] (md_comparison_parameters metadata))
      /\ (default [] (md_comparison_parameters metadata) = []
          \/ (is_Some (md_mc metadata) /\ is_Some (md_delta_m metadata))).
Proof.
  split.
  - intros (self & h' & Hrun).
    split; [exact (init_primary _ _ _ _ Hrun) |].
    apply init_inv in Hrun. destruct Hrun as [Hloop _].
    pose proof (for_each_harmonise_fields _ _ _ _ _ _ Hloop)
      as (Hall & Hmc & _ & _).
    split; assumption.
  - intros ((p & Hp & Hkeys) & Hall & Hmc).
    exact (init_ok metadata h p Hp Hkeys Hall Hmc).
Qed.

End ConstructorOutcome.

(** * Constructing more than once *)

Section ConstructorTwice.
Import NumPy Plots ETASFitVisualisation Fields.
Local Open Scope R_scope.

(** The value of [log10_d] after a construction. *)
Lemma init_log10_d (metadata : Metadata) (h h' : store) (self : t)
    (area_label : string) (params : ref) (smc sdm pmc pdm x g : R) :
  __init__ metadata h = Ok (self, h') ->
  In (area_label, params) (default [] (md_comparison_parameters metadata)) ->
  NoDup (map snd (default [] (md_comparison_parameters metadata))) ->
  md_mc metadata = Some (Fin smc) -> md_delta_m metadata = Some (Fin sdm) ->
  field_of h params "mc" = Some (Fin pmc) ->
  field_of h params "delta_m" = Some (Fin pdm) ->
  field_of h params "gamma" = Some (Fin g) ->
  field_of h params "log10_d" = Some (Fin x) ->
  field_of h' params "log10_d"
  = Some (Fin (x + (pmc - pdm / 2 - (smc - sdm / 2)) * g / ln 10)).
Proof.
  intros Hrun Hin Hnd Hsmc Hsdm Hmc Hdm Hg Hd.
  apply init_inv in Hrun. destruct Hrun as [Hloop _].
  apply field_of_Some in Hmc. destruct Hmc as (p & Hp & Hmc).
  apply field_of_Some in Hdm. destruct Hdm as (p' & Hp' & Hdm).
  rewrite Hp in Hp'. injection Hp' as <-.
  apply field_of_Some in Hg. destruct Hg as (p' & Hp' & Hg).
  rewrite Hp in Hp'. injection Hp' as <-.
  apply field_of_Some in Hd. destruct Hd as (p' & Hp' & Hd).
  rewrite Hp in Hp'. injection Hp' as <-.
  destruct (for_each_harmonise_writes _ _ _ _ _ _ _ _ _ Hloop Hnd Hin Hp)
    as (xmu & xd & xk & xg & xr & xb & xmc & xdm & ymc & ydm & H).
  destruct H as (_ & Hd' & _ & Hg' & _ & _ & Hmc' & Hdm' & Hsmc' & Hsdm'
                 & Hnew).
  rewrite Hd in Hd'. injection Hd' as <-.
  rewrite Hg in Hg'. injection Hg' as <-.
  rewrite Hmc in Hmc'. injection Hmc' as <-.
  rewrite Hdm in Hdm'. injection Hdm' as <-.
  rewrite Hsmc in Hsmc'. injection Hsmc' as <-.
  rewrite Hsdm in Hsdm'. injection Hsdm' as <-.
  unfold field_of. rewrite Hnew. cbn.
  rewrite lookup_insert_ne by discriminate. rewrite lookup_insert_eq.
  now rewrite del_m_Fin, log10_rescale_d.
Qed.

(** X15.  The shift is applied at every construction: the constructor
    leaves [mc] and [delta_m] of a comparison set as they were, so a second
    object made from the same [metadata] succeeds as the first did and
    moves [log10_d] of the caller's dictionary once more, by
    [del_m * gamma / ln 10] each time.  (All values numbers, no two labels
    sharing one dictionary.) *)
Theorem constructing_twice_rescales_twice
    (metadata : Metadata) (h h1 : store) (self1 : t)
    (area_label : string) (params : ref) (smc sdm pmc pdm x g : R) :
  __init__ metadata h = Ok (self1, h1) ->
  In (area_label, params) (default [] (md_comparison_parameters metadata)) ->
  NoDup (map snd (default [] (md_comparison_parameters metadata))) ->
  md_mc metadata = Some (Fin smc) -> md_delta_m metadata = Some (Fin sdm) ->
  field_of h params "mc" = Some (Fin pmc) ->
  field_of h params "delta_m" = Some (Fin pdm) ->
  field_of h params "gamma" = Some (Fin g) ->
  field_of h params "log10_d" = Some (Fin x) ->
  let shift := (pmc - pdm / 2 - (smc - sdm / 2)) * g / ln 10 in
  field_of h1 params "log10_d" = Some (Fin (x + shift))
  /\ exists self2 h2,
       __init__ metadata h1 = Ok (self2, h2)
       /\ field_of h2 params "log10_d" = Some (Fin (x + shift + shift)).
Proof.
  intros Hrun Hin Hnd Hsmc Hsdm Hmc Hdm Hg Hd shift.
  pose proof (init_log10_d _ _ _ _ _ _ _ _ _ _ _ _
                Hrun Hin Hnd Hsmc Hsdm Hmc Hdm Hg Hd) as Hfirst.
  split; [exact Hfirst |].
  pose proof (init_primary _ _ _ _ Hrun) as (p & Hp & Hkeys).
  pose proof Hrun as Hloop. apply init_inv in Hloop.
  destruct Hloop as [Hloop _].
  pose proof (for_each_harmonise_fields _ _ _ _ _ _ Hloop)
    as (Hall & Hgiven & Hsame & Hdom).
  destruct (init_ok metadata h1 p Hp) as (self2 & h2 & Hrun2).
  - unfold has_fields in *. eapply Forall_impl; [exact Hkeys |].
    intros key Hk. cbn beta in *. now apply Hdom.
  - eapply Forall_impl; [exact Hall |]. intros e He.
    unfold has_fields in *. eapply Forall_impl; [exact He |].
    intros key Hk. cbn beta in *. now apply Hdom.
  - exact Hgiven.
  - exists self2, h2. split; [exact Hrun2 |].
    apply (init_log10_d metadata h1 h2 self2 area_label params smc sdm
             pmc pdm (x + shift) g Hrun2 Hin Hnd Hsmc Hsdm).
    + rewrite Hsame; [exact Hmc |]. cbn. intuition discriminate.
    + rewrite Hsame; [exact Hdm |]. cbn. intuition discriminate.
    + rewrite Hsame; [exact Hg |]. cbn. intuition discriminate.
    + exact Hfirst.
Qed.

Lemma constructing_twice_rescales_twice_witness :
  exists (self1 : t) (h1 : store),
    __init__ Scenarios.session_metadata (Scenarios.session_store 4)
    = Ok (self1, h1)
    /\ field_of h1 2%positive "log10_d"
       = Some (Fin (-1 + (4 - 1 / 10 / 2 - (3 - 1 / 10 / 2)) * 1 / ln 10))
    /\ exists self2 h2,
         __init__ Scenarios.session_metadata h1 = Ok (self2, h2)
         /\ field_of h2 2%positive "log10_d"
            = Some (Fin (-1 + (4 - 1 / 10 / 2 - (3 - 1 / 10 / 2)) * 1 / ln 10
                         + (4 - 1 / 10 / 2 - (3 - 1 / 10 / 2)) * 1 / ln 10)).
Proof.
  destruct (session_runs 4) as (self1 & h1 & Hrun).
  exists self1, h1. split; [exact Hrun |].
  apply (constructing_twice_rescales_twice
           Scenarios.session_metadata (Scenarios.session_store 4) h1 self1
           "region" 2%positive 3 (1 / 10) 4 (1 / 10) (-1) 1 Hrun).
  - now left.
  - cbn. repeat constructor. intros Hin. inversion Hin.
  - reflexivity.
  - reflexivity.
  - reflexivity.
  - reflexivity.
  - reflexivity.
  - reflexivity.
Defined.

End ConstructorTwice.

(** * The methods that draw the kernels *)

Section KernelMethods.
Import NumPy Plots ETASFitVisualisation Methods Fields.
Local Open Scope R_scope.

Lemma bind_getitem_at_inv {A : Type} (obj : ref) (key : string) (h h' : store)
    (k : npfloat -> M A) (a : A) :
  (getitem_at obj key ≫= k) h = Ok (a, h') ->
  exists v, field_of h obj key = Some v /\ k v h = Ok (a, h').
Proof.
  unfold mbind, M_bind.
  destruct (getitem_at obj key h) as [[v h1] | e] eqn:E; [| discriminate].
  apply getitem_at_field_inv in E. destruct E as [-> E].
  intros H. now exists v.
Qed.

Lemma time_comparison_entry_ok (entry : string * ref) (h : store) :
  has_fields h entry.2 ["log10_tau"; "omega"; "log10_c"]%string ->
  exists dict : gmap string npfloat,
    time_comparison_entry entry h = Ok ((entry.1, dict), h)
    /\ is_Some (dict !! "tau") /\ is_Some (dict !! "c")
    /\ is_Some (dict !! "omega").
Proof.
  intros Hkeys.
  repeat (apply has_fields_cons in Hkeys;
          let v := fresh "v" in
          let Hv := fresh "Hv" in
          destruct Hkeys as [[v Hv] Hkeys]).
  unfold time_comparison_entry.
  repeat (erewrite bind_getitem_at by eassumption).
  eexists. split; [reflexivity |].
  split; [| split]; eexists; reflexivity.
Qed.

Lemma time_comparison_entry_inv (entry : string * ref) (h h' : store)
    (e : string * gmap string npfloat) :
  time_comparison_entry entry h = Ok (e, h') ->
  h' = h /\ has_fields h entry.2 ["log10_tau"; "omega"; "log10_c"]%string.
Proof.
  unfold time_comparison_entry. intros H.
  apply bind_getitem_at_inv in H. destruct H as (v1 & H1 & H).
  apply bind_getitem_at_inv in H. destruct H as (v2 & H2 & H).
  apply bind_getitem_at_inv in H. destruct H as (v3 & H3 & H).
  injection H as _ <-. split; [reflexivity |].
  repeat (apply has_fields_cons; split; [eauto |]). constructor.
Qed.

Lemma map_each_cons {A B : Type} (body : A -> M B) (x : A) (l : list A)
    (h : store) :
  map_each body (x :: l) h
  = match body x h with
    | Ok (y, h1) =>
        match map_each body l h1 with
        | Ok (ys, h2) => Ok (y :: ys, h2)
        | Raise e => Raise e
        end
    | Raise e => Raise e
    end.
Proof.
  cbn [map_each]. unfold mbind at 1, M_bind at 1.
  destruct (body x h) as [[y h1] | e]; [| reflexivity].
  unfold mbind, M_bind. destruct (map_each body l h1) as [[ys h2] | e];
    reflexivity.
Qed.

Lemma time_entries_ok (l : list (string * ref)) (h : store) :
  Forall (fun entry =>
            has_fields h entry.2 ["log10_tau"; "omega"; "log10_c"]%string) l ->
  exists entries : list (string * gmap string npfloat),
    map_each time_comparison_entry l h = Ok (entries, h)
    /\ Forall (fun entry : string * params_dict =>
                 is_Some (entry.2 !! "tau") /\ is_Some (entry.2 !! "c")
                 /\ is_Some (entry.2 !! "omega")) entries.
Proof.
  induction 1 as [|entry l Hentry _ (entries & IH & Hall)].
  - exists []. split; [reflexivity | constructor].
  - destruct (time_comparison_entry_ok entry h Hentry) as (dict & Hd & Hk).
    exists ((entry.1, dict) :: entries). split.
    + now rewrite map_each_cons, Hd, IH.
    + now constructor.
Qed.

Lemma time_entries_inv (l : list (string * ref)) (h h' : store)
    (entries : list (string * gmap string npfloat)) :
  map_each time_comparison_entry l h = Ok (entries, h') ->
  h' = h
  /\ Forall (fun entry =>
               has_fields h entry.2 ["log10_tau"; "omega"; "log10_c"]%string) l.
Proof.
  revert entries h'. induction l as [|entry l IH]; intros entries h' H.
  - injection H as _ <-. split; [reflexivity | constructor].
  - rewrite map_each_cons in H.
    destruct (time_comparison_entry entry h) as [[y h1] | e] eqn:E;
      [| discriminate].
    apply time_comparison_entry_inv in E. destruct E as [-> E].
    destruct (map_each time_comparison_entry l h) as [[ys h2] | e] eqn:E2;
      [| discriminate].
    destruct (IH _ _ eq_refl) as [-> Hall].
    injection H as _ <-. split; [reflexivity | now constructor].
Qed.

Lemma temporal_decay_plot_ok (Pmat : list PairRow) (tau c omega : npfloat)
    (label : option string) (comparison_params : list (string * params_dict))
    (file_name : string) :
  Forall (fun entry : string * params_dict =>
            is_Some (entry.2 !! "tau") /\ is_Some (entry.2 !! "c")
            /\ is_Some (entry.2 !! "omega")) comparison_params ->
  exists fig,
    temporal_decay_plot Pmat tau c omega label comparison_params file_name
    = Ok fig /\ saved_as fig = Plain file_name.
Proof.
  intros Hall. unfold temporal_decay_plot. rewrite temporal_counts_ok.
  cbn [mbind result_bind].
  assert (exists others,
            mapM temporal_comparison_curve comparison_params = Ok others)
    as [others ->].
  { induction Hall as [|entry l ([vt Ht] & [vc Hc] & [vo Ho]) _ [others IH]].
    - now exists [].
    - rewrite mapM_result_cons, IH.
      unfold temporal_comparison_curve, getitem. rewrite Ht, Hc, Ho.
      cbn [mbind result_bind mret result_ret]. now eexists. }
  eexists. split; reflexivity.
Qed.

(** X16.  [time_kernel_plot] reads the store and writes nothing into it; it
    saves its figure under [os.path.join(store_path, fn_store)], and it
    succeeds exactly when [store_path] is given and every comparison set has
    the keys [log10_tau], [omega] and [log10_c]. *)
Theorem time_kernel_plot_outcome (self : t) (fn_store : string) (h : store) :
  (forall fig h',
     time_kernel_plot self fn_store h = Ok (fig, h') ->
     h' = h
     /\ exists path, store_path self = Some path
                     /\ saved_as fig = Plain (path_join path fn_store))
  /\ ((exists fig, time_kernel_plot self fn_store h = Ok (fig, h))
      <-> is_Some (store_path self)
          /\ Forall (fun entry =>
                       has_fields h entry.2
                         ["log10_tau"; "omega"; "log10_c"]%string)
                    (comparison_parameters self)).
Proof.
  assert (forall fig h',
            time_kernel_plot self fn_store h = Ok (fig, h') ->
            h' = h
            /\ (exists path, store_path self = Some path
                             /\ saved_as fig = Plain (path_join path fn_store))
            /\ Forall (fun entry =>
                         has_fields h entry.2
                           ["log10_tau"; "omega"; "log10_c"]%string)
                      (comparison_parameters self)) as Hinv.
  { intros fig h' H. unfold time_kernel_plot in H.
    unfold mbind at 1, M_bind at 1 in H.
    destruct (map_each time_comparison_entry (comparison_parameters self) h)
      as [[entries h1] | e] eqn:E; [| discriminate].
    apply time_entries_inv in E. destruct E as [-> Hall].
    unfold mbind at 1, M_bind at 1 in H.
    destruct (store_path self) as [path|]; [| discriminate].
    cbn [text mret M_ret] in H. unfold lift in H.
    destruct (temporal_decay_plot _ _ _ _ _ entries _) as [fig0 | e] eqn:E;
      [| discriminate].
    injection H as <- <-. split; [reflexivity |]. split; [| exact Hall].
    exists path. split; [reflexivity |].
    unfold temporal_decay_plot in E.
    destruct (temporal_counts _) as [counts | e]; [| discriminate].
    cbn [mbind result_bind] in E.
    destruct (mapM _ entries) as [others | e]; [| discriminate].
    apply Ok_inj in E. now subst fig0. }
  split.
  - intros fig h' H. destruct (Hinv fig h' H) as (-> & Hpath & _).
    now split.
  - split.
    + intros [fig H]. destruct (Hinv fig h H) as (_ & (path & -> & _) & Hall).
      split; [now eexists | exact Hall].
    + intros [[path Hpath] Hall].
      destruct (time_entries_ok _ _ Hall) as (entries & Hentries & Hkeys).
      destruct (temporal_decay_plot_ok (ETASFitVisualisation.Pij self)
                  (tau self) (c self) (omega self) (label self) entries
                  (path_join path fn_store) Hkeys) as (fig & Hfig & _).
      exists fig. unfold time_kernel_plot.
      unfold mbind at 1, M_bind at 1. rewrite Hentries.
      unfold mbind at 1, M_bind at 1. rewrite Hpath.
      cbn [text mret M_ret]. unfold lift. now rewrite Hfig.
Qed.

(** X17.  The constructor does not ask a comparison set for [log10_tau],
    and leaves that key alone: after a construction that succeeded with a
    first comparison set without it, [time_kernel_plot] raises
    [KeyError] for ["log10_tau"]. *)
Theorem time_kernel_plot_needs_a_key_the_constructor_does_not_check
    (metadata : Metadata) (h h' : store) (self : t) (area_label : string)
    (params : ref) (rest : list (string * ref)) (fn_store : string) :
  __init__ metadata h = Ok (self, h') ->
  md_comparison_parameters metadata = Some ((area_label, params) :: rest) ->
  field_of h params "log10_tau" = None ->
  time_kernel_plot self fn_store h' = Raise (KeyError "log10_tau").
Proof.
  intros Hrun Hcmp Hnone.
  apply init_inv in Hrun. destruct Hrun as [Hloop Hkept].
  rewrite Hcmp in Hloop, Hkept.
  change (default [] (Some ((area_label, params) :: rest)))
    with ((area_label, params) :: rest) in Hloop, Hkept.
  pose proof (for_each_harmonise_fields _ _ _ _ _ _ Hloop)
    as (Hall & _ & Hsame & Hdom).
  inversion Hall as [|e0 l0 Hentry _]; subst.
  apply has_fields_cons in Hentry. destruct Hentry as [Hmu _].
  cbn [snd] in Hmu. apply Hdom in Hmu. destruct Hmu as [vmu Hmu].
  apply field_of_Some in Hmu. destruct Hmu as (p & Hp & _).
  assert (field_of h' params "log10_tau" = None) as Hnone'.
  { rewrite Hsame; [exact Hnone |]. cbn. intuition discriminate. }
  unfold field_of in Hnone'. rewrite Hp in Hnone'. cbn in Hnone'.
  unfold time_kernel_plot. rewrite Hkept.
  unfold mbind at 1, M_bind at 1. rewrite map_each_cons.
  unfold time_comparison_entry at 1. unfold mbind at 1, M_bind at 1.
  unfold getitem_at at 1. cbn [snd]. now rewrite Hp, Hnone'.
Qed.

Lemma time_kernel_plot_needs_a_key_the_constructor_does_not_check_witness :
  exists (self : t) (h' : store),
    __init__ Scenarios.session_metadata (Scenarios.session_store 4)
    = Ok (self, h')
    /\ time_kernel_plot self "time_kernel_fit.pdf" h'
       = Raise (KeyError "log10_tau").
Proof.
  destruct (session_runs 4) as (self & h' & Hrun).
  exists self, h'. split; [exact Hrun |].
  apply (time_kernel_plot_needs_a_key_the_constructor_does_not_check
           Scenarios.session_metadata (Scenarios.session_store 4) h' self
           "region" 2%positive [] "time_kernel_fit.pdf" Hrun);
    reflexivity.
Defined.

(** The [log10_d] that the constructor stores. *)
Lemma init_log10_d_written (metadata : Metadata) (h h' : store) (self : t)
    (area_label : string) (params : ref) (smc sdm pmc pdm x g : npfloat) :
  __init__ metadata h = Ok (self, h') ->
  In (area_label, params) (default [] (md_comparison_parameters metadata)) ->
  NoDup (map snd (default [] (md_comparison_parameters metadata))) ->
  md_mc metadata = Some smc -> md_delta_m metadata = Some sdm ->
  field_of h params "mc" = Some pmc ->
  field_of h params "delta_m" = Some pdm ->
  field_of h params "gamma" = Some g ->
  field_of h params "log10_d" = Some x ->
  field_of h' params "log10_d"
  = Some (nlog10 (rescale_d (npow (Fin 10) x) (del_m pmc pdm smc sdm) g)).
Proof.
  intros Hrun Hin Hnd Hsmc Hsdm Hmc Hdm Hg Hd.
  apply init_inv in Hrun. destruct Hrun as [Hloop _].
  apply field_of_Some in Hmc. destruct Hmc as (p & Hp & Hmc).
  apply field_of_Some in Hdm. destruct Hdm as (p' & Hp' & Hdm).
  rewrite Hp in Hp'. injection Hp' as <-.
  apply field_of_Some in Hg. destruct Hg as (p' & Hp' & Hg).
  rewrite Hp in Hp'. injection Hp' as <-.
  apply field_of_Some in Hd. destruct Hd as (p' & Hp' & Hd).
  rewrite Hp in Hp'. injection Hp' as <-.
  destruct (for_each_harmonise_writes _ _ _ _ _ _ _ _ _ Hloop Hnd Hin Hp)
    as (xmu & xd & xk & xg & xr & xb & xmc & xdm & ymc & ydm & H).
  destruct H as (_ & Hd' & _ & Hg' & _ & _ & Hmc' & Hdm' & Hsmc' & Hsdm'
                 & Hnew).
  rewrite Hd in Hd'. injection Hd' as <-.
  rewrite Hg in Hg'. injection Hg' as <-.
  rewrite Hmc in Hmc'. injection Hmc' as <-.
  rewrite Hdm in Hdm'. injection Hdm' as <-.
  rewrite Hsmc in Hsmc'. injection Hsmc' as <-.
  rewrite Hsdm in Hsdm'. injection Hsdm' as <-.
  unfold field_of. rewrite Hnew. cbn.
  rewrite lookup_insert_ne by discriminate. now rewrite lookup_insert_eq.
Qed.

(** X18.  What [space_kernel_plot] hands to [spatial_decay_plot] for a
    comparison set after the construction: its [gamma] and [rho] as they
    were, and for [d] ten to the power of the [log10_d] that the constructor
    stored, which is the [log10] of the set's [d = 10^log10_d] times
    [exp(del_m * gamma)].  The round trip through [log10] is left as the
    code performs it.  (No two labels share one dictionary.) *)
Theorem space_kernel_plot_uses_rescaled_d
    (metadata : Metadata) (h h' : store) (self : t)
    (area_label : string) (params : ref)
    (smc sdm pmc pdm x g rho0 : npfloat) :
  __init__ metadata h = Ok (self, h') ->
  In (area_label, params) (default [] (md_comparison_parameters metadata)) ->
  NoDup (map snd (default [] (md_comparison_parameters metadata))) ->
  md_mc metadata = Some smc -> md_delta_m metadata = Some sdm ->
  field_of h params "mc" = Some pmc ->
  field_of h params "delta_m" = Some pdm ->
  field_of h params "gamma" = Some g ->
  field_of h params "log10_d" = Some x ->
  field_of h params "rho" = Some rho0 ->
  In (area_label, params) (comparison_parameters self)
  /\ space_comparison_entry (area_label, params) h'
     = Ok ((area_label,
            <["gamma" := g]>
              (<["rho" := rho0]>
                 (<["d" := npow (Fin 10)
                             (nlog10 (rescale_d (npow (Fin 10) x)
                                                (del_m pmc pdm smc sdm) g))]>
                    ∅))), h').
Proof.
  intros Hrun Hin Hnd Hsmc Hsdm Hmc Hdm Hg Hd Hrho.
  pose proof (init_log10_d_written _ _ _ _ _ _ _ _ _ _ _ _
                Hrun Hin Hnd Hsmc Hsdm Hmc Hdm Hg Hd) as Hnew.
  apply init_inv in Hrun. destruct Hrun as [Hloop Hkept].
  split; [now rewrite Hkept |].
  pose proof (for_each_harmonise_fields _ _ _ _ _ _ Hloop)
    as (_ & _ & Hsame & _).
  assert (field_of h' params "rho" = Some rho0) as Hrho'.
  { rewrite Hsame; [exact Hrho |]. cbn. intuition discriminate. }
  assert (field_of h' params "gamma" = Some g) as Hg'.
  { rewrite Hsame; [exact Hg |]. cbn. intuition discriminate. }
  unfold space_comparison_entry. cbn [fst snd].
  rewrite (bind_getitem_at _ _ _ _ _ Hnew).
  rewrite (bind_getitem_at _ _ _ _ _ Hrho').
  now rewrite (bind_getitem_at _ _ _ _ _ Hg').
Qed.

Lemma space_kernel_plot_uses_rescaled_d_witness :
  exists (self : t) (h' : store),
    __init__ Scenarios.session_metadata (Scenarios.session_store 4)
    = Ok (self, h')
    /\ In ("region"%string, 2%positive) (comparison_parameters self)
    /\ space_comparison_entry ("region"%string, 2%positive) h'
       = Ok (("region"%string,
              <["gamma" := Fin 1]>
                (<["rho" := Fin (1 / 2)]>
                   (<["d" := npow (Fin 10)
                               (nlog10
                                  (rescale_d (npow (Fin 10) (Fin (-1)))
                                     (del_m (Fin 4) (Fin (1 / 10)) (Fin 3)
                                            (Fin (1 / 10)))
                                     (Fin 1)))]> ∅))), h').
Proof.
  destruct (session_runs 4) as (self & h' & Hrun).
  exists self, h'. split; [exact Hrun |].
  apply (space_kernel_plot_uses_rescaled_d
           Scenarios.session_metadata (Scenarios.session_store 4) h' self
           "region" 2%positive (Fin 3) (Fin (1 / 10)) (Fin 4) (Fin (1 / 10))
           (Fin (-1)) (Fin 1) (Fin (1 / 2)) Hrun).
  - now left.
  - cbn. repeat constructor. intros Hin. inversion Hin.
  - reflexivity.
  - reflexivity.
  - reflexivity.
  - reflexivity.
  - reflexivity.
  - reflexivity.
  - reflexivity.
Defined.

End KernelMethods.

(** * One figure for every requested magnitude *)

Section SpatialFigures.
Import NumPy Plots Bins Tables Scenarios.
Local Open Scope R_scope.

Lemma spatial_counts_far (Pmat : list PairRow) (moi : npfloat) (r : R) :
  series_max (col spatial_distance_squared (Psubmat Pmat moi)) = Fin r ->
  exp (-2) < r ->
  exists counts, spatial_counts Pmat moi = Ok counts.
Proof.
  intros Hmax Hfar.
  assert (0 < r) as Hr by (pose proof (exp_pos (-2)); lra).
  unfold spatial_counts.
  rewrite (distance_bins_edges Pmat moi r Hmax Hr), <- logspace_Fin.
  rewrite histogram_logspace; [now eexists | now apply ln_sqrt_far |].
  apply col_pair_weights_length.
Qed.

Lemma spatial_comparison_curves_ok (bins : list npfloat) (moi mc : npfloat)
    (comparison_params : list (string * params_dict)) :
  Forall (fun entry : string * params_dict =>
            is_Some (entry.2 !! "d") /\ is_Some (entry.2 !! "gamma")
            /\ is_Some (entry.2 !! "rho")) comparison_params ->
  exists others : list Curve,
    mapM (spatial_comparison_curve bins moi mc) comparison_params = Ok others
    /\ map curve_label others
       = map (fun entry => Some entry.1) comparison_params.
Proof.
  induction 1 as [|entry l [[d Hd] [[g Hg] [r Hr]]] _ [others [IH Hlab]]].
  - now exists [].
  - eexists (_ :: others). split.
    + rewrite mapM_result_cons.
      rewrite (comparison_curve_ok _ _ _ d g r) by assumption.
      rewrite IH. reflexivity.
    + cbn [map curve_label]. now rewrite Hlab.
Qed.

Lemma spatial_decay_figure_ok (Pmat : list PairRow)
    (d gamma rho mc : npfloat) (label : option string)
    (comparison_params : list (string * params_dict)) (file_name : string)
    (moi : npfloat) :
  (Psubmat Pmat moi = []
   \/ exists r,
        series_max (col spatial_distance_squared (Psubmat Pmat moi)) = Fin r
        /\ exp (-2) < r) ->
  Forall (fun entry : string * params_dict =>
            is_Some (entry.2 !! "d") /\ is_Some (entry.2 !! "gamma")
            /\ is_Some (entry.2 !! "rho")) comparison_params ->
  exists fig,
    spatial_decay_figure Pmat d gamma rho mc label comparison_params
                         file_name moi = Ok fig
    /\ saved_as fig = WithMagnitude file_name (round moi 2)
    /\ map curve_label (curves fig)
       = label :: map (fun entry => Some entry.1) comparison_params.
Proof.
  intros Hsub Hkeys.
  assert (exists counts, spatial_counts Pmat moi = Ok counts)
    as [counts Hcounts].
  { destruct Hsub as [Hempty | (r & Hmax & Hfar)].
    - rewrite (empty_subset_counts _ _ Hempty). now eexists.
    - exact (spatial_counts_far Pmat moi r Hmax Hfar). }
  destruct (spatial_comparison_curves_ok (distance_bins Pmat moi) moi mc
              comparison_params Hkeys) as (others & Hothers & Hlab).
  unfold spatial_decay_figure. cbn zeta. rewrite Hcounts.
  cbn [mbind result_bind]. rewrite Hothers.
  eexists. split; [reflexivity |]. split; [reflexivity |].
  cbn [curves map curve_label]. now rewrite Hlab.
Qed.

(** X19.  When, for every requested magnitude, the table has no pair of
    that magnitude or its pairs reach beyond [e^-1] km (largest squared
    distance above [e^-2]), and the comparison sets have the keys [d],
    [gamma] and [rho], [spatial_decay_plot] raises nothing and saves one
    figure for every requested magnitude, in order, under the file name
    followed by the magnitude rounded to two decimals, each with one curve
    for the primary parameters and one for every comparison set. *)
Theorem spatial_decay_plot_saves_one_figure_per_magnitude
    (Pmat : list PairRow) (magnitudes : list npfloat)
    (d gamma rho mc : npfloat) (label : option string)
    (comparison_params : list (string * params_dict)) (file_name : string) :
  Forall (fun moi =>
            Psubmat Pmat moi = []
            \/ exists r,
                 series_max (col spatial_distance_squared (Psubmat Pmat moi))
                 = Fin r
                 /\ exp (-2) < r) magnitudes ->
  Forall (fun entry : string * params_dict =>
            is_Some (entry.2 !! "d") /\ is_Some (entry.2 !! "gamma")
            /\ is_Some (entry.2 !! "rho")) comparison_params ->
  exists figs : list Figure,
    spatial_decay_plot Pmat magnitudes d gamma rho mc label comparison_params
                       file_name = Ok figs
    /\ map saved_as figs
       = map (fun moi => WithMagnitude file_name (round moi 2)) magnitudes
    /\ Forall (fun fig =>
                 map curve_label (curves fig)
                 = label :: map (fun entry => Some entry.1) comparison_params)
              figs.
Proof.
  intros Hmags Hkeys. unfold spatial_decay_plot.
  induction Hmags as [|moi l Hmoi _ (figs & IH & Hnames & Hcurves)].
  - exists []. split; [reflexivity |]. split; [reflexivity | constructor].
  - destruct (spatial_decay_figure_ok Pmat d gamma rho mc label
                comparison_params file_name moi Hmoi Hkeys)
      as (fig & Hfig & Hname & Hcv).
    exists (fig :: figs). split; [| split].
    + now rewrite mapM_result_cons, Hfig, IH.
    + cbn [map]. now rewrite Hname, Hnames.
    + now constructor.
Qed.

Lemma spatial_decay_plot_saves_one_figure_per_magnitude_witness :
  exists figs : list Figure,
    spatial_decay_plot one_pair_3 [Fin 3; Fin 4] (Fin 1) (Fin 1) (Fin 1)
                       (Fin 2) None [] "space_kernel_fit" = Ok figs
    /\ map saved_as figs
       = map (fun moi => WithMagnitude "space_kernel_fit" (round moi 2))
             [Fin 3; Fin 4]
    /\ Forall (fun fig =>
                 map curve_label (curves fig)
                 = None :: map (fun entry : string * params_dict =>
                                  Some entry.1) [])
              figs.
Proof.
  apply spatial_decay_plot_saves_one_figure_per_magnitude.
  - constructor; [| constructor; [| constructor]].
    + right. exists 100. split.
      * unfold one_pair_3. rewrite Psubmat_one_row. reflexivity.
      * pose proof exp_minus_2_lt_1. lra.
    + left. unfold Psubmat, one_pair_3, pair.
      cbn [List.filter source_magnitude].
      replace (Fin 3) with (Fin (IZR 30 / 10)) by (f_equal; lra).
      replace (Fin 4) with (Fin (IZR 40 / 10)) by (f_equal; lra).
      rewrite !round_tenths, neq_Fin_ne by lra. reflexivity.
  - constructor.
Defined.

End SpatialFigures.

(** * [space_kernel_plot] *)

Section SpaceKernelMethod.
Import NumPy Plots ETASFitVisualisation Methods Fields Scenarios.
Local Open Scope R_scope.

Lemma session_self_constructed :
  exists h' : store,
    __init__ session_metadata (session_store 4) = Ok (session_self, h').
Proof. eexists. reflexivity. Qed.

Lemma space_comparison_entry_ok (entry : string * ref) (h : store) :
  has_fields h entry.2 ["log10_d"; "rho"; "gamma"]%string ->
  exists dict : gmap string npfloat,
    space_comparison_entry entry h = Ok ((entry.1, dict), h)
    /\ is_Some (dict !! "d") /\ is_Some (dict !! "gamma")
    /\ is_Some (dict !! "rho").
Proof.
  intros Hkeys.
  repeat (apply has_fields_cons in Hkeys;
          let v := fresh "v" in
          let Hv := fresh "Hv" in
          destruct Hkeys as [[v Hv] Hkeys]).
  unfold space_comparison_entry.
  repeat (erewrite bind_getitem_at by eassumption).
  eexists. split; [reflexivity |].
  split; [| split]; eexists; reflexivity.
Qed.

Lemma space_entries_ok (l : list (string * ref)) (h : store) :
  Forall (fun entry =>
            has_fields h entry.2 ["log10_d"; "rho"; "gamma"]%string) l ->
  exists entries : list (string * gmap string npfloat),
    map_each space_comparison_entry l h = Ok (entries, h)
    /\ Forall (fun entry : string * params_dict =>
                 is_Some (entry.2 !! "d") /\ is_Some (entry.2 !! "gamma")
                 /\ is_Some (entry.2 !! "rho")) entries.
Proof.
  induction 1 as [|entry l Hentry _ (entries & IH & Hall)].
  - exists []. split; [reflexivity | constructor].
  - destruct (space_comparison_entry_ok entry h Hentry) as (dict & Hd & Hk).
    exists ((entry.1, dict) :: entries). split.
    + now rewrite map_each_cons, Hd, IH.
    + now constructor.
Qed.

(** X20.  [space_kernel_plot] on an object with a [store_path], a list of
    magnitudes and an [mc], whose comparison sets have the keys
    [log10_d], [rho] and [gamma]: when for every magnitude of the list the
    table has no pair of that magnitude or its pairs reach beyond [e^-1] km,
    the method raises nothing, writes nothing into the store, and saves one
    figure for every magnitude, in order, under
    [os.path.join(store_path, fn_store)] followed by the magnitude rounded
    to two decimals. *)
Theorem space_kernel_plot_saves_one_figure_per_magnitude
    (self : t) (fn_store : string) (h : store) (path : string)
    (magnitudes : list npfloat) (mc0 : npfloat) :
  store_path self = Some path -> magnitude_list self = Some magnitudes ->
  mc self = Some mc0 ->
  Forall (fun entry =>
            has_fields h entry.2 ["log10_d"; "rho"; "gamma"]%string)
         (comparison_parameters self) ->
  Forall (fun moi =>
            Psubmat (ETASFitVisualisation.Pij self) moi = []
            \/ exists r,
                 series_max (col spatial_distance_squared
                               (Psubmat (ETASFitVisualisation.Pij self) moi))
                 = Fin r
                 /\ exp (-2) < r) magnitudes ->
  exists figs : list Figure,
    space_kernel_plot self fn_store h = Ok (figs, h)
    /\ map saved_as figs
       = map (fun moi => WithMagnitude (path_join path fn_store) (round moi 2))
             magnitudes.
Proof.
  intros Hpath Hmags Hmc Hkeys Hfar.
  destruct (space_entries_ok _ _ Hkeys) as (entries & Hentries & Hdicts).
  assert (exists figs,
            spatial_decay_plot (ETASFitVisualisation.Pij self) magnitudes
              (d self) (gamma self) (rho self) mc0 (label self) entries
              (path_join path fn_store) = Ok figs
            /\ map saved_as figs
               = map (fun moi => WithMagnitude (path_join path fn_store)
                                               (round moi 2)) magnitudes)
    as (figs & Hfigs & Hnames).
  { unfold spatial_decay_plot. clear Hmags.
    induction Hfar as [|moi l Hmoi _ (figs & IH & Hnames)].
    - now exists [].
    - destruct (spatial_decay_figure_ok (ETASFitVisualisation.Pij self)
                  (d self) (gamma self) (rho self) mc0 (label self) entries
                  (path_join path fn_store) moi Hmoi Hdicts)
        as (fig & Hfig & Hname & _).
      exists (fig :: figs). split.
      + now rewrite mapM_result_cons, Hfig, IH.
      + cbn [map]. now rewrite Hname, Hnames. }
  exists figs. split; [| exact Hnames].
  unfold space_kernel_plot.
  unfold mbind at 1, M_bind at 1. rewrite Hentries.
  unfold mbind at 1, M_bind at 1. rewrite Hpath, Hmags, Hmc.
  cbn [text mret M_ret]. unfold lift. now rewrite Hfigs.
Qed.

Lemma pairs_3_subset : Psubmat pairs_3 (Fin 3) = pairs_3.
Proof.
  unfold Psubmat, pairs_3, pair. cbn [List.filter source_magnitude].
  rewrite round_Fin, !neq_Fin_refl. reflexivity.
Qed.

Lemma pairs_3_largest_distance :
  series_max (col spatial_distance_squared pairs_3) = Fin 100.
Proof.
  change (col spatial_distance_squared pairs_3)
    with (map Fin [4; 9; 16; 25; 100]).
  rewrite series_max_reals. unfold Bins.Rlist_max. cbn [fold_left].
  rewrite (Rmax_right 4 9) by lra. rewrite (Rmax_right 9 16) by lra.
  rewrite (Rmax_right 16 25) by lra. now rewrite (Rmax_right 25 100) by lra.
Qed.

Lemma space_kernel_plot_saves_one_figure_per_magnitude_witness :
  exists figs : list Figure,
    space_kernel_plot session_self "space_kernel_fit.pdf" (session_store 4)
    = Ok (figs, session_store 4)
    /\ map saved_as figs
       = map (fun moi => WithMagnitude (path_join "fits" "space_kernel_fit.pdf")
                                       (round moi 2))
             [Fin 3].
Proof.
  apply (space_kernel_plot_saves_one_figure_per_magnitude
           session_self "space_kernel_fit.pdf" (session_store 4) "fits"
           [Fin 3] (Fin 3)).
  - reflexivity.
  - reflexivity.
  - reflexivity.
  - constructor; [| constructor].
    repeat (apply has_fields_cons; split; [eexists; reflexivity |]).
    constructor.
  - constructor; [| constructor]. right. exists 100. split.
    + change (ETASFitVisualisation.Pij session_self) with pairs_3.
      rewrite pairs_3_subset. exact pairs_3_largest_distance.
    + pose proof exp_minus_2_lt_1. lra.
Defined.

End SpaceKernelMethod.
